(** * Order service (src/app.js): telemetry pipeline and fault injection

    A shallow embedding of the Express handlers of [src/app.js] and of the
    two simulated downstream calls they use.  The handlers are written in a
    state-and-exception monad over a [World] that holds the in-memory order
    store, the span table of the tracer, the active-span context, the
    monotonic clock of the tracer and the history of every call made on the
    meter, the tracer, the logger, the timers and the response object.

    Conventions of the model:
    - every [Math.random()] call is represented by the value it returns, a
      rational in [0, 1), handed to the function in call order; arithmetic
      on these values is exact.  Where the rounding of binary64 arithmetic
      reaches the end of a range, the expression is also given on binary64
      numbers ([paymentDelay_binary64]);
    - [Date.now()] is represented by the integer it returns (milliseconds of
      the wall clock), handed to the handler for each of its two calls;
    - every promise of the source is awaited by its caller as soon as it is
      created, so one request is a sequence of synchronous sections
      separated by timers; a request is run here from entry to exit, the
      timer callback following the section that armed it. *)

From Stdlib Require Import PrimFloat.
From Stdlib Require Import QArith Qround Lqa.
From stdpp Require Import gmap strings list fin_maps pretty.

Open Scope string_scope.
Open Scope list_scope.

(** ** Data model *)

(** Attribute values given to [span.setAttribute] and field values given to
    the logger. *)
Inductive AttrValue : Type :=
| AttrStr (s : string)
| AttrNum (q : Q)
| AttrInt (z : Z)
| AttrBool (b : bool).

(** [SpanStatusCode] of @opentelemetry/api. *)
Inductive SpanStatusCode : Type := UNSET | OK | ERROR.

Record SpanStatus : Type := mkStatus {
  code : SpanStatusCode;
  message : string
}.

(** Spans are handled through their index in the span table. *)
Abbreviation SpanId := nat (only parsing).

(** A span as the tracer keeps it: [span_endTime] is [None] until [end()]
    has been called on it. *)
Record Span : Type := mkSpan {
  span_name : string;
  span_parent : option SpanId;
  span_attributes : list (string * AttrValue);
  span_status : SpanStatus;
  span_startTime : Q;
  span_endTime : option Q
}.

(** The objects stored in [ordersDb] (app.js, lines 145-149). *)
Record Order : Type := mkOrder {
  id : string;
  amount : Q;
  status : string
}.

(** What a property read [ordersDb[key]] can evaluate to: [ordersDb] is a
    plain object literal, so a key that is not an own property is looked up
    on [Object.prototype]. *)
Inductive JsValue : Type :=
| JsUndefined
| JsOrder (o : Order)
| JsInherited (name : string).

(** Bodies handed to [res.json]. *)
Inductive JsonBody : Type :=
| JHealth
| JValue (v : JsValue)
| JOrders (l : list Order)
| JError (msg : string).

(** [new Error(message)]. *)
Record JsError : Type := mkError { err_message : string }.

Inductive LogLevel : Type := LInfo | LWarn | LError.

(** Every call on an external collaborator, in the order it is made. *)
Inductive Event : Type :=
| EvGaugeAdd (delta : Z)                          (* ordersInProgress.add *)
| EvCounterAdd (delta : Z) (status : string)      (* ordersCreated.add *)
| EvHistRecord (value : Q)                        (* orderProcessingTime.record *)
| EvSpanStart (span : SpanId) (name : string)
| EvSpanStatus (span : SpanId) (st : SpanStatus)
| EvSpanEnd (span : SpanId)
| EvTimer (delay : Q)                             (* a setTimeout that fired *)
| EvStoreWrite (key : string) (o : Order)         (* ordersDb[key] = o *)
| EvLog (level : LogLevel) (fields : list (string * AttrValue)) (msg : string)
| EvRespond (http_status : Z) (body : JsonBody).  (* res.status(..).json(..) *)

Record World : Type := mkWorld {
  ordersDb : gmap string Order;
  spans : list Span;
  activeSpan : option SpanId;
  clock : Q;
  history : list Event
}.

(** ** The monad of handlers: state over [World], with JS exceptions *)

Inductive Result (A : Type) : Type :=
| Ok (a : A)
| Throw (e : JsError).
Arguments Ok {A} a.
Arguments Throw {A} e.

Definition M (A : Type) : Type := World -> World * Result A.

#[global] Instance M_ret : MRet M := fun A a w => (w, Ok a).

#[global] Instance M_bind : MBind M := fun A B f m w =>
  match m w with
  | (w1, Ok a) => f a w1
  | (w1, Throw e) => (w1, Throw e)
  end.

(** [resolve()] and [reject(err)] of a promise awaited by the caller. *)
Definition resolve : M unit := mret tt.
Definition reject {A} (e : JsError) : M A := fun w => (w, Throw e).

(** [try { body } catch (err) { handler } finally { fin }]. *)
Definition try_catch_finally {A} (body : M A) (handler : JsError -> M A)
    (fin : M unit) : M A := fun w =>
  let '(w1, r1) :=
    match body w with
    | (w1, Ok a) => (w1, Ok a)
    | (w1, Throw e) => handler e w1
    end in
  match fin w1 with
  | (w2, Ok _) => (w2, r1)
  | (w2, Throw e) => (w2, Throw e)
  end.

Definition emit (e : Event) : M unit := fun w =>
  (mkWorld (ordersDb w) (spans w) (activeSpan w) (clock w) (history w ++ [e]),
   Ok tt).

(** ** Metric instruments (app.js, lines 30-48)

    The meter only receives measurements; what an instrument holds is the
    aggregate of the measurements recorded so far. *)

Definition ordersInProgress_add (delta : Z) : M unit := emit (EvGaugeAdd delta).
Definition ordersCreated_add (delta : Z) (st : string) : M unit :=
  emit (EvCounterAdd delta st).
Definition orderProcessingTime_record (v : Q) : M unit := emit (EvHistRecord v).

Definition gauge_delta (e : Event) : Z :=
  match e with EvGaugeAdd d => d | _ => 0%Z end.

(** Current value of the up-down counter [orders_in_progress]. *)
Definition gauge_value (h : list Event) : Z :=
  foldr (fun e acc => (gauge_delta e + acc)%Z) 0%Z h.

Definition counter_delta (st : string) (e : Event) : Z :=
  match e with
  | EvCounterAdd d st' => if String.eqb st st' then d else 0%Z
  | _ => 0%Z
  end.

(** Current value of the counter [orders_created_total] for one label. *)
Definition counter_value (st : string) (h : list Event) : Z :=
  foldr (fun e acc => (counter_delta st e + acc)%Z) 0%Z h.

(** Observations of the histogram [order_processing_duration_seconds]. *)
Definition histogram_values (h : list Event) : list Q :=
  omap (fun e => match e with EvHistRecord v => Some v | _ => None end) h.

(** ** Logger (pino); only the calls are kept *)

Definition logger_log (lvl : LogLevel) (fields : list (string * AttrValue))
    (msg : string) : M unit := emit (EvLog lvl fields msg).

(** ** Tracer (@opentelemetry/api), at its interface *)

Definition is_ended (s : Span) : bool :=
  match span_endTime s with Some _ => true | None => false end.

Definition update_span (i : SpanId) (f : Span -> Span) : M unit := fun w =>
  (mkWorld (ordersDb w) (alter f i (spans w)) (activeSpan w) (clock w)
     (history w), Ok tt).

(** [span.setAttribute(key, value)]: ignored once the span has ended. *)
Definition setAttribute (i : SpanId) (key : string) (v : AttrValue) : M unit :=
  update_span i (fun s =>
    if is_ended s then s
    else mkSpan (span_name s) (span_parent s) (span_attributes s ++ [(key, v)])
           (span_status s) (span_startTime s) (span_endTime s)).

(** [span.setStatus({code, message})]: ignored once the span has ended. *)
Definition setStatus (i : SpanId) (st : SpanStatus) : M unit :=
  emit (EvSpanStatus i st);;
  update_span i (fun s =>
    if is_ended s then s
    else mkSpan (span_name s) (span_parent s) (span_attributes s) st
           (span_startTime s) (span_endTime s)).

(** [span.end()]: stamps the end time; a second call changes nothing. *)
Definition span_end (i : SpanId) : M unit := fun w =>
  (emit (EvSpanEnd i);;
   update_span i (fun s =>
     if is_ended s then s
     else mkSpan (span_name s) (span_parent s) (span_attributes s)
            (span_status s) (span_startTime s) (Some (clock w)))) w.

(** [tracer.startActiveSpan(name, fn)]: the new span is a child of the
    active span, is active while [fn] runs, and the previous context is
    restored when [fn] returns or throws.  Nothing here ends the span. *)
Definition startActiveSpan {A} (name : string) (fn : SpanId -> M A) : M A :=
  fun w =>
    let i := length (spans w) in
    let parent := activeSpan w in
    let s := mkSpan name parent [] (mkStatus UNSET "") (clock w) None in
    let w1 := mkWorld (ordersDb w) (spans w ++ [s]) (Some i) (clock w)
                (history w ++ [EvSpanStart i name]) in
    let '(w2, r) := fn i w1 in
    (mkWorld (ordersDb w2) (spans w2) parent (clock w2) (history w2), r).

(** [setTimeout(callback, delay)] on a promise that the caller awaits: the
    callback runs once [delay] milliseconds have passed. *)
Definition setTimeout {A} (callback : M A) (delay : Q) : M A := fun w =>
  callback (mkWorld (ordersDb w) (spans w) (activeSpan w) (clock w + delay)%Q
              (history w ++ [EvTimer delay])).

(** ** Order store (app.js, line 53: [const ordersDb = {}]) *)

(** Property names every object literal inherits from [Object.prototype]. *)
Definition Object_prototype : list string :=
  ["constructor"; "__proto__"; "hasOwnProperty"; "isPrototypeOf";
   "propertyIsEnumerable"; "toLocaleString"; "toString"; "valueOf";
   "__defineGetter__"; "__defineSetter__"; "__lookupGetter__";
   "__lookupSetter__"].

(** The value of the expression [db[key]]: own property first, then the
    prototype, then [undefined]. *)
Definition property_read (db : gmap string Order) (key : string) : JsValue :=
  match db !! key with
  | Some o => JsOrder o
  | None => if bool_decide (key ∈ Object_prototype)
            then JsInherited key else JsUndefined
  end.

Definition ordersDb_get (key : string) : M JsValue := fun w =>
  (w, Ok (property_read (ordersDb w) key)).

(** [ordersDb[key] = o]. *)
Definition ordersDb_set (key : string) (o : Order) : M unit := fun w =>
  (mkWorld (<[key := o]> (ordersDb w)) (spans w) (activeSpan w) (clock w)
     (history w ++ [EvStoreWrite key o]), Ok tt).

(** [Object.values(ordersDb)]: the own enumerable properties. *)
Definition Object_values (db : gmap string Order) : list Order :=
  (map_to_list db).*2.

Definition ordersDb_values : M (list Order) := fun w =>
  (w, Ok (Object_values (ordersDb w))).

(** Truthiness, as tested by [if (order)]. *)
Definition truthy (v : JsValue) : bool :=
  match v with JsUndefined => false | _ => true end.

(** [res.status(code).json(body)]; [res.json(body)] is status 200. *)
Definition res_status_json (http_status : Z) (body : JsonBody) : M unit :=
  emit (EvRespond http_status body).
Definition res_json (body : JsonBody) : M unit := res_status_json 200 body.

(** ** Simulated downstream calls *)

(** [x < y] on the values of [Math.random()]. *)
Definition Qlt_b (x y : Q) : bool := negb (Qle_bool y x).

(** [Math.round(x)]. *)
Definition Math_round (x : Q) : Z := Qfloor (x + (1 # 2)).

(** Default of the parameter [durationRange]. *)
Definition defaultDurationRange : Q * Q := (10%Q, 50%Q).

(** [Math.random() * (durationRange[1] - durationRange[0])
     + durationRange[0]], with [u] the value of [Math.random()]. *)
Definition dbDelay (durationRange : Q * Q) (u : Q) : Q :=
  (u * (snd durationRange - fst durationRange) + fst durationRange)%Q.

(** [simulateDbQuery] (app.js, lines 59-74); [u] is its one draw. *)
Definition simulateDbQuery (queryType : string) (durationRange : Q * Q)
    (u : Q) : M unit :=
  startActiveSpan ("db." +:+ queryType) (fun span =>
    setAttribute span "db.system" (AttrStr "postgresql");;
    setAttribute span "db.operation" (AttrStr queryType);;
    let delay := dbDelay durationRange u in
    setTimeout (span_end span;; resolve) delay).

(** The three draws of one payment call, in call order. *)
Record PaymentDraws : Type := mkPaymentDraws {
  slowDraw : Q;
  delayDraw : Q;
  failDraw : Q
}.

Definition isSlow (d : PaymentDraws) : bool := Qlt_b (slowDraw d) (1 # 10).

Definition paymentDelay (d : PaymentDraws) : Q :=
  if isSlow d then (delayDraw d * 2000 + 1000)%Q
  else (delayDraw d * 150 + 50)%Q.

Definition paymentFails (d : PaymentDraws) : bool := Qlt_b (failDraw d) (1 # 20).

Definition paymentDeclined : JsError := mkError "Payment declined".

(** [simulatePaymentProcessing] (app.js, lines 83-116). *)
Definition simulatePaymentProcessing (orderId : string) (amount : Q)
    (d : PaymentDraws) : M unit :=
  startActiveSpan "payment.process" (fun span =>
    setAttribute span "payment.order_id" (AttrStr orderId);;
    setAttribute span "payment.amount" (AttrNum amount);;
    let isSlow := isSlow d in
    let delay := paymentDelay d in
    (if isSlow then
       setAttribute span "payment.slow" (AttrBool true);;
       logger_log LWarn
         [("orderId", AttrStr orderId); ("delay", AttrInt (Math_round delay))]
         "Paiement lent pour commande"
     else mret tt);;
    setTimeout
      (if paymentFails d then
         setStatus span (mkStatus ERROR "Payment declined");;
         span_end span;;
         reject paymentDeclined
       else
         span_end span;;
         resolve)
      delay).

(** ** Endpoints *)

(** [GET /health] (app.js, lines 118-120). *)
Definition get_health : M unit := res_json JHealth.

(** The eight draws of one [POST /orders] request, in call order; the last
    one is not consumed when the payment is declined. *)
Record PostDraws : Type := mkPostDraws {
  idDraw : Q;
  amountDraw : Q;
  inventoryDraw : Q;
  insertDraw : Q;
  paymentDraws : PaymentDraws;
  updateDraw : Q
}.

(** [String(Math.floor(Math.random() * 90000) + 10000)]. *)
Definition orderId_number (u : Q) : Z := (Qfloor (u * 90000) + 10000)%Z.
Definition genOrderId (u : Q) : string := pretty (orderId_number u).

(** [Math.round((Math.random() * 490 + 10) * 100) / 100]. *)
Definition genAmount (u : Q) : Q :=
  (inject_Z (Math_round ((u * 490 + 10) * 100)) / 100)%Q.

(** [(Date.now() - startTime) / 1000]. *)
Definition elapsed_seconds (startTime now : Z) : Q :=
  (inject_Z (now - startTime) / 1000)%Q.

(** [POST /orders] (app.js, lines 121-172).  [nowEntry] and [nowExit] are
    the values of the two [Date.now()] calls. *)
Definition post_orders (d : PostDraws) (nowEntry nowExit : Z) : M unit :=
  let startTime := nowEntry in
  ordersInProgress_add 1;;
  try_catch_finally
    (startActiveSpan "create_order" (fun span =>
       let orderId := genOrderId (idDraw d) in
       let amount := genAmount (amountDraw d) in
       setAttribute span "order.id" (AttrStr orderId);;
       setAttribute span "order.amount" (AttrNum amount);;
       simulateDbQuery "check_inventory" defaultDurationRange (inventoryDraw d);;
       simulateDbQuery "insert_order" defaultDurationRange (insertDraw d);;
       simulatePaymentProcessing orderId amount (paymentDraws d);;
       simulateDbQuery "update_order_status" defaultDurationRange (updateDraw d);;
       ordersDb_set orderId (mkOrder orderId amount "confirmed");;
       ordersCreated_add 1 "success";;
       logger_log LInfo
         [("orderId", AttrStr orderId); ("amount", AttrNum amount);
          ("status", AttrStr "confirmed")]
         "Commande creee avec succes";;
       span_end span;;
       stored ← ordersDb_get orderId;
       res_status_json 201 (JValue stored)))
    (fun err =>
       ordersCreated_add 1 "error";;
       logger_log LError [("error", AttrStr (err_message err))]
         "Erreur lors de la creation de commande";;
       res_status_json 500 (JError (err_message err)))
    (ordersInProgress_add (-1);;
     let duration := elapsed_seconds startTime nowExit in
     orderProcessingTime_record duration).

(** [GET /orders] (app.js, lines 173-179); [u] is the draw of its query. *)
Definition get_orders (u : Q) : M unit :=
  startActiveSpan "list_orders" (fun span =>
    simulateDbQuery "select_all_orders" defaultDurationRange u;;
    span_end span;;
    orders ← ordersDb_values;
    res_json (JOrders orders)).

(** [GET /orders/:orderId] (app.js, lines 180-192). *)
Definition get_order (orderId : string) (u : Q) : M unit :=
  startActiveSpan "get_order" (fun span =>
    setAttribute span "order.id" (AttrStr orderId);;
    simulateDbQuery "select_order" defaultDurationRange u;;
    order ← ordersDb_get orderId;
    span_end span;;
    if truthy order then res_json (JValue order)
    else res_status_json 404 (JError "Order not found")).

(** One request to the service. *)
Inductive Request : Type :=
| ReqHealth
| ReqPostOrders (d : PostDraws) (nowEntry nowExit : Z)
| ReqGetOrders (u : Q)
| ReqGetOrder (orderId : string) (u : Q).

Definition handle (r : Request) : M unit :=
  match r with
  | ReqHealth => get_health
  | ReqPostOrders d t0 t1 => post_orders d t0 t1
  | ReqGetOrders u => get_orders u
  | ReqGetOrder k u => get_order k u
  end.

(** The world after a request has run to completion. *)
Definition after (r : Request) (w : World) : World := fst (handle r w).

(** The world after a sequence of requests, one after the other. *)
Definition after_all (rs : list Request) (w : World) : World :=
  foldl (fun w r => after r w) w rs.

Definition initial_world : World := mkWorld ∅ [] None 0 [].

Definition sample_payment_ok : PaymentDraws := mkPaymentDraws (1#2) (1#2) (1#2).
Definition sample_payment_declined : PaymentDraws :=
  mkPaymentDraws (1#2) (1#2) (1#100).
Definition sample_post_ok : PostDraws :=
  mkPostDraws (1#2) (1#2) (1#2) (1#2) sample_payment_ok (1#2).
Definition sample_post_declined : PostDraws :=
  mkPostDraws (1#2) (1#2) (1#2) (1#2) sample_payment_declined (1#2).


(** Same identifier draw as [sample_post_ok], another amount draw. *)
Definition sample_post_same_id : PostDraws :=
  mkPostDraws (1#2) (1#4) (1#2) (1#2) sample_payment_ok (1#2).

(** Another identifier draw that yields the identifier of [sample_post_ok]. *)
Definition sample_post_nearby_id : PostDraws :=
  mkPostDraws (50001#100000) (1#2) (1#2) (1#2) sample_payment_ok (1#2).

(** ** Observations on a run *)

(** Whether a draw is a value [Math.random()] can return. *)
Definition valid_draw (u : Q) : Prop := (0 <= u)%Q /\ (u < 1)%Q.

Definition valid_payment_draws (d : PaymentDraws) : Prop :=
  valid_draw (slowDraw d) /\ valid_draw (delayDraw d) /\ valid_draw (failDraw d).

Definition valid_post_draws (d : PostDraws) : Prop :=
  valid_draw (idDraw d) /\ valid_draw (amountDraw d) /\
  valid_draw (inventoryDraw d) /\ valid_draw (insertDraw d) /\
  valid_payment_draws (paymentDraws d) /\ valid_draw (updateDraw d).

(** The calls made, and the spans created, between two worlds. *)
Definition events_since (w w' : World) : list Event :=
  drop (length (history w)) (history w').

Definition spans_since (w w' : World) : list Span :=
  drop (length (spans w)) (spans w').

Definition is_gauge_add (e : Event) : bool :=
  match e with EvGaugeAdd _ => true | _ => false end.

Definition is_counter_add (e : Event) : bool :=
  match e with EvCounterAdd _ _ => true | _ => false end.

Definition is_hist_record (e : Event) : bool :=
  match e with EvHistRecord _ => true | _ => false end.

Definition is_respond (e : Event) : bool :=
  match e with EvRespond _ _ => true | _ => false end.

Definition is_store_write (e : Event) : bool :=
  match e with EvStoreWrite _ _ => true | _ => false end.

Definition is_span_end (i : SpanId) (e : Event) : bool :=
  match e with EvSpanEnd j => Nat.eqb i j | _ => false end.

Definition is_span_status (i : SpanId) (e : Event) : bool :=
  match e with EvSpanStatus j _ => Nat.eqb i j | _ => false end.

Definition count_events (p : Event -> bool) (h : list Event) : nat :=
  length (List.filter p h).

(** A span is closed, and closed no later than time [t]. *)
Definition closed (s : Span) : Prop := is_Some (span_endTime s).

Definition closed_by (t : Q) (s : Span) : Prop :=
  exists e, span_endTime s = Some e /\ (e <= t)%Q.

(** Every entry of [db] is still in [db'], unchanged. *)
Definition store_preserved (db db' : gmap string Order) : Prop :=
  forall k o, db !! k = Some o -> db' !! k = Some o.

(** The root span of the request that started in [w] carries status ERROR
    in [w']. *)
Definition root_marked_error (w w' : World) : Prop :=
  exists root, spans w' !! length (spans w) = Some root /\
               code (span_status root) = ERROR.

(** ** What one call leaves behind *)

(** The span a database query leaves behind, and the calls it makes. *)
Definition db_span (queryType : string) (parent : option SpanId)
    (start delay : Q) : Span :=
  mkSpan ("db." +:+ queryType) parent
    [("db.system", AttrStr "postgresql"); ("db.operation", AttrStr queryType)]
    (mkStatus UNSET "") start (Some (start + delay)%Q).

Definition db_events (queryType : string) (i : SpanId) (delay : Q)
    : list Event :=
  [EvSpanStart i ("db." +:+ queryType); EvTimer delay; EvSpanEnd i].

(** The span a payment call leaves behind, and the calls it makes. *)
Definition payment_span (orderId : string) (amount : Q) (d : PaymentDraws)
    (parent : option SpanId) (start : Q) : Span :=
  mkSpan "payment.process" parent
    ([("payment.order_id", AttrStr orderId); ("payment.amount", AttrNum amount)]
     ++ (if isSlow d then [("payment.slow", AttrBool true)] else []))
    (if paymentFails d then mkStatus ERROR "Payment declined"
     else mkStatus UNSET "")
    start (Some (start + paymentDelay d)%Q).

Definition payment_events (orderId : string) (d : PaymentDraws) (i : SpanId)
    : list Event :=
  EvSpanStart i "payment.process"
  :: (if isSlow d then
        [EvLog LWarn
           [("orderId", AttrStr orderId);
            ("delay", AttrInt (Math_round (paymentDelay d)))]
           "Paiement lent pour commande"]
      else [])
  ++ EvTimer (paymentDelay d)
  :: (if paymentFails d then [EvSpanStatus i (mkStatus ERROR "Payment declined")]
      else [])
  ++ [EvSpanEnd i].

Section PostOrdersOutcome.
Variable d : PostDraws.
Variables nowEntry nowExit : Z.

Let orderId : string := genOrderId (idDraw d).
Let amount : Q := genAmount (amountDraw d).
Let d1 : Q := dbDelay defaultDurationRange (inventoryDraw d).
Let d2 : Q := dbDelay defaultDurationRange (insertDraw d).
Let d3 : Q := paymentDelay (paymentDraws d).
Let d4 : Q := dbDelay defaultDurationRange (updateDraw d).

(** The order a successful request stores. *)
Definition new_order : Order := mkOrder orderId amount "confirmed".

Definition root_attributes : list (string * AttrValue) :=
  [("order.id", AttrStr orderId); ("order.amount", AttrNum amount)].

(** Spans of the first three steps, created under the root span [n]. *)
Definition step_spans (n : SpanId) (c : Q) : list Span :=
  [db_span "check_inventory" (Some n) c d1;
   db_span "insert_order" (Some n) (c + d1)%Q d2;
   payment_span orderId amount (paymentDraws d) (Some n) (c + d1 + d2)%Q].

Definition step_events (n : SpanId) : list Event :=
  db_events "check_inventory" (n + 1) d1
  ++ db_events "insert_order" (n + 2) d2
  ++ payment_events orderId (paymentDraws d) (n + 3).

(** Spans and calls of a request whose payment goes through. *)
Definition success_root (parent : option SpanId) (c : Q) : Span :=
  mkSpan "create_order" parent root_attributes (mkStatus UNSET "") c
    (Some (c + d1 + d2 + d3 + d4)%Q).

Definition success_spans (parent : option SpanId) (n : SpanId) (c : Q)
    : list Span :=
  success_root parent c
  :: step_spans n c
  ++ [db_span "update_order_status" (Some n) (c + d1 + d2 + d3)%Q d4].

Definition success_tail : list Event :=
  [EvStoreWrite orderId new_order;
   EvCounterAdd 1 "success";
   EvLog LInfo
     [("orderId", AttrStr orderId); ("amount", AttrNum amount);
      ("status", AttrStr "confirmed")]
     "Commande creee avec succes"].

Definition success_events (n : SpanId) : list Event :=
  [EvGaugeAdd 1; EvSpanStart n "create_order"]
  ++ step_events n
  ++ db_events "update_order_status" (n + 4) d4
  ++ success_tail
  ++ [EvSpanEnd n;
      EvRespond 201 (JValue (JsOrder new_order));
      EvGaugeAdd (-1);
      EvHistRecord (elapsed_seconds nowEntry nowExit)].

(** Spans and calls of a request whose payment is declined. *)
Definition declined_root (parent : option SpanId) (c : Q) : Span :=
  mkSpan "create_order" parent root_attributes (mkStatus UNSET "") c None.

Definition declined_spans (parent : option SpanId) (n : SpanId) (c : Q)
    : list Span :=
  declined_root parent c :: step_spans n c.

Definition declined_events (n : SpanId) : list Event :=
  [EvGaugeAdd 1; EvSpanStart n "create_order"]
  ++ step_events n
  ++ [EvCounterAdd 1 "error";
      EvLog LError [("error", AttrStr "Payment declined")]
        "Erreur lors de la creation de commande";
      EvRespond 500 (JError "Payment declined");
      EvGaugeAdd (-1);
      EvHistRecord (elapsed_seconds nowEntry nowExit)].

End PostOrdersOutcome.

(** The response of [GET /orders/:orderId] for what the property read gave. *)
Definition get_order_response (order : JsValue) : Event :=
  if truthy order then EvRespond 200 (JValue order)
  else EvRespond 404 (JError "Order not found").

(** Whether a request is a [POST /orders] that generates identifier [k]. *)
Definition generates (k : string) (r : Request) : Prop :=
  match r with
  | ReqPostOrders d _ _ => genOrderId (idDraw d) = k
  | _ => False
  end.

(** A decimal digit. *)
Definition is_digit (a : Ascii.ascii) : bool :=
  (48 <=? Ascii.nat_of_ascii a)%nat && (Ascii.nat_of_ascii a <=? 57)%nat.

Fixpoint all_digits (s : string) : bool :=
  match s with
  | EmptyString => true
  | String a s' => is_digit a && all_digits s'
  end.

(** ** Uniform draws on a grid

    The probabilities of the payment call are stated for draws taken
    uniformly among the [N] equally spaced values [0/N, ..., (N-1)/N] of
    [0, 1), the three draws of a call being taken independently: the draw
    space is the product of three grids, every point equally likely. *)

Definition uniform_grid (N : nat) : list Q :=
  map (fun k => (Z.of_nat k # Pos.of_nat N)) (seq 0 N).

Definition draw_product (S D F : list Q) : list PaymentDraws :=
  flat_map (fun s =>
    flat_map (fun dl => map (fun f => mkPaymentDraws s dl f) F) D) S.

Definition draw_space (N : nat) : list PaymentDraws :=
  draw_product (uniform_grid N) (uniform_grid N) (uniform_grid N).

(** Number of points of the draw space where [P] holds; the probability of
    [P] is this number over [length (draw_space N)]. *)
Definition favourable (P : PaymentDraws -> bool) (N : nat) : nat :=
  length (List.filter P (draw_space N)).

(** ** Summary of one request

    What a request adds to the world it runs in: the spans it appends to
    the span table, the calls it appends to the history and the time it
    takes on the clock of the tracer. *)

Definition is_post (r : Request) : bool :=
  match r with ReqPostOrders _ _ _ => true | _ => false end.

(** A [POST /orders] whose payment goes through, resp. is declined. *)
Definition is_confirmed (r : Request) : bool :=
  match r with
  | ReqPostOrders d _ _ => negb (paymentFails (paymentDraws d))
  | _ => false
  end.

Definition is_declined (r : Request) : bool :=
  match r with
  | ReqPostOrders d _ _ => paymentFails (paymentDraws d)
  | _ => false
  end.

Definition count_requests (p : Request -> bool) (rs : list Request) : nat :=
  length (List.filter p rs).

(** The two spans of a handler that runs one database query. *)
Definition query_spans (name : string) (attrs : list (string * AttrValue))
    (queryType : string) (u : Q) (parent : option SpanId) (n : SpanId)
    (c : Q) : list Span :=
  [mkSpan name parent attrs (mkStatus UNSET "") c
     (Some (c + dbDelay defaultDurationRange u)%Q);
   db_span queryType (Some n) c (dbDelay defaultDurationRange u)].

Definition query_events (name queryType : string) (u : Q) (n : SpanId)
    (response : Event) : list Event :=
  EvSpanStart n name
  :: db_events queryType (n + 1) (dbDelay defaultDurationRange u)
  ++ [EvSpanEnd n; response].

(** The clock of the tracer after a request that started at [c]. *)
Definition request_clock (r : Request) (c : Q) : Q :=
  match r with
  | ReqHealth => c
  | ReqPostOrders d _ _ =>
      if paymentFails (paymentDraws d)
      then (c + dbDelay defaultDurationRange (inventoryDraw d)
            + dbDelay defaultDurationRange (insertDraw d)
            + paymentDelay (paymentDraws d))%Q
      else (c + dbDelay defaultDurationRange (inventoryDraw d)
            + dbDelay defaultDurationRange (insertDraw d)
            + paymentDelay (paymentDraws d)
            + dbDelay defaultDurationRange (updateDraw d))%Q
  | ReqGetOrders u => (c + dbDelay defaultDurationRange u)%Q
  | ReqGetOrder _ u => (c + dbDelay defaultDurationRange u)%Q
  end.

Definition request_spans (r : Request) (w : World) : list Span :=
  match r with
  | ReqHealth => []
  | ReqPostOrders d _ _ =>
      if paymentFails (paymentDraws d)
      then declined_spans d (activeSpan w) (length (spans w)) (clock w)
      else success_spans d (activeSpan w) (length (spans w)) (clock w)
  | ReqGetOrders u =>
      query_spans "list_orders" [] "select_all_orders" u (activeSpan w)
        (length (spans w)) (clock w)
  | ReqGetOrder k u =>
      query_spans "get_order" [("order.id", AttrStr k)] "select_order" u
        (activeSpan w) (length (spans w)) (clock w)
  end.

Definition request_events (r : Request) (w : World) : list Event :=
  match r with
  | ReqHealth => [EvRespond 200 JHealth]
  | ReqPostOrders d t0 t1 =>
      if paymentFails (paymentDraws d)
      then declined_events d t0 t1 (length (spans w))
      else success_events d t0 t1 (length (spans w))
  | ReqGetOrders u =>
      query_events "list_orders" "select_all_orders" u (length (spans w))
        (EvRespond 200 (JOrders (Object_values (ordersDb w))))
  | ReqGetOrder k u =>
      query_events "get_order" "select_order" u (length (spans w))
        (get_order_response (property_read (ordersDb w) k))
  end.

Definition request_store (r : Request) (db : gmap string Order)
    : gmap string Order :=
  match r with
  | ReqPostOrders d _ _ =>
      if paymentFails (paymentDraws d) then db
      else <[genOrderId (idDraw d) := new_order d]> db
  | _ => db
  end.

(** Whether the draws of a request are values [Math.random()] can return. *)
Definition valid_request (r : Request) : Prop :=
  match r with
  | ReqHealth => True
  | ReqPostOrders d _ _ => valid_post_draws d
  | ReqGetOrders u => valid_draw u
  | ReqGetOrder _ u => valid_draw u
  end.

(** A call on one of the three metric instruments. *)
Definition is_metric (e : Event) : bool :=
  is_gauge_add e || is_counter_add e || is_hist_record e.

Definition is_timer (e : Event) : bool :=
  match e with EvTimer _ => true | _ => false end.

Definition is_warn_log (e : Event) : bool :=
  match e with EvLog LWarn _ _ => true | _ => false end.

(** Every order of the store sits under its own identifier and is
    confirmed. *)
Definition store_wf (db : gmap string Order) : Prop :=
  forall k o, db !! k = Some o -> id o = k /\ status o = "confirmed".

(** A string of five decimal digits. *)
Definition five_digits (k : string) : Prop :=
  String.length k = 5 /\ all_digits k = true.

(** Number of spans of a span table on which [end()] was never called. *)
Definition open_spans (sp : list Span) : nat :=
  length (List.filter (fun s => negb (is_ended s)) sp).

(** Time between the start and the end of a closed span. *)
Definition span_duration (s : Span) : option Q :=
  match span_endTime s with
  | Some e => Some (e - span_startTime s)%Q
  | None => None
  end.

Definition has_attribute (key : string) (v : AttrValue) (s : Span) : Prop :=
  (key, v) ∈ span_attributes s.

(** ** Requests in flight

    The handlers again, cut at their [await]s.  A request in flight is a
    task that waits for the timer it armed; the event loop runs one
    synchronous section at a time: the arrival of a request runs its
    handler up to the first [await], and the firing of a timer runs the
    timer callback and then the handler up to its next [await] or to its
    end.  Sections of different requests interleave in any order.  The
    active-span context is that of the request (the context manager keeps
    it across [await]s): a section resumes under the context it was
    suspended in. *)

(** [context.with(ctx, fn)]: run a section under context [ctx]. *)
Definition with_context {A} (ctx : option SpanId) (m : M A) : M A := fun w =>
  let prev := activeSpan w in
  let '(w1, r) :=
    m (mkWorld (ordersDb w) (spans w) ctx (clock w) (history w)) in
  (mkWorld (ordersDb w1) (spans w1) prev (clock w1) (history w1), r).

(** The executor of the promise of [simulateDbQuery] (lines 60-72), up to
    the call of [setTimeout]: the span it opened and the delay it drew. *)
Definition simulateDbQuery_arm (queryType : string) (durationRange : Q * Q)
    (u : Q) : M (SpanId * Q) :=
  startActiveSpan ("db." +:+ queryType) (fun span =>
    setAttribute span "db.system" (AttrStr "postgresql");;
    setAttribute span "db.operation" (AttrStr queryType);;
    let delay := dbDelay durationRange u in
    mret (span, delay)).

(** The timer callback of [simulateDbQuery] (lines 68-71). *)
Definition simulateDbQuery_fire (span : SpanId) : M unit :=
  span_end span;; resolve.

(** The executor of the promise of [simulatePaymentProcessing]
    (lines 84-99), up to the call of [setTimeout]. *)
Definition simulatePaymentProcessing_arm (orderId : string) (amount : Q)
    (d : PaymentDraws) : M (SpanId * Q) :=
  startActiveSpan "payment.process" (fun span =>
    setAttribute span "payment.order_id" (AttrStr orderId);;
    setAttribute span "payment.amount" (AttrNum amount);;
    let isSlow := isSlow d in
    let delay := paymentDelay d in
    (if isSlow then
       setAttribute span "payment.slow" (AttrBool true);;
       logger_log LWarn
         [("orderId", AttrStr orderId); ("delay", AttrInt (Math_round delay))]
         "Paiement lent pour commande"
     else mret tt);;
    mret (span, delay)).

(** The timer callback of [simulatePaymentProcessing] (lines 100-113). *)
Definition simulatePaymentProcessing_fire (span : SpanId) (d : PaymentDraws)
    : M unit :=
  if paymentFails d then
    setStatus span (mkStatus ERROR "Payment declined");;
    span_end span;;
    reject paymentDeclined
  else
    span_end span;;
    resolve.

(** Where a handler is suspended: the [await] it waits at, with its root
    span and the span of the call it awaits. *)
Inductive AwaitPoint : Type :=
| AwaitInventory (root child : SpanId)      (* app.js, line 138 *)
| AwaitInsert (root child : SpanId)         (* line 140 *)
| AwaitPayment (root child : SpanId)        (* line 142 *)
| AwaitUpdate (root child : SpanId)         (* line 144 *)
| AwaitSelectAll (root child : SpanId)      (* line 175 *)
| AwaitSelect (root child : SpanId).        (* line 183 *)

(** How a section ends: at an [await], a timer of [delay] ms armed, or at
    the end of the handler. *)
Inductive Outcome : Type :=
| Suspended (at_ : AwaitPoint) (delay : Q)
| Completed.

(** The [catch] and [finally] blocks of [POST /orders] (lines 160-171). *)
Definition catch_block (err : JsError) : M unit :=
  ordersCreated_add 1 "error";;
  logger_log LError [("error", AttrStr (err_message err))]
    "Erreur lors de la creation de commande";;
  res_status_json 500 (JError (err_message err)).

Definition finally_block (startTime nowExit : Z) : M unit :=
  ordersInProgress_add (-1);;
  let duration := elapsed_seconds startTime nowExit in
  orderProcessingTime_record duration.

(** One section of the [try] block of [POST /orders]: at an [await] the
    handler is suspended; an exception runs [catch] then [finally]; the end
    of the block runs [finally]. *)
Definition try_section (startTime nowExit : Z) (body : M Outcome)
    : M Outcome := fun w =>
  match body w with
  | (w1, Ok (Suspended p delay)) => (w1, Ok (Suspended p delay))
  | (w1, Ok Completed) =>
      (finally_block startTime nowExit;; mret Completed) w1
  | (w1, Throw err) =>
      (catch_block err;; finally_block startTime nowExit;; mret Completed) w1
  end.

(** [POST /orders] from its entry to its first [await] (lines 122-138). *)
Definition post_entry (d : PostDraws) (nowEntry nowExit : Z) : M Outcome :=
  let startTime := nowEntry in
  ordersInProgress_add 1;;
  try_section startTime nowExit
    (startActiveSpan "create_order" (fun span =>
       let orderId := genOrderId (idDraw d) in
       let amount := genAmount (amountDraw d) in
       setAttribute span "order.id" (AttrStr orderId);;
       setAttribute span "order.amount" (AttrNum amount);;
       '(child, delay) ← simulateDbQuery_arm "check_inventory"
                            defaultDurationRange (inventoryDraw d);
       mret (Suspended (AwaitInventory span child) delay))).

(** [POST /orders] from the firing of the timer it waits for to its next
    [await] or to its end (lines 138-171). *)
Definition post_resume (d : PostDraws) (nowEntry nowExit : Z)
    (p : AwaitPoint) : M Outcome :=
  let startTime := nowEntry in
  let orderId := genOrderId (idDraw d) in
  let amount := genAmount (amountDraw d) in
  try_section startTime nowExit
    match p with
    | AwaitInventory root child =>
        simulateDbQuery_fire child;;
        with_context (Some root) (
          '(child', delay) ← simulateDbQuery_arm "insert_order"
                                defaultDurationRange (insertDraw d);
          mret (Suspended (AwaitInsert root child') delay))
    | AwaitInsert root child =>
        simulateDbQuery_fire child;;
        with_context (Some root) (
          '(child', delay) ← simulatePaymentProcessing_arm orderId amount
                                (paymentDraws d);
          mret (Suspended (AwaitPayment root child') delay))
    | AwaitPayment root child =>
        simulatePaymentProcessing_fire child (paymentDraws d);;
        with_context (Some root) (
          '(child', delay) ← simulateDbQuery_arm "update_order_status"
                                defaultDurationRange (updateDraw d);
          mret (Suspended (AwaitUpdate root child') delay))
    | AwaitUpdate root child =>
        simulateDbQuery_fire child;;
        with_context (Some root) (
          ordersDb_set orderId (mkOrder orderId amount "confirmed");;
          ordersCreated_add 1 "success";;
          logger_log LInfo
            [("orderId", AttrStr orderId); ("amount", AttrNum amount);
             ("status", AttrStr "confirmed")]
            "Commande creee avec succes";;
          span_end root;;
          stored ← ordersDb_get orderId;
          res_status_json 201 (JValue stored);;
          mret Completed)
    | _ => mret Completed
    end.

(** [GET /orders] (lines 173-179), cut at its [await]. *)
Definition get_orders_entry (u : Q) : M Outcome :=
  startActiveSpan "list_orders" (fun span =>
    '(child, delay) ← simulateDbQuery_arm "select_all_orders"
                         defaultDurationRange u;
    mret (Suspended (AwaitSelectAll span child) delay)).

Definition get_orders_resume (root child : SpanId) : M Outcome :=
  simulateDbQuery_fire child;;
  with_context (Some root) (
    span_end root;;
    orders ← ordersDb_values;
    res_json (JOrders orders);;
    mret Completed).

(** [GET /orders/:orderId] (lines 180-192), cut at its [await]. *)
Definition get_order_entry (orderId : string) (u : Q) : M Outcome :=
  startActiveSpan "get_order" (fun span =>
    setAttribute span "order.id" (AttrStr orderId);;
    '(child, delay) ← simulateDbQuery_arm "select_order"
                         defaultDurationRange u;
    mret (Suspended (AwaitSelect span child) delay)).

Definition get_order_resume (orderId : string) (root child : SpanId)
    : M Outcome :=
  simulateDbQuery_fire child;;
  with_context (Some root) (
    order ← ordersDb_get orderId;
    span_end root;;
    (if truthy order then res_json (JValue order)
     else res_status_json 404 (JError "Order not found"));;
    mret Completed).

(** The first section of a request, and the section that follows the
    firing of its timer. *)
Definition entry (r : Request) : M Outcome :=
  match r with
  | ReqHealth => get_health;; mret Completed
  | ReqPostOrders d t0 t1 => post_entry d t0 t1
  | ReqGetOrders u => get_orders_entry u
  | ReqGetOrder k u => get_order_entry k u
  end.

Definition resume (r : Request) (p : AwaitPoint) : M Outcome :=
  match r, p with
  | ReqPostOrders d t0 t1, _ => post_resume d t0 t1 p
  | ReqGetOrders u, AwaitSelectAll root child => get_orders_resume root child
  | ReqGetOrder k u, AwaitSelect root child => get_order_resume k root child
  | _, _ => mret Completed
  end.

(** A timer armed for [delay] ms fires at time [t]. *)
Definition timer_fires (delay t : Q) : M unit := fun w =>
  (mkWorld (ordersDb w) (spans w) (activeSpan w) t
     (history w ++ [EvTimer delay]), Ok tt).

(** A task: a request and where it stands. *)
Inductive TaskState : Type :=
| Waiting (at_ : AwaitPoint) (delay : Q) (armed : Q)
| Done.

Record Task : Type := mkTask {
  task_request : Request;
  task_state : TaskState
}.

Definition task_of (r : Request) (armed : Q) (res : Result Outcome) : Task :=
  match res with
  | Ok (Suspended p delay) => mkTask r (Waiting p delay armed)
  | _ => mkTask r Done
  end.

(** The service: the shared world and the requests received so far. *)
Record System : Type := mkSystem {
  world : World;
  tasks : list Task
}.

(** What the event loop does next: a request arrives, or the timer of
    task [i] fires at time [t]. *)
Inductive Label : Type :=
| Arrive (r : Request)
| Fire (i : nat) (t : Q).

(** One turn of the event loop.  A timer fires no earlier than the delay
    it was armed with, and time does not go back. *)
Definition step (l : Label) (s : System) : option System :=
  match l with
  | Arrive r =>
      let '(w', res) := entry r (world s) in
      Some (mkSystem w' (tasks s ++ [task_of r (clock (world s)) res]))
  | Fire i t =>
      match tasks s !! i with
      | Some (mkTask r (Waiting p delay armed)) =>
          if Qle_bool (armed + delay) t && Qle_bool (clock (world s)) t then
            let '(w', res) :=
              (timer_fires delay t;; resume r p) (world s) in
            Some (mkSystem w' (<[i := task_of r t res]> (tasks s)))
          else None
      | _ => None
      end
  end.

Fixpoint run (ls : list Label) (s : System) : option System :=
  match ls with
  | [] => Some s
  | l :: ls' =>
      match step l s with
      | Some s' => run ls' s'
      | None => None
      end
  end.

Definition is_waiting (tk : Task) : bool :=
  match task_state tk with Waiting _ _ _ => true | Done => false end.

(** Number of [POST /orders] requests received and not yet completed. *)
Definition in_flight_posts (ts : list Task) : nat :=
  length (List.filter (fun tk => is_post (task_request tk) && is_waiting tk) ts).

(** Number of completed tasks selected by [p]. *)
Definition completed (p : Request -> bool) (ts : list Task) : nat :=
  length
    (List.filter (fun tk => p (task_request tk) && negb (is_waiting tk)) ts).

(** Number of [await]s a task still has to pass, at most. *)
Definition remaining_sections (tk : Task) : nat :=
  match task_state tk with
  | Waiting (AwaitInventory _ _) _ _ => 4
  | Waiting (AwaitInsert _ _) _ _ => 3
  | Waiting (AwaitPayment _ _) _ _ => 2
  | Waiting (AwaitUpdate _ _) _ _ => 1
  | Waiting (AwaitSelectAll _ _) _ _ => 1
  | Waiting (AwaitSelect _ _) _ _ => 1
  | Done => 0
  end.

(** The schedule that runs request [r] alone from world [w], every timer
    firing exactly when its delay has passed: the firing times, in
    order. *)
Definition alone_times (r : Request) (c : Q) : list Q :=
  match r with
  | ReqHealth => []
  | ReqPostOrders d _ _ =>
      let t1 := (c + dbDelay defaultDurationRange (inventoryDraw d))%Q in
      let t2 := (t1 + dbDelay defaultDurationRange (insertDraw d))%Q in
      let t3 := (t2 + paymentDelay (paymentDraws d))%Q in
      let t4 := (t3 + dbDelay defaultDurationRange (updateDraw d))%Q in
      if paymentFails (paymentDraws d) then [t1; t2; t3] else [t1; t2; t3; t4]
  | ReqGetOrders u => [(c + dbDelay defaultDurationRange u)%Q]
  | ReqGetOrder _ u => [(c + dbDelay defaultDurationRange u)%Q]
  end.

Definition alone (r : Request) (i : nat) (c : Q) : list Label :=
  Arrive r :: map (Fire i) (alone_times r c).

(** What [end()] and [setStatus] do to a span. *)
Definition end_span (t : Q) (s : Span) : Span :=
  if is_ended s then s
  else mkSpan (span_name s) (span_parent s) (span_attributes s)
         (span_status s) (span_startTime s) (Some t).

Definition set_status (st : SpanStatus) (s : Span) : Span :=
  if is_ended s then s
  else mkSpan (span_name s) (span_parent s) (span_attributes s) st
         (span_startTime s) (span_endTime s).

(** A span of a database query, resp. of a payment, while its timer has
    not fired. *)
Definition db_span_open (queryType : string) (parent : option SpanId)
    (start : Q) : Span :=
  mkSpan ("db." +:+ queryType) parent
    [("db.system", AttrStr "postgresql"); ("db.operation", AttrStr queryType)]
    (mkStatus UNSET "") start None.

Definition payment_span_open (orderId : string) (amount : Q)
    (d : PaymentDraws) (parent : option SpanId) (start : Q) : Span :=
  mkSpan "payment.process" parent
    ([("payment.order_id", AttrStr orderId); ("payment.amount", AttrNum amount)]
     ++ (if isSlow d then [("payment.slow", AttrBool true)] else []))
    (mkStatus UNSET "") start None.

Definition payment_arm_events (orderId : string) (d : PaymentDraws)
    (i : SpanId) : list Event :=
  EvSpanStart i "payment.process"
  :: (if isSlow d then
        [EvLog LWarn
           [("orderId", AttrStr orderId);
            ("delay", AttrInt (Math_round (paymentDelay d)))]
           "Paiement lent pour commande"]
      else []).

(** The calls a section makes, after the timer event; [n] is the index
    the next span gets and [db] the store the section finds. *)
Definition post_resume_events (d : PostDraws) (t0 t1 : Z) (p : AwaitPoint)
    (n : SpanId) : list Event :=
  match p with
  | AwaitInventory root child =>
      [EvSpanEnd child; EvSpanStart n "db.insert_order"]
  | AwaitInsert root child =>
      EvSpanEnd child
      :: payment_arm_events (genOrderId (idDraw d)) (paymentDraws d) n
  | AwaitPayment root child =>
      if paymentFails (paymentDraws d) then
        [EvSpanStatus child (mkStatus ERROR "Payment declined");
         EvSpanEnd child;
         EvCounterAdd 1 "error";
         EvLog LError [("error", AttrStr "Payment declined")]
           "Erreur lors de la creation de commande";
         EvRespond 500 (JError "Payment declined");
         EvGaugeAdd (-1);
         EvHistRecord (elapsed_seconds t0 t1)]
      else [EvSpanEnd child; EvSpanStart n "db.update_order_status"]
  | AwaitUpdate root child =>
      EvSpanEnd child
      :: success_tail d
      ++ [EvSpanEnd root;
          EvRespond 201 (JValue (JsOrder (new_order d)));
          EvGaugeAdd (-1);
          EvHistRecord (elapsed_seconds t0 t1)]
  | _ => [EvGaugeAdd (-1); EvHistRecord (elapsed_seconds t0 t1)]
  end.

Definition resume_events (r : Request) (p : AwaitPoint) (n : SpanId)
    (db : gmap string Order) : list Event :=
  match r, p with
  | ReqPostOrders d t0 t1, _ => post_resume_events d t0 t1 p n
  | ReqGetOrders u, AwaitSelectAll root child =>
      [EvSpanEnd child; EvSpanEnd root;
       EvRespond 200 (JOrders (Object_values db))]
  | ReqGetOrder k u, AwaitSelect root child =>
      [EvSpanEnd child; EvSpanEnd root;
       get_order_response (property_read db k)]
  | _, _ => []
  end.

(** How the section ends. *)
Definition resume_outcome (r : Request) (p : AwaitPoint) (n : SpanId)
    : Outcome :=
  match r, p with
  | ReqPostOrders d _ _, AwaitInventory root _ =>
      Suspended (AwaitInsert root n)
        (dbDelay defaultDurationRange (insertDraw d))
  | ReqPostOrders d _ _, AwaitInsert root _ =>
      Suspended (AwaitPayment root n) (paymentDelay (paymentDraws d))
  | ReqPostOrders d _ _, AwaitPayment root _ =>
      if paymentFails (paymentDraws d) then Completed
      else Suspended (AwaitUpdate root n)
             (dbDelay defaultDurationRange (updateDraw d))
  | _, _ => Completed
  end.

(** The span table after the section that follows a timer firing at [t]. *)
Definition resume_spans (r : Request) (p : AwaitPoint) (t : Q)
    (sp : list Span) : list Span :=
  match r, p with
  | ReqPostOrders d _ _, AwaitInventory root child =>
      alter (end_span t) child sp
      ++ [db_span_open "insert_order" (Some root) t]
  | ReqPostOrders d _ _, AwaitInsert root child =>
      alter (end_span t) child sp
      ++ [payment_span_open (genOrderId (idDraw d)) (genAmount (amountDraw d))
            (paymentDraws d) (Some root) t]
  | ReqPostOrders d _ _, AwaitPayment root child =>
      if paymentFails (paymentDraws d) then
        alter (end_span t) child
          (alter (set_status (mkStatus ERROR "Payment declined")) child sp)
      else
        alter (end_span t) child sp
        ++ [db_span_open "update_order_status" (Some root) t]
  | ReqPostOrders d _ _, AwaitUpdate root child =>
      alter (end_span t) root (alter (end_span t) child sp)
  | ReqGetOrders u, AwaitSelectAll root child =>
      alter (end_span t) root (alter (end_span t) child sp)
  | ReqGetOrder k u, AwaitSelect root child =>
      alter (end_span t) root (alter (end_span t) child sp)
  | _, _ => sp
  end.

Definition resume_store (r : Request) (p : AwaitPoint)
    (db : gmap string Order) : gmap string Order :=
  match r, p with
  | ReqPostOrders d _ _, AwaitUpdate _ _ =>
      <[genOrderId (idDraw d) := new_order d]> db
  | _, _ => db
  end.

(** The first section of a request: spans, calls and outcome. *)
Definition entry_spans (r : Request) (parent : option SpanId) (n : SpanId)
    (c : Q) : list Span :=
  match r with
  | ReqHealth => []
  | ReqPostOrders d _ _ =>
      [mkSpan "create_order" parent (root_attributes d) (mkStatus UNSET "") c
         None;
       db_span_open "check_inventory" (Some n) c]
  | ReqGetOrders u =>
      [mkSpan "list_orders" parent [] (mkStatus UNSET "") c None;
       db_span_open "select_all_orders" (Some n) c]
  | ReqGetOrder k u =>
      [mkSpan "get_order" parent [("order.id", AttrStr k)] (mkStatus UNSET "")
         c None;
       db_span_open "select_order" (Some n) c]
  end.

Definition entry_events (r : Request) (n : SpanId) : list Event :=
  match r with
  | ReqHealth => [EvRespond 200 JHealth]
  | ReqPostOrders d _ _ =>
      [EvGaugeAdd 1; EvSpanStart n "create_order";
       EvSpanStart (n + 1) "db.check_inventory"]
  | ReqGetOrders u =>
      [EvSpanStart n "list_orders"; EvSpanStart (n + 1) "db.select_all_orders"]
  | ReqGetOrder k u =>
      [EvSpanStart n "get_order"; EvSpanStart (n + 1) "db.select_order"]
  end.

Definition entry_outcome (r : Request) (n : SpanId) : Outcome :=
  match r with
  | ReqHealth => Completed
  | ReqPostOrders d _ _ =>
      Suspended (AwaitInventory n (n + 1))
        (dbDelay defaultDurationRange (inventoryDraw d))
  | ReqGetOrders u =>
      Suspended (AwaitSelectAll n (n + 1)) (dbDelay defaultDurationRange u)
  | ReqGetOrder k u =>
      Suspended (AwaitSelect n (n + 1)) (dbDelay defaultDurationRange u)
  end.

Definition is_completed (o : Outcome) : bool :=
  match o with Completed => true | Suspended _ _ => false end.

Definition root_of (p : AwaitPoint) : SpanId :=
  match p with
  | AwaitInventory root _ | AwaitInsert root _ | AwaitPayment root _
  | AwaitUpdate root _ | AwaitSelectAll root _ | AwaitSelect root _ => root
  end.

Definition child_of (p : AwaitPoint) : SpanId :=
  match p with
  | AwaitInventory _ child | AwaitInsert _ child | AwaitPayment _ child
  | AwaitUpdate _ child | AwaitSelectAll _ child | AwaitSelect _ child => child
  end.

Definition is_fire (l : Label) : bool :=
  match l with Fire _ _ => true | Arrive _ => false end.

Definition is_arrival (p : Request -> bool) (l : Label) : bool :=
  match l with Arrive r => p r | Fire _ _ => false end.

Definition total_remaining (ts : list Task) : nat :=
  foldr (fun tk acc => remaining_sections tk + acc) 0 ts.

(** Every span started no later than now, and a closed span ended between
    its start and now. *)
Definition span_times_ok (now : Q) (s : Span) : Prop :=
  (span_startTime s <= now)%Q /\
  forall e, span_endTime s = Some e ->
            (span_startTime s <= e)%Q /\ (e <= now)%Q.

Definition sample_system : System := mkSystem initial_world [].

(** Two orders placed at the same time, the second one declined, their
    sections interleaved. *)
Definition sample_schedule : list Label :=
  [Arrive (ReqPostOrders sample_post_ok 1000 1400);
   Arrive (ReqPostOrders sample_post_declined 1001 1300);
   Fire 0 30; Fire 1 31; Fire 0 60; Fire 1 62; Fire 1 187; Fire 0 190;
   Fire 0 220].

(** A task waits at an [await] of its own handler, and a [POST /orders]
    that waits for its last query has had its payment accepted. *)
Definition task_ok (tk : Task) : bool :=
  match task_request tk, task_state tk with
  | _, Done => true
  | ReqPostOrders d _ _, Waiting (AwaitInventory _ _) _ _ => true
  | ReqPostOrders d _ _, Waiting (AwaitInsert _ _) _ _ => true
  | ReqPostOrders d _ _, Waiting (AwaitPayment _ _) _ _ => true
  | ReqPostOrders d _ _, Waiting (AwaitUpdate _ _) _ _ =>
      negb (paymentFails (paymentDraws d))
  | ReqGetOrders _, Waiting (AwaitSelectAll _ _) _ _ => true
  | ReqGetOrder _ _, Waiting (AwaitSelect _ _) _ _ => true
  | _, _ => false
  end.

Definition any_request (r : Request) : bool := true.

Definition sample_open_span (name : string) (parent : option SpanId) : Span :=
  mkSpan name parent [] (mkStatus UNSET "") 0 None.

(** A GET /orders waiting for its query while a GET /orders/:orderId has
    opened its root span. *)
Definition sample_waiting_system : System :=
  mkSystem
    (mkWorld ∅
       [sample_open_span "list_orders" None;
        sample_open_span "db.select_all_orders" (Some 0);
        sample_open_span "get_order" None]
       None 0 [])
    [mkTask (ReqGetOrders (1 # 2)) (Waiting (AwaitSelectAll 0 1) 30 0)].

(** ** Draws of any resolution

    Number of the [N] equally likely values of a draw that lie below
    [1 / den]: the values for which [Math.random() < 1 / den] holds. *)
Definition points_below (den : positive) (N : nat) : nat :=
  length (List.filter (fun u => Qlt_b u (1 # den)) (uniform_grid N)).

(** The draws that give the identifier [n]: [Math.floor(u * 90000)] is
    [n - 10000] when [u * 90000] lies between [n - 10000] and [n - 9999].
    A draw is well inside the cell of [n] when it keeps a distance of
    [10^-6] from both ends, far more than the rounding of one binary64
    product. *)
Definition well_inside_cell (n : Z) (u : Q) : Prop :=
  (inject_Z (n - 10000) + (1 # 1000000) <= u * 90000)%Q /\
  (u * 90000 <= inject_Z (n - 9999) - (1 # 1000000))%Q.

(** The draw in the middle of the cell of [n]. *)
Definition cell_centre (n : Z) : Q :=
  ((inject_Z (n - 10000) + (1 # 2)) * (1 # 90000))%Q.

(** ** The delay of the payment call on binary64 numbers

    [Math.random() * 2000 + 1000] and [Math.random() * 150 + 50] as the
    engine evaluates them: on binary64 numbers, each operation rounded to
    nearest, ties to even. *)
Definition paymentDelay_binary64 (isSlow : bool) (u : float) : float :=
  if isSlow then (u * 2000 + 1000)%float else (u * 150 + 50)%float.

(** The largest binary64 number below 1, [1 - 2^-53], and the largest one
    whose fraction has 52 bits, [1 - 2^-52]. *)
Definition largest_draw : float := 0x1.fffffffffffffp-1%float.
Definition largest_draw_52 : float := 0x1.ffffffffffffep-1%float.

(** ** Store writes of a schedule *)

(** The assignments [ordersDb[key] = o] recorded in a history, in order. *)
Definition store_writes (h : list Event) : list (string * Order) :=
  omap (fun e => match e with
                 | EvStoreWrite k o => Some (k, o)
                 | _ => None
                 end) h.

Definition apply_writes (ws : list (string * Order))
    (db : gmap string Order) : gmap string Order :=
  foldl (fun db kv => <[kv.1 := kv.2]> db) db ws.

(** What one turn of the event loop assigns: the section that follows the
    last query of a [POST /orders] assigns the order of that request under
    the identifier drawn when it arrived; no other turn assigns. *)
Definition turn_writes (l : Label) (s : System) : list (string * Order) :=
  match l with
  | Fire i _ =>
      match tasks s !! i with
      | Some (mkTask (ReqPostOrders d _ _) (Waiting (AwaitUpdate _ _) _ _)) =>
          [(genOrderId (idDraw d), new_order d)]
      | _ => []
      end
  | Arrive _ => []
  end.

Fixpoint schedule_writes (ls : list Label) (s : System)
    : list (string * Order) :=
  match ls with
  | [] => []
  | l :: ls' =>
      turn_writes l s
      ++ match step l s with
         | Some s' => schedule_writes ls' s'
         | None => []
         end
  end.

(** ** Running the code on an arbitrary world *)

Lemma alter_first_new_span (f : Span -> Span) (sp : list Span) s news :
  alter f (length sp) (sp ++ s :: news) = sp ++ f s :: news.
Proof.
  rewrite <- (Nat.add_0_r (length sp)) at 1.
  by rewrite alter_app_r.
Qed.

Ltac run_monad :=
  cbv beta iota zeta delta
    [mbind M_bind mret M_ret resolve reject try_catch_finally emit
     ordersInProgress_add ordersCreated_add orderProcessingTime_record
     logger_log update_span setAttribute setStatus span_end startActiveSpan
     setTimeout ordersDb_get ordersDb_set ordersDb_values res_status_json
     res_json ordersDb spans activeSpan clock history].

Ltac tidy_world :=
  repeat first
    [ progress cbn [length app is_ended span_endTime span_name span_parent
                    span_attributes span_status span_startTime Nat.add]
    | match goal with
      | |- context [alter ?f (length ?sp) (?sp ++ ?s :: ?news)] =>
          rewrite (alter_first_new_span f sp s news)
      | |- context [(?x ++ ?y) ++ ?z] => rewrite <- (app_assoc x y z)
      | |- context [length (?x ++ ?y)] => rewrite (length_app x y)
      end ].

Lemma simulateDbQuery_run queryType r u db sp a c h :
  simulateDbQuery queryType r u (mkWorld db sp a c h) =
  (mkWorld db (sp ++ [db_span queryType a c (dbDelay r u)]) a
     (c + dbDelay r u)%Q (h ++ db_events queryType (length sp) (dbDelay r u)),
   Ok tt).
Proof.
  unfold simulateDbQuery, db_span, db_events.
  run_monad. tidy_world. reflexivity.
Qed.

Lemma simulatePaymentProcessing_run orderId amount d db sp a c h :
  simulatePaymentProcessing orderId amount d (mkWorld db sp a c h) =
  (mkWorld db (sp ++ [payment_span orderId amount d a c]) a
     (c + paymentDelay d)%Q (h ++ payment_events orderId d (length sp)),
   if paymentFails d then Throw paymentDeclined else Ok tt).
Proof.
  unfold simulatePaymentProcessing, payment_span, payment_events.
  destruct (isSlow d), (paymentFails d);
    run_monad; tidy_world; reflexivity.
Qed.

Section PostOrdersRun.
Variable d : PostDraws.
Variables nowEntry nowExit : Z.

Let d1 : Q := dbDelay defaultDurationRange (inventoryDraw d).
Let d2 : Q := dbDelay defaultDurationRange (insertDraw d).
Let d3 : Q := paymentDelay (paymentDraws d).
Let d4 : Q := dbDelay defaultDurationRange (updateDraw d).

Lemma post_orders_success db sp a c h :
  paymentFails (paymentDraws d) = false ->
  post_orders d nowEntry nowExit (mkWorld db sp a c h) =
  (mkWorld (<[genOrderId (idDraw d) := new_order d]> db)
     (sp ++ success_spans d a (length sp) c) a
     (c + d1 + d2 + d3 + d4)%Q
     (h ++ success_events d nowEntry nowExit (length sp)),
   Ok tt).
Proof.
  intros Hok.
  unfold post_orders, success_spans, success_root, success_events,
    success_tail, step_spans, step_events, new_order, root_attributes.
  run_monad. tidy_world.
  rewrite simulateDbQuery_run. tidy_world.
  rewrite simulateDbQuery_run. tidy_world.
  rewrite simulatePaymentProcessing_run, Hok. tidy_world.
  rewrite simulateDbQuery_run. tidy_world.
  run_monad. tidy_world.
  unfold property_read. rewrite lookup_insert_eq. reflexivity.
Qed.

Lemma post_orders_declined db sp a c h :
  paymentFails (paymentDraws d) = true ->
  post_orders d nowEntry nowExit (mkWorld db sp a c h) =
  (mkWorld db (sp ++ declined_spans d a (length sp) c) a
     (c + d1 + d2 + d3)%Q
     (h ++ declined_events d nowEntry nowExit (length sp)),
   Ok tt).
Proof.
  intros Hko.
  unfold post_orders, declined_spans, declined_root, declined_events,
    step_spans, step_events, root_attributes.
  run_monad. tidy_world.
  rewrite simulateDbQuery_run. tidy_world.
  rewrite simulateDbQuery_run. tidy_world.
  rewrite simulatePaymentProcessing_run, Hko. tidy_world.
  run_monad. tidy_world.
  reflexivity.
Qed.

End PostOrdersRun.

Lemma get_orders_run u db sp a c h :
  get_orders u (mkWorld db sp a c h) =
  (mkWorld db
     (sp ++ [mkSpan "list_orders" a [] (mkStatus UNSET "") c
               (Some (c + dbDelay defaultDurationRange u)%Q);
             db_span "select_all_orders" (Some (length sp)) c
               (dbDelay defaultDurationRange u)])
     a (c + dbDelay defaultDurationRange u)%Q
     (h ++ EvSpanStart (length sp) "list_orders"
        :: db_events "select_all_orders" (length sp + 1)
             (dbDelay defaultDurationRange u)
        ++ [EvSpanEnd (length sp); EvRespond 200 (JOrders (Object_values db))]),
   Ok tt).
Proof.
  unfold get_orders. run_monad. tidy_world.
  rewrite simulateDbQuery_run. tidy_world.
  run_monad. tidy_world. reflexivity.
Qed.

Lemma get_order_run orderId u db sp a c h :
  get_order orderId u (mkWorld db sp a c h) =
  (mkWorld db
     (sp ++ [mkSpan "get_order" a [("order.id", AttrStr orderId)]
               (mkStatus UNSET "") c
               (Some (c + dbDelay defaultDurationRange u)%Q);
             db_span "select_order" (Some (length sp)) c
               (dbDelay defaultDurationRange u)])
     a (c + dbDelay defaultDurationRange u)%Q
     (h ++ EvSpanStart (length sp) "get_order"
        :: db_events "select_order" (length sp + 1)
             (dbDelay defaultDurationRange u)
        ++ [EvSpanEnd (length sp);
            get_order_response (property_read db orderId)]),
   Ok tt).
Proof.
  unfold get_order, get_order_response.
  run_monad. tidy_world.
  rewrite simulateDbQuery_run. tidy_world.
  run_monad. tidy_world.
  destruct (truthy (property_read db orderId));
    run_monad; tidy_world; reflexivity.
Qed.

Lemma get_health_run db sp a c h :
  get_health (mkWorld db sp a c h) =
  (mkWorld db sp a c (h ++ [EvRespond 200 JHealth]), Ok tt).
Proof. reflexivity. Qed.

(** ** The world after a request *)

Lemma after_post_success d t0 t1 w :
  paymentFails (paymentDraws d) = false ->
  after (ReqPostOrders d t0 t1) w =
  mkWorld (<[genOrderId (idDraw d) := new_order d]> (ordersDb w))
    (spans w ++ success_spans d (activeSpan w) (length (spans w)) (clock w))
    (activeSpan w)
    (clock w + dbDelay defaultDurationRange (inventoryDraw d)
     + dbDelay defaultDurationRange (insertDraw d)
     + paymentDelay (paymentDraws d)
     + dbDelay defaultDurationRange (updateDraw d))%Q
    (history w ++ success_events d t0 t1 (length (spans w))).
Proof.
  intros Hok. destruct w as [db sp a c h]. unfold after, handle.
  by rewrite post_orders_success.
Qed.

Lemma after_post_declined d t0 t1 w :
  paymentFails (paymentDraws d) = true ->
  after (ReqPostOrders d t0 t1) w =
  mkWorld (ordersDb w)
    (spans w ++ declined_spans d (activeSpan w) (length (spans w)) (clock w))
    (activeSpan w)
    (clock w + dbDelay defaultDurationRange (inventoryDraw d)
     + dbDelay defaultDurationRange (insertDraw d)
     + paymentDelay (paymentDraws d))%Q
    (history w ++ declined_events d t0 t1 (length (spans w))).
Proof.
  intros Hko. destruct w as [db sp a c h]. unfold after, handle.
  by rewrite post_orders_declined.
Qed.

(** No exception escapes a handler: every request runs to completion. *)
Lemma handle_completes r w : snd (handle r w) = Ok tt.
Proof.
  destruct w as [db sp a c h], r as [|d t0 t1|u|k u]; cbn [handle].
  - by rewrite get_health_run.
  - destruct (paymentFails (paymentDraws d)) eqn:Hp.
    + by rewrite post_orders_declined.
    + by rewrite post_orders_success.
  - by rewrite get_orders_run.
  - by rewrite get_order_run.
Qed.

Lemma events_since_app w w' evs :
  history w' = history w ++ evs -> events_since w w' = evs.
Proof. unfold events_since. intros ->. apply drop_app_length. Qed.

Lemma spans_since_app w w' news :
  spans w' = spans w ++ news -> spans_since w w' = news.
Proof. unfold spans_since. intros ->. apply drop_app_length. Qed.

Lemma events_since_post_success d t0 t1 w :
  paymentFails (paymentDraws d) = false ->
  events_since w (after (ReqPostOrders d t0 t1) w)
  = success_events d t0 t1 (length (spans w)).
Proof.
  intros Hok. apply events_since_app. by rewrite after_post_success.
Qed.

Lemma events_since_post_declined d t0 t1 w :
  paymentFails (paymentDraws d) = true ->
  events_since w (after (ReqPostOrders d t0 t1) w)
  = declined_events d t0 t1 (length (spans w)).
Proof.
  intros Hko. apply events_since_app. by rewrite after_post_declined.
Qed.

(** ** Aggregates over a history *)

Lemma gauge_value_app h1 h2 :
  gauge_value (h1 ++ h2) = (gauge_value h1 + gauge_value h2)%Z.
Proof.
  induction h1 as [|e h1 IH]; cbn; [done|].
  fold (gauge_value (h1 ++ h2)) (gauge_value h1). lia.
Qed.

Lemma counter_value_app st h1 h2 :
  counter_value st (h1 ++ h2)
  = (counter_value st h1 + counter_value st h2)%Z.
Proof.
  induction h1 as [|e h1 IH]; cbn; [done|].
  fold (counter_value st (h1 ++ h2)) (counter_value st h1). lia.
Qed.

Lemma histogram_values_app h1 h2 :
  histogram_values (h1 ++ h2) = histogram_values h1 ++ histogram_values h2.
Proof. apply omap_app. Qed.

Lemma count_events_app p h1 h2 :
  count_events p (h1 ++ h2) = count_events p h1 + count_events p h2.
Proof. unfold count_events. by rewrite List.filter_app, length_app. Qed.


(** ** In-flight gauge *)

(** The calls of a successful request between its first and its last two. *)
Lemma success_events_shape d t0 t1 n :
  success_events d t0 t1 n =
  EvGaugeAdd 1
  :: (EvSpanStart n "create_order"
      :: step_events d n
      ++ db_events "update_order_status" (n + 4)
           (dbDelay defaultDurationRange (updateDraw d))
      ++ success_tail d
      ++ [EvSpanEnd n; EvRespond 201 (JValue (JsOrder (new_order d)))])
  ++ [EvGaugeAdd (-1); EvHistRecord (elapsed_seconds t0 t1)].
Proof.
  unfold success_events. cbn [app]. do 2 f_equal.
  rewrite <- !app_assoc. reflexivity.
Qed.

Lemma declined_events_shape d t0 t1 n :
  declined_events d t0 t1 n =
  EvGaugeAdd 1
  :: (EvSpanStart n "create_order"
      :: step_events d n
      ++ [EvCounterAdd 1 "error";
          EvLog LError [("error", AttrStr "Payment declined")]
            "Erreur lors de la creation de commande";
          EvRespond 500 (JError "Payment declined")])
  ++ [EvGaugeAdd (-1); EvHistRecord (elapsed_seconds t0 t1)].
Proof.
  unfold declined_events. cbn [app]. do 2 f_equal.
  rewrite <- !app_assoc. reflexivity.
Qed.

Lemma step_events_no p d n :
  (forall i name, p (EvSpanStart i name) = false) ->
  (forall i st, p (EvSpanStatus i st) = false) ->
  (forall i, p (EvSpanEnd i) = false) ->
  (forall q, p (EvTimer q) = false) ->
  (forall l f m, p (EvLog l f m) = false) ->
  count_events p (step_events d n) = 0.
Proof.
  intros H1 H2 H3 H4 H5.
  unfold step_events, payment_events, db_events, count_events.
  destruct (isSlow (paymentDraws d)), (paymentFails (paymentDraws d));
    cbn [app List.filter]; rewrite ?H1, ?H2, ?H3, ?H4, ?H5; reflexivity.
Qed.

Lemma step_events_gauge d n : gauge_value (step_events d n) = 0%Z.
Proof.
  unfold step_events, payment_events, db_events.
  destruct (isSlow (paymentDraws d)), (paymentFails (paymentDraws d));
    reflexivity.
Qed.

Lemma step_events_counter st d n : counter_value st (step_events d n) = 0%Z.
Proof.
  unfold step_events, payment_events, db_events.
  destruct (isSlow (paymentDraws d)), (paymentFails (paymentDraws d));
    reflexivity.
Qed.

Lemma step_events_histogram d n : histogram_values (step_events d n) = [].
Proof.
  unfold step_events, payment_events, db_events.
  destruct (isSlow (paymentDraws d)), (paymentFails (paymentDraws d));
    reflexivity.
Qed.

(** C1: every execution of the POST /orders handler, successful or ending
    in the caught error, runs to completion, adds +1 to the in-flight gauge
    as its first call and -1 as its last call but one (followed only by the
    histogram record), adds nothing to the gauge in between, and leaves the
    value of the gauge as it found it. *)
Theorem post_orders_gauge_net_zero d t0 t1 w :
  let w' := after (ReqPostOrders d t0 t1) w in
  snd (handle (ReqPostOrders d t0 t1) w) = Ok tt /\
  history w' = history w ++ events_since w w' /\
  (exists mid,
     events_since w w'
     = EvGaugeAdd 1 :: mid
       ++ [EvGaugeAdd (-1); EvHistRecord (elapsed_seconds t0 t1)] /\
     count_events is_gauge_add mid = 0) /\
  count_events is_gauge_add (events_since w w') = 2 /\
  gauge_value (history w') = gauge_value (history w).
Proof.
  cbv zeta. split; [apply handle_completes|].
  destruct (paymentFails (paymentDraws d)) eqn:Hp.
  - rewrite events_since_post_declined, after_post_declined by done.
    cbn [history]. split; [done|].
    rewrite declined_events_shape.
    assert (Hmid : count_events is_gauge_add
              (EvSpanStart (length (spans w)) "create_order"
               :: step_events d (length (spans w))
               ++ [EvCounterAdd 1 "error";
                   EvLog LError [("error", AttrStr "Payment declined")]
                     "Erreur lors de la creation de commande";
                   EvRespond 500 (JError "Payment declined")]) = 0).
    { change (EvSpanStart ?i ?s :: ?l) with ([EvSpanStart i s] ++ l).
      rewrite !count_events_app, step_events_no by done. reflexivity. }
    split; [eauto|]. split.
    + change (EvGaugeAdd 1 :: ?l) with ([EvGaugeAdd 1] ++ l).
      rewrite !count_events_app, Hmid. reflexivity.
    + change (EvGaugeAdd 1 :: ?l) with ([EvGaugeAdd 1] ++ l).
      change (EvSpanStart ?i ?s :: ?l) with ([EvSpanStart i s] ++ l).
      rewrite !gauge_value_app, step_events_gauge. cbn. lia.
  - rewrite events_since_post_success, after_post_success by done.
    cbn [history]. split; [done|].
    rewrite success_events_shape.
    assert (Hmid : count_events is_gauge_add
              (EvSpanStart (length (spans w)) "create_order"
               :: step_events d (length (spans w))
               ++ db_events "update_order_status" (length (spans w) + 4)
                    (dbDelay defaultDurationRange (updateDraw d))
               ++ success_tail d
               ++ [EvSpanEnd (length (spans w));
                   EvRespond 201 (JValue (JsOrder (new_order d)))]) = 0).
    { change (EvSpanStart ?i ?s :: ?l) with ([EvSpanStart i s] ++ l).
      rewrite !count_events_app, step_events_no by done. reflexivity. }
    split; [eauto|]. split.
    + change (EvGaugeAdd 1 :: ?l) with ([EvGaugeAdd 1] ++ l).
      rewrite !count_events_app, Hmid. reflexivity.
    + change (EvGaugeAdd 1 :: ?l) with ([EvGaugeAdd 1] ++ l).
      change (EvSpanStart ?i ?s :: ?l) with ([EvSpanStart i s] ++ l).
      rewrite !gauge_value_app, step_events_gauge. cbn. lia.
Qed.

(** ** Draws and delays *)

Lemma Qlt_b_true_iff x y : Qlt_b x y = true <-> (x < y)%Q.
Proof.
  unfold Qlt_b. rewrite negb_true_iff, <- not_true_iff_false, Qle_bool_iff.
  split; [apply Qnot_le_lt | apply Qlt_not_le].
Qed.

Lemma Qlt_b_false_iff x y : Qlt_b x y = false <-> ~ (x < y)%Q.
Proof. rewrite <- Qlt_b_true_iff. symmetry. apply not_true_iff_false. Qed.

Lemma paymentFails_true_iff d :
  paymentFails d = true <-> (failDraw d < 1 # 20)%Q.
Proof. apply Qlt_b_true_iff. Qed.

Lemma paymentFails_false_iff d :
  paymentFails d = false <-> ~ (failDraw d < 1 # 20)%Q.
Proof. apply Qlt_b_false_iff. Qed.

Lemma isSlow_true_iff d : isSlow d = true <-> (slowDraw d < 1 # 10)%Q.
Proof. apply Qlt_b_true_iff. Qed.

Lemma dbDelay_default_range u :
  valid_draw u ->
  (10 <= dbDelay defaultDurationRange u)%Q /\
  (dbDelay defaultDurationRange u < 50)%Q.
Proof. intros [H0 H1]. unfold dbDelay. cbn [defaultDurationRange fst snd]. lra. Qed.

Lemma paymentDelay_range d :
  valid_draw (delayDraw d) ->
  if isSlow d then (1000 <= paymentDelay d)%Q /\ (paymentDelay d < 3000)%Q
  else (50 <= paymentDelay d)%Q /\ (paymentDelay d < 200)%Q.
Proof. intros [H0 H1]. unfold paymentDelay. destruct (isSlow d); lra. Qed.

Lemma elapsed_seconds_nonneg t0 t1 :
  (0 <= elapsed_seconds t0 t1)%Q <-> (t0 <= t1)%Z.
Proof.
  unfold elapsed_seconds, Qle, Qdiv, Qmult, Qinv, inject_Z. cbn. lia.
Qed.

(** ** Processing-time histogram *)

(** C4, as stated, fails: when the wall clock is set back between the two
    [Date.now()] calls (1000 at entry, 500 at exit) the one value recorded
    by a successful request is negative. *)
Lemma histogram_negative_when_clock_set_back :
  ~ Forall (fun v => (0 <= v)%Q)
      (histogram_values
         (events_since initial_world
            (after (ReqPostOrders sample_post_ok 1000 500) initial_world))).
Proof.
  set (l := histogram_values _). vm_compute in l. subst l.
  intros H. inversion H as [|v l Hv _]; subst.
  unfold Qle in Hv. cbn in Hv. lia.
Qed.

(** C4, amended: every POST /orders request, successful or not, records
    exactly one value in the processing-time histogram, the difference of
    the two wall-clock readings in seconds; that value is non-negative
    exactly when the reading at exit is not earlier than the reading at
    entry. *)
Theorem post_orders_histogram_once d t0 t1 w :
  let w' := after (ReqPostOrders d t0 t1) w in
  histogram_values (events_since w w') = [elapsed_seconds t0 t1] /\
  count_events is_hist_record (events_since w w') = 1 /\
  histogram_values (history w')
  = histogram_values (history w) ++ [elapsed_seconds t0 t1] /\
  ((0 <= elapsed_seconds t0 t1)%Q <-> (t0 <= t1)%Z).
Proof.
  cbv zeta.
  assert (Hevs : histogram_values
                   (events_since w (after (ReqPostOrders d t0 t1) w))
                 = [elapsed_seconds t0 t1] /\
                 count_events is_hist_record
                   (events_since w (after (ReqPostOrders d t0 t1) w)) = 1 /\
                 history (after (ReqPostOrders d t0 t1) w)
                 = history w
                   ++ events_since w (after (ReqPostOrders d t0 t1) w)).
  { destruct (paymentFails (paymentDraws d)) eqn:Hp.
    - rewrite events_since_post_declined, after_post_declined by done.
      cbn [history]. unfold declined_events.
      rewrite !histogram_values_app, !count_events_app, step_events_histogram,
        step_events_no by done.
      done.
    - rewrite events_since_post_success, after_post_success by done.
      cbn [history]. unfold success_events.
      rewrite !histogram_values_app, !count_events_app, step_events_histogram,
        step_events_no by done.
      done. }
  destruct Hevs as (Hv & Hc & Hh).
  split; [done|]. split; [done|]. split.
  - by rewrite Hh, histogram_values_app, Hv.
  - apply elapsed_seconds_nonneg.
Qed.

(** ** Outcome of a request whose payment goes through *)

Lemma counter_value_step st d n l :
  counter_value st (step_events d n ++ l) = counter_value st l.
Proof. by rewrite counter_value_app, step_events_counter. Qed.

Lemma filter_step_events p d n :
  (forall i name, p (EvSpanStart i name) = false) ->
  (forall i st, p (EvSpanStatus i st) = false) ->
  (forall i, p (EvSpanEnd i) = false) ->
  (forall q, p (EvTimer q) = false) ->
  (forall l f m, p (EvLog l f m) = false) ->
  List.filter p (step_events d n) = [].
Proof.
  intros H1 H2 H3 H4 H5. apply length_zero_iff_nil.
  by apply step_events_no.
Qed.

(** C7: when the failure draw of the payment does not fire, the request
    stores under its identifier an Order with status "confirmed", adds 1 to
    the orders-created counter with status=success exactly once and adds
    nothing under any other label, and sends exactly one response, a 201
    carrying the order it has just stored. *)
Theorem post_orders_success_outcome d t0 t1 w :
  ~ (failDraw (paymentDraws d) < 1 # 20)%Q ->
  let w' := after (ReqPostOrders d t0 t1) w in
  let evs := events_since w w' in
  ordersDb w' = <[genOrderId (idDraw d) := new_order d]> (ordersDb w) /\
  ordersDb w' !! genOrderId (idDraw d) = Some (new_order d) /\
  id (new_order d) = genOrderId (idDraw d) /\
  status (new_order d) = "confirmed" /\
  List.filter is_store_write evs
  = [EvStoreWrite (genOrderId (idDraw d)) (new_order d)] /\
  List.filter is_counter_add evs = [EvCounterAdd 1 "success"] /\
  (forall st,
     counter_value st (history w')
     = (counter_value st (history w)
        + if String.eqb st "success" then 1 else 0)%Z) /\
  List.filter is_respond evs
  = [EvRespond 201 (JValue (JsOrder (new_order d)))].
Proof.
  intros Hok%paymentFails_false_iff. cbv zeta.
  rewrite events_since_post_success, after_post_success by done.
  cbn [ordersDb history].
  split; [done|]. split; [apply lookup_insert_eq|].
  split; [done|]. split; [done|].
  unfold success_events.
  rewrite !List.filter_app, !filter_step_events by done.
  split; [done|]. split; [done|]. split; [|done].
  intros st. rewrite !counter_value_app, step_events_counter.
  cbn. destruct (String.eqb st "success"); lia.
Qed.

Lemma post_orders_success_outcome_witness :
  ~ (failDraw (paymentDraws sample_post_ok) < 1 # 20)%Q /\
  ordersDb (after (ReqPostOrders sample_post_ok 1000 1400) initial_world)
  !! genOrderId (idDraw sample_post_ok) = Some (new_order sample_post_ok).
Proof.
  assert (H : ~ (failDraw (paymentDraws sample_post_ok) < 1 # 20)%Q).
  { unfold Qlt. cbn. lia. }
  split; [exact H|].
  exact (proj1 (proj2
    (post_orders_success_outcome sample_post_ok 1000 1400 initial_world H))).
Defined.

(** ** Outcome of a request whose payment is declined *)

(** C3, as stated, fails: after a request whose payment was declined the
    root span does not carry status ERROR. *)
Lemma declined_root_not_marked_error :
  (failDraw (paymentDraws sample_post_declined) < 1 # 20)%Q /\
  ~ root_marked_error initial_world
      (after (ReqPostOrders sample_post_declined 1000 1400) initial_world).
Proof.
  split; [unfold Qlt; cbn; lia|].
  intros (root & Hroot & Hcode).
  rewrite after_post_declined in Hroot by reflexivity.
  cbn in Hroot. injection Hroot as <-. discriminate Hcode.
Qed.

(** C3, amended: when the failure draw of the payment fires, the request
    writes nothing to the order store, adds 1 to the orders-created counter
    with status=error exactly once and nothing under any other label, sends
    a 500 response with the message of the error, and the status ERROR with
    message "Payment declined" is on the payment.process child span; the
    handler sets no status on the root create_order span, which stays
    UNSET. *)
Theorem post_orders_declined_outcome d t0 t1 w :
  (failDraw (paymentDraws d) < 1 # 20)%Q ->
  let w' := after (ReqPostOrders d t0 t1) w in
  let evs := events_since w w' in
  let n := length (spans w) in
  ordersDb w' = ordersDb w /\
  count_events is_store_write evs = 0 /\
  List.filter is_counter_add evs = [EvCounterAdd 1 "error"] /\
  (forall st,
     counter_value st (history w')
     = (counter_value st (history w)
        + if String.eqb st "error" then 1 else 0)%Z) /\
  List.filter is_respond evs = [EvRespond 500 (JError "Payment declined")] /\
  (exists pay,
     spans w' !! (n + 3) = Some pay /\
     span_name pay = "payment.process" /\
     span_parent pay = Some n /\
     span_status pay = mkStatus ERROR "Payment declined") /\
  (exists root,
     spans w' !! n = Some root /\
     span_name root = "create_order" /\
     span_status root = mkStatus UNSET "") /\
  count_events (is_span_status n) evs = 0.
Proof.
  intros Hko%paymentFails_true_iff. cbv zeta.
  rewrite events_since_post_declined, after_post_declined by done.
  cbn [ordersDb history spans].
  split; [done|].
  unfold declined_events.
  rewrite !List.filter_app, !count_events_app, !step_events_no,
    !filter_step_events by done.
  split; [done|]. split; [done|]. split.
  { intros st. rewrite !counter_value_app, step_events_counter.
    cbn. destruct (String.eqb st "error"); lia. }
  split; [done|]. split; [|split].
  - eexists. split.
    + rewrite lookup_app_r by lia.
      replace (length (spans w) + 3 - length (spans w)) with 3 by lia.
      reflexivity.
    + unfold payment_span. cbn. by rewrite Hko.
  - eexists. split.
    + rewrite lookup_app_r by lia. rewrite Nat.sub_diag. reflexivity.
    + done.
  - unfold step_events, payment_events, db_events, count_events.
    rewrite Hko.
    assert (H1 : Nat.eqb (length (spans w)) (length (spans w) + 1) = false)
      by (apply Nat.eqb_neq; lia).
    assert (H2 : Nat.eqb (length (spans w)) (length (spans w) + 2) = false)
      by (apply Nat.eqb_neq; lia).
    assert (H3 : Nat.eqb (length (spans w)) (length (spans w) + 3) = false)
      by (apply Nat.eqb_neq; lia).
    destruct (isSlow (paymentDraws d));
      cbn [app List.filter is_span_status]; rewrite ?H1, ?H2, ?H3;
      reflexivity.
Qed.

Lemma post_orders_declined_outcome_witness :
  (failDraw (paymentDraws sample_post_declined) < 1 # 20)%Q /\
  ordersDb (after (ReqPostOrders sample_post_declined 1000 1400) initial_world)
  = ordersDb initial_world.
Proof.
  assert (H : (failDraw (paymentDraws sample_post_declined) < 1 # 20)%Q).
  { unfold Qlt. cbn. lia. }
  split; [exact H|].
  exact (proj1
    (post_orders_declined_outcome sample_post_declined 1000 1400
       initial_world H)).
Defined.

(** ** Span closing *)

Lemma neq_eqb_false (n k : nat) : 0 < k -> Nat.eqb n (n + k) = false.
Proof. intros Hk. apply Nat.eqb_neq. lia. Qed.

Lemma step_spans_closed d n c : Forall closed (step_spans d n c).
Proof. repeat constructor; by eexists. Qed.

Lemma step_events_no_root_end d n :
  count_events (is_span_end n) (step_events d n) = 0.
Proof.
  unfold step_events, payment_events, db_events, count_events.
  destruct (isSlow (paymentDraws d)), (paymentFails (paymentDraws d));
    cbn [app List.filter is_span_end];
    rewrite !neq_eqb_false by lia; reflexivity.
Qed.

(** On the success path every span of the request is closed, each child
    under the root and no later than the root. *)
Lemma post_orders_success_spans_closed d t0 t1 w :
  valid_post_draws d ->
  ~ (failDraw (paymentDraws d) < 1 # 20)%Q ->
  let w' := after (ReqPostOrders d t0 t1) w in
  exists root children rootEnd,
    spans_since w w' = root :: children /\
    span_name root = "create_order" /\
    span_endTime root = Some rootEnd /\
    length children = 4 /\
    Forall (closed_by rootEnd) children /\
    Forall (fun s => span_parent s = Some (length (spans w))) children.
Proof.
  intros (_ & _ & Hinv & Hins & (_ & Hpay & _) & Hupd)
    Hok%paymentFails_false_iff.
  cbv zeta.
  erewrite spans_since_app by (by rewrite after_post_success).
  apply dbDelay_default_range in Hinv, Hins, Hupd.
  apply paymentDelay_range in Hpay.
  assert (0 <= paymentDelay (paymentDraws d))%Q
    by (destruct (isSlow (paymentDraws d)); lra).
  do 3 eexists. split; [reflexivity|].
  split; [done|]. split; [reflexivity|]. split; [done|]. split.
  - repeat constructor; eexists; (split; [reflexivity|]); cbn; lra.
  - repeat constructor.
Qed.

(** C2 fails on the failure path: when the failure draw of the payment
    fires, the request runs to completion (the 500 response is sent and the
    cleanup done) while [end()] is never called on the root create_order
    span, whose end timestamp stays unset; the three child spans that were
    opened are closed. *)
Theorem post_orders_declined_root_left_open d t0 t1 w :
  (failDraw (paymentDraws d) < 1 # 20)%Q ->
  let w' := after (ReqPostOrders d t0 t1) w in
  snd (handle (ReqPostOrders d t0 t1) w) = Ok tt /\
  count_events (is_span_end (length (spans w))) (events_since w w') = 0 /\
  exists root children,
    spans_since w w' = root :: children /\
    span_name root = "create_order" /\
    span_endTime root = None /\
    Forall closed children.
Proof.
  intros Hko%paymentFails_true_iff. cbv zeta.
  split; [apply handle_completes|].
  rewrite events_since_post_declined by done.
  erewrite spans_since_app by (by rewrite after_post_declined).
  split.
  - unfold declined_events.
    rewrite !count_events_app, step_events_no_root_end. reflexivity.
  - do 2 eexists. split; [reflexivity|].
    split; [done|]. split; [done|]. apply step_spans_closed.
Qed.

Lemma post_orders_declined_root_left_open_witness :
  (failDraw (paymentDraws sample_post_declined) < 1 # 20)%Q /\
  count_events (is_span_end (length (spans initial_world)))
    (events_since initial_world
       (after (ReqPostOrders sample_post_declined 1000 1400) initial_world))
  = 0.
Proof.
  assert (H : (failDraw (paymentDraws sample_post_declined) < 1 # 20)%Q).
  { unfold Qlt. cbn. lia. }
  split; [exact H|].
  exact (proj1 (proj2
    (post_orders_declined_root_left_open sample_post_declined 1000 1400
       initial_world H))).
Defined.

(** ** The payment call *)

(** C5: every call of simulatePaymentProcessing opens one payment.process
    span at the current time and calls [end()] on it exactly once, after
    the timer of the drawn delay has fired, so that the span ends when the
    delay completes; if the failure draw is below 0.05 the span carries
    status ERROR with message "Payment declined" and the promise rejects
    with the error of that message, otherwise the status stays UNSET and
    the promise resolves. *)
Theorem simulatePaymentProcessing_closes_span orderId amount d w :
  let w' := fst (simulatePaymentProcessing orderId amount d w) in
  let r := snd (simulatePaymentProcessing orderId amount d w) in
  let n := length (spans w) in
  exists s before_timer after_timer,
    spans w' = spans w ++ [s] /\
    span_name s = "payment.process" /\
    span_startTime s = clock w /\
    span_endTime s = Some (clock w + paymentDelay d)%Q /\
    clock w' = (clock w + paymentDelay d)%Q /\
    events_since w w'
    = before_timer ++ EvTimer (paymentDelay d) :: after_timer ++ [EvSpanEnd n] /\
    count_events (is_span_end n) (events_since w w') = 1 /\
    ((failDraw d < 1 # 20)%Q ->
       span_status s = mkStatus ERROR "Payment declined" /\
       after_timer = [EvSpanStatus n (mkStatus ERROR "Payment declined")] /\
       r = Throw (mkError "Payment declined")) /\
    (~ (failDraw d < 1 # 20)%Q ->
       span_status s = mkStatus UNSET "" /\
       after_timer = [] /\
       r = Ok tt).
Proof.
  cbv zeta. destruct w as [db sp a c h].
  rewrite simulatePaymentProcessing_run. cbn [fst snd spans clock].
  erewrite events_since_app by reflexivity.
  exists (payment_span orderId amount d a c).
  exists (EvSpanStart (length sp) "payment.process"
          :: if isSlow d then
               [EvLog LWarn
                  [("orderId", AttrStr orderId);
                   ("delay", AttrInt (Math_round (paymentDelay d)))]
                  "Paiement lent pour commande"]
             else []).
  exists (if paymentFails d
          then [EvSpanStatus (length sp) (mkStatus ERROR "Payment declined")]
          else []).
  split; [done|]. split; [done|]. split; [done|]. split; [done|].
  split; [done|]. split; [|split; [|split]].
  - unfold payment_events. by destruct (isSlow d).
  - unfold payment_events, count_events.
    destruct (isSlow d), (paymentFails d);
      cbn [app List.filter is_span_end]; rewrite Nat.eqb_refl; reflexivity.
  - intros Hko%paymentFails_true_iff. unfold payment_span.
    rewrite Hko. done.
  - intros Hok%paymentFails_false_iff. unfold payment_span.
    rewrite Hok. done.
Qed.

(** ** Reading the order store *)

Lemma after_get_order k u w :
  after (ReqGetOrder k u) w =
  mkWorld (ordersDb w)
    (spans w
     ++ [mkSpan "get_order" (activeSpan w) [("order.id", AttrStr k)]
           (mkStatus UNSET "") (clock w)
           (Some (clock w + dbDelay defaultDurationRange u)%Q);
         db_span "select_order" (Some (length (spans w))) (clock w)
           (dbDelay defaultDurationRange u)])
    (activeSpan w) (clock w + dbDelay defaultDurationRange u)%Q
    (history w
     ++ EvSpanStart (length (spans w)) "get_order"
        :: db_events "select_order" (length (spans w) + 1)
             (dbDelay defaultDurationRange u)
        ++ [EvSpanEnd (length (spans w));
            get_order_response (property_read (ordersDb w) k)]).
Proof.
  destruct w as [db sp a c h]. unfold after, handle.
  by rewrite get_order_run.
Qed.

Lemma after_get_orders u w :
  after (ReqGetOrders u) w =
  mkWorld (ordersDb w)
    (spans w
     ++ [mkSpan "list_orders" (activeSpan w) [] (mkStatus UNSET "") (clock w)
           (Some (clock w + dbDelay defaultDurationRange u)%Q);
         db_span "select_all_orders" (Some (length (spans w))) (clock w)
           (dbDelay defaultDurationRange u)])
    (activeSpan w) (clock w + dbDelay defaultDurationRange u)%Q
    (history w
     ++ EvSpanStart (length (spans w)) "list_orders"
        :: db_events "select_all_orders" (length (spans w) + 1)
             (dbDelay defaultDurationRange u)
        ++ [EvSpanEnd (length (spans w));
            EvRespond 200 (JOrders (Object_values (ordersDb w)))]).
Proof.
  destruct w as [db sp a c h]. unfold after, handle.
  by rewrite get_orders_run.
Qed.

Lemma after_get_health w :
  after ReqHealth w =
  mkWorld (ordersDb w) (spans w) (activeSpan w) (clock w)
    (history w ++ [EvRespond 200 JHealth]).
Proof. by destruct w. Qed.

Lemma get_order_responds k u w :
  List.filter is_respond (events_since w (after (ReqGetOrder k u) w))
  = [get_order_response (property_read (ordersDb w) k)].
Proof.
  erewrite events_since_app by (by rewrite after_get_order).
  unfold get_order_response, db_events.
  by destruct (truthy (property_read (ordersDb w) k)).
Qed.

(** An identifier that is neither in the store nor a property name of
    [Object.prototype] gets the 404 response, and the store is unchanged. *)
Lemma get_order_not_found k u w :
  ordersDb w !! k = None ->
  k ∉ Object_prototype ->
  List.filter is_respond (events_since w (after (ReqGetOrder k u) w))
  = [EvRespond 404 (JError "Order not found")] /\
  ordersDb (after (ReqGetOrder k u) w) = ordersDb w.
Proof.
  intros Hk Hproto. rewrite get_order_responds. split.
  - unfold property_read. rewrite Hk, bool_decide_eq_false_2 by done. done.
  - by rewrite after_get_order.
Qed.

(** An identifier of the store gets its order back. *)
Lemma get_order_found k o u w :
  ordersDb w !! k = Some o ->
  List.filter is_respond (events_since w (after (ReqGetOrder k u) w))
  = [EvRespond 200 (JValue (JsOrder o))] /\
  ordersDb (after (ReqGetOrder k u) w) = ordersDb w.
Proof.
  intros Hk. rewrite get_order_responds. split.
  - unfold property_read. by rewrite Hk.
  - by rewrite after_get_order.
Qed.

Lemma elem_of_Object_values (db : gmap string Order) (o : Order) :
  o ∈ Object_values db <-> exists k, db !! k = Some o.
Proof.
  unfold Object_values. rewrite list_elem_of_fmap. split.
  - intros ([k o'] & -> & Hin). exists k. by apply elem_of_map_to_list.
  - intros (k & Hk). exists (k, o). split; [done|].
    by apply elem_of_map_to_list.
Qed.

(** [GET /orders] answers with every order of the store, and only those,
    and leaves the store unchanged. *)
Lemma get_orders_returns_store u w :
  exists l,
    List.filter is_respond (events_since w (after (ReqGetOrders u) w))
    = [EvRespond 200 (JOrders l)] /\
    length l = size (ordersDb w) /\
    (forall o, o ∈ l <-> exists k, ordersDb w !! k = Some o) /\
    ordersDb (after (ReqGetOrders u) w) = ordersDb w.
Proof.
  exists (Object_values (ordersDb w)).
  erewrite events_since_app by (by rewrite after_get_orders).
  split; [done|]. split.
  - unfold Object_values. by rewrite length_fmap, length_map_to_list.
  - split; [apply elem_of_Object_values|]. by rewrite after_get_orders.
Qed.

(** C8 fails for the property names of [Object.prototype]: such an
    identifier, absent from the order store, is answered with status 200 and
    the inherited value instead of the 404 response (the store is
    unchanged). *)
Theorem get_order_inherited_name_found k u w :
  k ∈ Object_prototype ->
  ordersDb w !! k = None ->
  List.filter is_respond (events_since w (after (ReqGetOrder k u) w))
  = [EvRespond 200 (JValue (JsInherited k))] /\
  ordersDb (after (ReqGetOrder k u) w) = ordersDb w.
Proof.
  intros Hproto Hk. rewrite get_order_responds. split.
  - unfold property_read. rewrite Hk, bool_decide_eq_true_2 by done. done.
  - by rewrite after_get_order.
Qed.

Lemma get_order_inherited_name_found_witness :
  ordersDb initial_world !! "constructor" = None /\
  List.filter is_respond
    (events_since initial_world
       (after (ReqGetOrder "constructor" (1 # 2)) initial_world))
  = [EvRespond 200 (JValue (JsInherited "constructor"))].
Proof.
  assert (Hin : "constructor" ∈ Object_prototype).
  { unfold Object_prototype. constructor. }
  assert (Hk : ordersDb initial_world !! "constructor" = None)
    by reflexivity.
  split; [exact Hk|].
  exact (proj1
    (get_order_inherited_name_found "constructor" (1 # 2) initial_world
       Hin Hk)).
Defined.

(** ** Lifetime of a stored order *)

Lemma after_store r w :
  ordersDb (after r w) =
  match r with
  | ReqPostOrders d _ _ =>
      if paymentFails (paymentDraws d) then ordersDb w
      else <[genOrderId (idDraw d) := new_order d]> (ordersDb w)
  | _ => ordersDb w
  end.
Proof.
  destruct r as [|d t0 t1|u|k u].
  - by rewrite after_get_health.
  - destruct (paymentFails (paymentDraws d)) eqn:Hp.
    + by rewrite after_post_declined.
    + by rewrite after_post_success.
  - by rewrite after_get_orders.
  - by rewrite after_get_order.
Qed.

Lemma after_keeps_other_keys r w k :
  ~ generates k r -> ordersDb (after r w) !! k = ordersDb w !! k.
Proof.
  intros Hgen. rewrite after_store.
  destruct r as [|d t0 t1|u|k' u]; try done.
  destruct (paymentFails (paymentDraws d)); [done|].
  by apply lookup_insert_ne.
Qed.

Lemma after_never_deletes r w k :
  is_Some (ordersDb w !! k) -> is_Some (ordersDb (after r w) !! k).
Proof.
  intros Hk. rewrite after_store.
  destruct r as [|d t0 t1|u|k' u]; try done.
  destruct (paymentFails (paymentDraws d)); [done|].
  rewrite lookup_insert_is_Some. destruct (decide (genOrderId (idDraw d) = k)); auto.
Qed.

Lemma after_all_keeps_other_keys rs : forall w k,
  Forall (fun r => ~ generates k r) rs ->
  ordersDb (after_all rs w) !! k = ordersDb w !! k.
Proof.
  induction rs as [|r rs IH]; intros w k Hrs; [done|].
  inversion Hrs as [|? ? Hr Hrs']; subst. cbn.
  fold (after_all rs (after r w)).
  rewrite IH by done. by apply after_keeps_other_keys.
Qed.

Lemma after_all_never_deletes rs : forall w k,
  is_Some (ordersDb w !! k) -> is_Some (ordersDb (after_all rs w) !! k).
Proof.
  induction rs as [|r rs IH]; intros w k Hk; [done|]. cbn.
  fold (after_all rs (after r w)).
  by apply IH, after_never_deletes.
Qed.

Lemma step_events_span_ends d n i :
  i = 1 \/ i = 2 \/ i = 3 -> EvSpanEnd (n + i) ∈ step_events d n.
Proof.
  unfold step_events, payment_events, db_events.
  intros [->|[->| ->]];
    destruct (isSlow (paymentDraws d)), (paymentFails (paymentDraws d));
    cbn [app]; set_solver.
Qed.

(** C9, as stated, fails: a later POST /orders request whose identifier
    draw yields the identifier of a stored order replaces that order (here
    the amount changes). *)
Lemma later_post_overwrites_stored_order :
  ~ store_preserved
      (ordersDb (after (ReqPostOrders sample_post_ok 1000 1400) initial_world))
      (ordersDb
         (after_all [ReqPostOrders sample_post_ok 1000 1400;
                     ReqPostOrders sample_post_same_id 2000 2400]
            initial_world)).
Proof.
  intros H.
  assert (E1 : ordersDb
                 (after (ReqPostOrders sample_post_ok 1000 1400) initial_world)
               !! "55000" = Some (new_order sample_post_ok))
    by (vm_compute; reflexivity).
  assert (E2 : ordersDb
                 (after_all [ReqPostOrders sample_post_ok 1000 1400;
                             ReqPostOrders sample_post_same_id 2000 2400]
                    initial_world)
               !! "55000" = Some (new_order sample_post_same_id))
    by (vm_compute; reflexivity).
  specialize (H _ _ E1). rewrite E2 in H.
  assert (Hne : amount (new_order sample_post_same_id)
                <> amount (new_order sample_post_ok))
    by (vm_compute; discriminate).
  apply Hne. congruence.
Qed.

(** C9, amended: an Order is written to the store only by a POST /orders
    request whose payment went through, after the spans of all four steps
    have been closed, and a declined request writes nothing; no request
    ever removes an entry; a request leaves every entry unchanged except
    that a successful POST /orders replaces the entry under the identifier
    it generated, so an existing entry is overwritten exactly when a later
    request generates its identifier again. *)
Theorem order_store_lifecycle :
  (forall d t0 t1 w,
     let w' := after (ReqPostOrders d t0 t1) w in
     let n := length (spans w) in
     (paymentFails (paymentDraws d) = true ->
        ordersDb w' = ordersDb w /\
        count_events is_store_write (events_since w w') = 0) /\
     (paymentFails (paymentDraws d) = false ->
        ordersDb w' = <[genOrderId (idDraw d) := new_order d]> (ordersDb w) /\
        exists pre post,
          events_since w w'
          = pre ++ EvStoreWrite (genOrderId (idDraw d)) (new_order d) :: post /\
          (forall i, 1 <= i <= 4 -> EvSpanEnd (n + i) ∈ pre) /\
          count_events is_store_write pre = 0 /\
          count_events is_store_write post = 0)) /\
  (forall rs w k,
     is_Some (ordersDb w !! k) -> is_Some (ordersDb (after_all rs w) !! k)) /\
  (forall rs w k,
     Forall (fun r => ~ generates k r) rs ->
     ordersDb (after_all rs w) !! k = ordersDb w !! k) /\
  (forall d t0 t1 w,
     paymentFails (paymentDraws d) = false ->
     ordersDb (after (ReqPostOrders d t0 t1) w) !! genOrderId (idDraw d)
     = Some (new_order d)).
Proof.
  split; [|split; [|split]].
  - intros d t0 t1 w. cbv zeta. split; intros Hp.
    + rewrite events_since_post_declined, after_post_declined by done.
      cbn [ordersDb]. split; [done|]. unfold declined_events.
      rewrite !count_events_app, step_events_no by done. reflexivity.
    + rewrite events_since_post_success, after_post_success by done.
      cbn [ordersDb]. split; [done|].
      exists ([EvGaugeAdd 1; EvSpanStart (length (spans w)) "create_order"]
              ++ step_events d (length (spans w))
              ++ db_events "update_order_status" (length (spans w) + 4)
                   (dbDelay defaultDurationRange (updateDraw d))).
      eexists. split.
      { unfold success_events, success_tail. rewrite <- !app_assoc.
        cbn [app]. reflexivity. }
      split; [|split].
      * intros i Hi. destruct (decide (i = 4)) as [->|Hne].
        -- rewrite !elem_of_app. right. right.
           unfold db_events. rewrite !elem_of_cons. auto.
        -- rewrite !elem_of_app. right. left.
           apply step_events_span_ends. lia.
      * rewrite !count_events_app, step_events_no by done. reflexivity.
      * reflexivity.
  - intros rs w k. apply after_all_never_deletes.
  - intros rs w k. apply after_all_keeps_other_keys.
  - intros d t0 t1 w Hp. rewrite after_store, Hp. apply lookup_insert_eq.
Qed.

(** ** Order identifiers *)

Lemma orderId_number_range u :
  valid_draw u -> (10000 <= orderId_number u <= 99999)%Z.
Proof.
  intros [H0 H1]. unfold orderId_number.
  pose proof (Qfloor_le (u * 90000)) as Hle.
  pose proof (Qlt_floor (u * 90000)) as Hlt.
  assert (Hlo : (inject_Z 0 < inject_Z (Qfloor (u * 90000) + 1))%Q).
  { eapply Qle_lt_trans; [|exact Hlt]. change (inject_Z 0) with 0%Q. lra. }
  assert (Hhi : (inject_Z (Qfloor (u * 90000)) < inject_Z 90000)%Q).
  { eapply Qle_lt_trans; [exact Hle|].
    change (inject_Z 90000) with 90000%Q. lra. }
  rewrite <- Zlt_Qlt in Hlo, Hhi. lia.
Qed.

Lemma is_digit_pretty_N_char x : is_digit (pretty_N_char x) = true.
Proof. unfold pretty_N_char. by repeat case_match. Qed.

Lemma div10_bounds (x lo hi : N) :
  (10 * lo <= x < 10 * hi)%N -> (lo <= N.div x 10 < hi)%N.
Proof.
  intros [Hlo Hhi]. split.
  - by apply N.div_le_lower_bound.
  - by apply N.Div0.div_lt_upper_bound.
Qed.

Lemma pretty_N_five_digits (x : N) :
  (10000 <= x <= 99999)%N ->
  String.length (pretty x) = 5 /\ all_digits (pretty x) = true.
Proof.
  intros Hx. unfold pretty, pretty_N.
  rewrite decide_False by lia.
  rewrite (pretty_N_go_step x) by lia.
  set (x1 := N.div x 10).
  assert (H1 : (1000 <= x1 < 10000)%N) by (apply div10_bounds; lia).
  rewrite (pretty_N_go_step x1) by lia.
  set (x2 := N.div x1 10).
  assert (H2 : (100 <= x2 < 1000)%N) by (apply div10_bounds; lia).
  rewrite (pretty_N_go_step x2) by lia.
  set (x3 := N.div x2 10).
  assert (H3 : (10 <= x3 < 100)%N) by (apply div10_bounds; lia).
  rewrite (pretty_N_go_step x3) by lia.
  set (x4 := N.div x3 10).
  assert (H4 : (1 <= x4 < 10)%N) by (apply div10_bounds; lia).
  rewrite (pretty_N_go_step x4) by lia.
  rewrite (N.div_small x4 10), pretty_N_go_0 by lia.
  cbn [String.length all_digits].
  by rewrite !is_digit_pretty_N_char.
Qed.

Lemma genOrderId_five_digits u :
  valid_draw u ->
  String.length (genOrderId u) = 5 /\ all_digits (genOrderId u) = true.
Proof.
  intros Hu%orderId_number_range. unfold genOrderId.
  destruct (orderId_number u) as [|p|p] eqn:Hn; try lia.
  change (pretty (Z.pos p)) with (pretty (N.pos p)).
  apply pretty_N_five_digits. lia.
Qed.

Lemma Qfloor_cell (x : Q) (k : Z) :
  (inject_Z k <= x)%Q -> (x < inject_Z (k + 1))%Q -> Qfloor x = k.
Proof.
  intros Hlo Hhi.
  pose proof (Qfloor_le x) as Hle.
  pose proof (Qlt_floor x) as Hlt.
  assert (H1 : (inject_Z (Qfloor x) < inject_Z (k + 1))%Q)
    by (eapply Qle_lt_trans; eassumption).
  assert (H2 : (inject_Z k < inject_Z (Qfloor x + 1))%Q)
    by (eapply Qle_lt_trans; eassumption).
  rewrite <- Zlt_Qlt in H1, H2. lia.
Qed.

Lemma orderId_number_cell u n :
  (inject_Z (n - 10000) <= u * 90000)%Q ->
  (u * 90000 < inject_Z (n - 9999))%Q ->
  orderId_number u = n.
Proof.
  intros Hlo Hhi. unfold orderId_number.
  rewrite (Qfloor_cell (u * 90000) (n - 10000)); [lia|done|].
  by replace (n - 10000 + 1)%Z with (n - 9999)%Z by lia.
Qed.

Lemma orderId_number_inside u n :
  well_inside_cell n u -> orderId_number u = n.
Proof.
  intros [Hlo Hhi]. apply orderId_number_cell; lra.
Qed.

Lemma orderId_number_mono u u' :
  (u <= u')%Q -> (orderId_number u <= orderId_number u')%Z.
Proof.
  intros Hu. unfold orderId_number.
  assert (Qfloor (u * 90000) <= Qfloor (u' * 90000))%Z; [|lia].
  apply Qfloor_resp_le. lra.
Qed.

Lemma cell_centre_inside n : well_inside_cell n (cell_centre n).
Proof.
  unfold well_inside_cell, cell_centre.
  replace (n - 9999)%Z with (n - 10000 + 1)%Z by lia.
  rewrite (inject_Z_plus (n - 10000) 1).
  change (inject_Z 1) with 1%Q.
  generalize (inject_Z (n - 10000)). intros q. split; lra.
Qed.

Lemma cell_centre_valid n :
  (10000 <= n <= 99999)%Z -> valid_draw (cell_centre n).
Proof.
  intros Hn. unfold valid_draw, cell_centre.
  assert (H0 : (inject_Z 0 <= inject_Z (n - 10000))%Q)
    by (rewrite <- Zle_Qle; lia).
  assert (H1 : (inject_Z (n - 10000) <= inject_Z 89999)%Q)
    by (rewrite <- Zle_Qle; lia).
  change (inject_Z 0) with 0%Q in H0.
  change (inject_Z 89999) with 89999%Q in H1.
  revert H0 H1. generalize (inject_Z (n - 10000)). intros q H0 H1.
  split; lra.
Qed.

Lemma genOrderId_inj u u' :
  genOrderId u = genOrderId u' <-> orderId_number u = orderId_number u'.
Proof.
  unfold genOrderId. split; [|by intros ->].
  apply (inj (pretty : Z -> string)).
Qed.

(** C10: the identifier generated by POST /orders is the decimal string of
    [Math.floor(u * 90000) + 10000] for the identifier draw [u] of the
    request: an integer of [10000, 99999], five decimal digits long.  The
    integer is [n] for every draw well inside the cell of [n] and does not
    decrease with the draw; every integer of [10000, 99999] is generated,
    by the draw in the middle of its cell; two draws give the same string
    exactly when they give the same integer.  The identifier is a function
    of the request's own identifier draw alone, and a request whose steps
    succeed writes its order under it whatever the store already holds;
    two requests (even with different identifier draws) can generate the
    same identifier, the second one finding it already in the store. *)
Theorem order_identifier_five_digits_not_unique :
  (forall u,
     valid_draw u ->
     (10000 <= orderId_number u <= 99999)%Z /\
     genOrderId u = pretty (orderId_number u) /\
     String.length (genOrderId u) = 5 /\
     all_digits (genOrderId u) = true) /\
  (forall u n, well_inside_cell n u -> orderId_number u = n) /\
  (forall u u', (u <= u')%Q -> (orderId_number u <= orderId_number u')%Z) /\
  (forall n,
     (10000 <= n <= 99999)%Z ->
     valid_draw (cell_centre n) /\
     orderId_number (cell_centre n) = n /\
     genOrderId (cell_centre n) = pretty n) /\
  (forall u u',
     genOrderId u = genOrderId u' <-> orderId_number u = orderId_number u') /\
  (forall d t0 t1 w,
     ~ (failDraw (paymentDraws d) < 1 # 20)%Q ->
     List.filter is_store_write
       (events_since w (after (ReqPostOrders d t0 t1) w))
     = [EvStoreWrite (genOrderId (idDraw d)) (new_order d)] /\
     ordersDb (after (ReqPostOrders d t0 t1) w)
     = <[genOrderId (idDraw d) := new_order d]> (ordersDb w)) /\
  (exists d1 d2,
     valid_post_draws d1 /\ valid_post_draws d2 /\
     idDraw d1 <> idDraw d2 /\
     genOrderId (idDraw d1) = genOrderId (idDraw d2) /\
     let w1 := after (ReqPostOrders d1 1000 1400) initial_world in
     is_Some (ordersDb w1 !! genOrderId (idDraw d2)) /\
     ordersDb (after (ReqPostOrders d2 2000 2400) w1)
     = <[genOrderId (idDraw d2) := new_order d2]> (ordersDb w1)).
Proof.
  split; [|split; [|split; [|split; [|split; [|split]]]]].
  - intros u Hu. split; [by apply orderId_number_range|].
    split; [done|]. by apply genOrderId_five_digits.
  - apply orderId_number_inside.
  - apply orderId_number_mono.
  - intros n Hn. split; [by apply cell_centre_valid|].
    assert (Hc : orderId_number (cell_centre n) = n)
      by apply orderId_number_inside, cell_centre_inside.
    split; [done|]. unfold genOrderId. by rewrite Hc.
  - apply genOrderId_inj.
  - intros d t0 t1 w Hok%paymentFails_false_iff.
    rewrite events_since_post_success, after_post_success by done.
    split; [|done]. unfold success_events.
    rewrite !List.filter_app, !filter_step_events by done. done.
  - exists sample_post_ok, sample_post_nearby_id.
    assert (Hv : forall a b, (0 <= a)%Z -> (a < Z.pos b)%Z -> valid_draw (a # b)).
    { intros a b Ha Hb. unfold valid_draw, Qle, Qlt. cbn. lia. }
    split; [|split; [|split; [|split]]].
    + repeat split; apply Hv; lia.
    + repeat split; apply Hv; lia.
    + discriminate.
    + vm_compute. reflexivity.
    + cbv zeta.
      rewrite (after_store (ReqPostOrders sample_post_nearby_id 2000 2400)).
      rewrite (after_store (ReqPostOrders sample_post_ok 1000 1400)).
      change (paymentFails (paymentDraws sample_post_ok)) with false.
      change (paymentFails (paymentDraws sample_post_nearby_id)) with false.
      cbv iota. split; [|done].
      replace (genOrderId (idDraw sample_post_nearby_id))
        with (genOrderId (idDraw sample_post_ok)) by (vm_compute; reflexivity).
      rewrite lookup_insert_eq. by eexists.
Qed.

(** ** Slowness and failure of the payment call *)

Lemma length_uniform_grid N : length (uniform_grid N) = N.
Proof. unfold uniform_grid. by rewrite length_map, length_seq. Qed.

Lemma count_below_seq a n :
  length (List.filter (fun k => Nat.ltb k a) (seq 0 n)) = Nat.min a n.
Proof.
  induction n as [|n IH]; [by rewrite Nat.min_0_r|].
  rewrite seq_S, List.filter_app, length_app, IH. cbn [List.filter Nat.add].
  destruct (Nat.ltb_spec n a); cbn [length]; lia.
Qed.

(** On the grid of [N] points a draw is below [1/den] exactly for the
    first [N/den] points. *)
Lemma grid_point_below (N k : nat) (den : positive) :
  0 < N ->
  Qlt_b (Z.of_nat k # Pos.of_nat N) (1 # den)
  = Nat.ltb (k * Pos.to_nat den) N.
Proof.
  intros HN. unfold Qlt_b, Qle_bool. cbn [Qnum Qden].
  destruct (Nat.ltb_spec (k * Pos.to_nat den) N) as [Hlt|Hge].
  - apply negb_true_iff, Z.leb_gt. lia.
  - apply negb_false_iff, Z.leb_le. lia.
Qed.

Lemma length_filter_map {A B} (f : B -> bool) (g : A -> B) (l : list A) :
  length (List.filter f (map g l))
  = length (List.filter (fun a => f (g a)) l).
Proof.
  induction l as [|a l IH]; [done|]. cbn [map List.filter].
  destruct (f (g a)); cbn [length]; by rewrite IH.
Qed.

Lemma ltb_mul_div (k N d : nat) :
  0 < d -> Nat.ltb (k * d) N = Nat.ltb k ((N + d - 1) / d).
Proof.
  intros Hd.
  pose proof (Nat.div_mod_eq (N + d - 1) d) as Hq.
  pose proof (Nat.mod_upper_bound (N + d - 1) d) as Hr.
  revert Hq Hr.
  generalize ((N + d - 1) / d) ((N + d - 1) mod d). intros c r Hq Hr.
  specialize (Hr ltac:(lia)).
  destruct (Nat.ltb_spec (k * d) N), (Nat.ltb_spec k c); try done; nia.
Qed.

(** Of the [N] values of a draw, the first [ceil (N / den)] lie below
    [1 / den]. *)
Lemma points_below_eq (den : positive) (N : nat) :
  0 < N ->
  points_below den N = (N + Pos.to_nat den - 1) / Pos.to_nat den.
Proof.
  intros HN. unfold points_below, uniform_grid. rewrite length_filter_map.
  pose proof (Pos2Nat.is_pos den) as Hd.
  rewrite (List.filter_ext _
             (fun k => Nat.ltb k ((N + Pos.to_nat den - 1) / Pos.to_nat den))).
  - rewrite count_below_seq. apply Nat.min_l.
    pose proof (Nat.div_mod_eq (N + Pos.to_nat den - 1) (Pos.to_nat den)) as Hq.
    revert Hq.
    generalize ((N + Pos.to_nat den - 1) / Pos.to_nat den)
               ((N + Pos.to_nat den - 1) mod Pos.to_nat den).
    intros c r Hq. nia.
  - intros k. rewrite grid_point_below by done. by apply ltb_mul_div.
Qed.

Lemma points_below_bounds (den : positive) (N : nat) :
  0 < N ->
  N <= Pos.to_nat den * points_below den N < N + Pos.to_nat den.
Proof.
  intros HN. rewrite points_below_eq by done.
  pose proof (Pos2Nat.is_pos den) as Hd.
  pose proof (Nat.div_mod_eq (N + Pos.to_nat den - 1) (Pos.to_nat den)) as Hq.
  pose proof (Nat.mod_upper_bound (N + Pos.to_nat den - 1) (Pos.to_nat den))
    as Hr.
  revert Hq Hr.
  generalize ((N + Pos.to_nat den - 1) / Pos.to_nat den)
             ((N + Pos.to_nat den - 1) mod Pos.to_nat den).
  intros c r Hq Hr. specialize (Hr ltac:(lia)). lia.
Qed.

Lemma count_draw_row (A B : Q -> bool) (s dl : Q) (F : list Q) :
  length (List.filter (fun d => A (slowDraw d) && B (failDraw d))
            (map (fun f => mkPaymentDraws s dl f) F))
  = if A s then length (List.filter B F) else 0.
Proof.
  induction F as [|f F IH]; [by destruct (A s)|].
  cbn [map List.filter slowDraw failDraw].
  destruct (A s), (B f); cbn [andb length] in *; by rewrite ?IH.
Qed.

Lemma count_draw_product (A B : Q -> bool) (S D F : list Q) :
  length (List.filter (fun d => A (slowDraw d) && B (failDraw d))
            (draw_product S D F))
  = length (List.filter A S) * (length D * length (List.filter B F)).
Proof.
  unfold draw_product.
  induction S as [|s S IHS]; [done|].
  cbn [flat_map]. rewrite List.filter_app, length_app, IHS.
  cbn [List.filter].
  assert (Hs : length (List.filter
                 (fun d => A (slowDraw d) && B (failDraw d))
                 (flat_map (fun dl => map (fun f => mkPaymentDraws s dl f) F) D))
               = if A s then length D * length (List.filter B F) else 0).
  { clear IHS. induction D as [|dl D IHD]; [by destruct (A s)|].
    cbn [flat_map]. rewrite List.filter_app, length_app, IHD, count_draw_row.
    destruct (A s); cbn [length]; lia. }
  rewrite Hs. destruct (A s); cbn [length]; lia.
Qed.

Lemma filter_all {A} (l : list A) : List.filter (fun _ => true) l = l.
Proof. induction l as [|a l IH]; [done|]. cbn. by rewrite IH. Qed.

Lemma length_draw_space N : length (draw_space N) = N * (N * N).
Proof.
  unfold draw_space.
  pose proof (count_draw_product (fun _ => true) (fun _ => true)
                (uniform_grid N) (uniform_grid N) (uniform_grid N)) as H.
  cbn [andb] in H. by rewrite !filter_all, !length_uniform_grid in H.
Qed.

Lemma favourable_slow N :
  favourable isSlow N = points_below 10 N * (N * N).
Proof.
  unfold favourable, draw_space, points_below.
  rewrite (List.filter_ext _
             (fun d => Qlt_b (slowDraw d) (1 # 10) && true)).
  - rewrite (count_draw_product (fun u => Qlt_b u (1 # 10)) (fun _ => true)).
    by rewrite filter_all, !length_uniform_grid.
  - intros d. unfold isSlow. by rewrite andb_true_r.
Qed.

Lemma favourable_fail N :
  favourable paymentFails N = N * (N * points_below 20 N).
Proof.
  unfold favourable, draw_space, points_below.
  rewrite (List.filter_ext _
             (fun d => true && Qlt_b (failDraw d) (1 # 20))).
  - rewrite (count_draw_product (fun _ => true) (fun u => Qlt_b u (1 # 20))).
    by rewrite filter_all, !length_uniform_grid.
  - done.
Qed.

Lemma favourable_slow_and_fail N :
  favourable (fun d => isSlow d && paymentFails d) N
  = points_below 10 N * (N * points_below 20 N).
Proof.
  unfold favourable, draw_space, points_below.
  rewrite (count_draw_product (fun u => Qlt_b u (1 # 10))
             (fun u => Qlt_b u (1 # 20))).
  by rewrite length_uniform_grid.
Qed.

Lemma favourable_slow_not_fail N :
  favourable (fun d => isSlow d && negb (paymentFails d)) N
  = points_below 10 N * (N * (N - points_below 20 N)).
Proof.
  unfold favourable, draw_space, points_below.
  rewrite (count_draw_product (fun u => Qlt_b u (1 # 10))
             (fun u => negb (Qlt_b u (1 # 20)))).
  rewrite length_uniform_grid. do 2 f_equal.
  pose proof (List.filter_length (fun u => Qlt_b u (1 # 20)) (uniform_grid N))
    as H.
  rewrite length_uniform_grid in H. lia.
Qed.

Lemma pow2_not_multiple_of_5 (p c : nat) : 5 * c <> 2 ^ p.
Proof.
  revert c. induction p as [|p IH]; intros c.
  - cbn. lia.
  - rewrite Nat.pow_succ_r'. specialize (IH (c / 2)).
    pose proof (Nat.div_mod_eq c 2) as Hq.
    pose proof (Nat.mod_upper_bound c 2) as Hr.
    revert IH Hq Hr. generalize (2 ^ p) (c / 2) (c mod 2).
    intros x q r IH Hq Hr. specialize (Hr ltac:(lia)). lia.
Qed.

(** A generator with [2^p] equally likely values makes no exact tenth of
    them slow. *)
Lemma slow_share_on_binary_grid (p : nat) :
  10 * favourable isSlow (2 ^ p) <> length (draw_space (2 ^ p)).
Proof.
  rewrite favourable_slow, length_draw_space.
  pose proof (pow2_not_multiple_of_5 p (2 * points_below 10 (2 ^ p))) as H5.
  assert (Hpos : 0 < 2 ^ p).
  { clear. induction p as [|p IH]; [cbn; lia|].
    rewrite Nat.pow_succ_r'. revert IH. generalize (2 ^ p). lia. }
  set (N := 2 ^ p) in *. set (c := points_below 10 N) in *.
  clearbody c. clearbody N. intros Heq. apply H5.
  assert (Hc : 10 * c * (N * N) = N * (N * N)) by lia.
  apply Nat.mul_cancel_r in Hc; nia.
Qed.

Lemma paymentDelay_increasing d d' :
  isSlow d = isSlow d' ->
  (delayDraw d < delayDraw d')%Q -> (paymentDelay d < paymentDelay d')%Q.
Proof.
  intros Hs Hd. unfold paymentDelay. rewrite <- Hs. destruct (isSlow d); lra.
Qed.

Lemma paymentDelay_reaches_slow s f x :
  (s < 1 # 10)%Q -> (1000 <= x)%Q -> (x < 3000)%Q ->
  exists u, valid_draw u /\ (paymentDelay (mkPaymentDraws s u f) == x)%Q.
Proof.
  intros Hs%Qlt_b_true_iff Hlo Hhi. exists ((x - 1000) * (1 # 2000))%Q.
  split; [split; lra|].
  unfold paymentDelay, isSlow. cbn [slowDraw delayDraw]. rewrite Hs. ring.
Qed.

Lemma paymentDelay_reaches_normal s f x :
  ~ (s < 1 # 10)%Q -> (50 <= x)%Q -> (x < 200)%Q ->
  exists u, valid_draw u /\ (paymentDelay (mkPaymentDraws s u f) == x)%Q.
Proof.
  intros Hs%Qlt_b_false_iff Hlo Hhi. exists ((x - 50) * (1 # 150))%Q.
  split; [split; lra|].
  unfold paymentDelay, isSlow. cbn [slowDraw delayDraw]. rewrite Hs. ring.
Qed.



(** ** Every request as one step on the world *)

Lemma after_request r w :
  after r w =
  mkWorld (request_store r (ordersDb w)) (spans w ++ request_spans r w)
    (activeSpan w) (request_clock r (clock w))
    (history w ++ request_events r w).
Proof.
  destruct r as [|d t0 t1|u|k u]; cbn [request_store request_spans
    request_clock request_events].
  - rewrite after_get_health. by rewrite app_nil_r.
  - destruct (paymentFails (paymentDraws d)) eqn:Hp.
    + by rewrite after_post_declined.
    + by rewrite after_post_success.
  - by rewrite after_get_orders.
  - by rewrite after_get_order.
Qed.

Lemma events_since_after r w :
  events_since w (after r w) = request_events r w.
Proof. apply events_since_app. by rewrite after_request. Qed.

Lemma spans_since_after r w :
  spans_since w (after r w) = request_spans r w.
Proof. apply spans_since_app. by rewrite after_request. Qed.

Lemma after_all_cons r rs w : after_all (r :: rs) w = after_all rs (after r w).
Proof. reflexivity. Qed.

Lemma is_respond_get_order_response v : is_respond (get_order_response v) = true.
Proof. unfold get_order_response. by destruct (truthy v). Qed.

Lemma filter_query_events p name queryType u n response :
  (forall i s, p (EvSpanStart i s) = false) ->
  (forall i, p (EvSpanEnd i) = false) ->
  (forall q, p (EvTimer q) = false) ->
  List.filter p (query_events name queryType u n response)
  = List.filter p [response].
Proof.
  intros H1 H2 H3. unfold query_events, db_events.
  cbn [app List.filter]. by rewrite !H1, !H2, !H3.
Qed.

Lemma filter_post_events p d t0 t1 n :
  (forall i name, p (EvSpanStart i name) = false) ->
  (forall i st, p (EvSpanStatus i st) = false) ->
  (forall i, p (EvSpanEnd i) = false) ->
  (forall q, p (EvTimer q) = false) ->
  (forall l f m, p (EvLog l f m) = false) ->
  List.filter p
    (if paymentFails (paymentDraws d)
     then declined_events d t0 t1 n else success_events d t0 t1 n)
  = List.filter p
      (EvGaugeAdd 1
       :: if paymentFails (paymentDraws d)
          then [EvCounterAdd 1 "error";
                EvRespond 500 (JError "Payment declined");
                EvGaugeAdd (-1); EvHistRecord (elapsed_seconds t0 t1)]
          else [EvStoreWrite (genOrderId (idDraw d)) (new_order d);
                EvCounterAdd 1 "success";
                EvRespond 201 (JValue (JsOrder (new_order d)));
                EvGaugeAdd (-1); EvHistRecord (elapsed_seconds t0 t1)]).
Proof.
  intros H1 H2 H3 H4 H5.
  destruct (paymentFails (paymentDraws d)).
  - unfold declined_events.
    rewrite !List.filter_app, filter_step_events by done.
    cbn [app List.filter]. rewrite !H1, !H5.
    by destruct (p (EvGaugeAdd 1)).
  - unfold success_events, success_tail, db_events.
    rewrite !List.filter_app, filter_step_events by done.
    cbn [app List.filter]. rewrite !H1, !H3, !H4, !H5.
    repeat match goal with
           | |- context [if p ?e then _ else _] => destruct (p e)
           end; reflexivity.
Qed.

(** ** Responses *)

(** X1: every request runs to completion without an exception reaching
    the routing layer and sends exactly one response; its status is 200 for
    /health and GET /orders, 201 or 500 for POST /orders according to the
    payment, and 200 or 404 for GET /orders/:orderId according to the
    truthiness of the property read. *)
Theorem every_request_responds_once r w :
  snd (handle r w) = Ok tt /\
  exists http_status body,
    List.filter is_respond (events_since w (after r w))
    = [EvRespond http_status body] /\
    http_status =
    match r with
    | ReqHealth => 200%Z
    | ReqPostOrders d _ _ =>
        if paymentFails (paymentDraws d) then 500%Z else 201%Z
    | ReqGetOrders _ => 200%Z
    | ReqGetOrder k _ =>
        if truthy (property_read (ordersDb w) k) then 200%Z else 404%Z
    end.
Proof.
  split; [apply handle_completes|].
  rewrite events_since_after.
  destruct r as [|d t0 t1|u|k u]; cbn [request_events].
  - by eexists _, _.
  - rewrite filter_post_events by done.
    destruct (paymentFails (paymentDraws d)); by eexists _, _.
  - rewrite filter_query_events by done. by eexists _, _.
  - rewrite filter_query_events by done. unfold get_order_response.
    destruct (truthy (property_read (ordersDb w) k)); by eexists _, _.
Qed.

(** ** Metric instruments over requests and sequences of requests *)

Lemma request_events_gauge r w : gauge_value (request_events r w) = 0%Z.
Proof.
  destruct r as [|d t0 t1|u|k u]; cbn [request_events]; try done.
  - destruct (paymentFails (paymentDraws d)).
    + rewrite declined_events_shape.
      change (EvGaugeAdd 1 :: ?l) with ([EvGaugeAdd 1] ++ l).
      change (EvSpanStart ?i ?s :: ?l) with ([EvSpanStart i s] ++ l).
      by rewrite !gauge_value_app, step_events_gauge.
    + rewrite success_events_shape.
      change (EvGaugeAdd 1 :: ?l) with ([EvGaugeAdd 1] ++ l).
      change (EvSpanStart ?i ?s :: ?l) with ([EvSpanStart i s] ++ l).
      by rewrite !gauge_value_app, step_events_gauge.
  - unfold query_events, get_order_response.
    by destruct (truthy (property_read (ordersDb w) k)).
Qed.

Lemma request_events_counter st r w :
  counter_value st (request_events r w)
  = if is_confirmed r && String.eqb st "success" then 1%Z
    else if is_declined r && String.eqb st "error" then 1%Z
    else 0%Z.
Proof.
  destruct r as [|d t0 t1|u|k u]; cbn [request_events is_confirmed is_declined];
    try done.
  - destruct (paymentFails (paymentDraws d)); cbn [negb andb].
    + unfold declined_events.
      rewrite !counter_value_app, step_events_counter. cbn.
      destruct (String.eqb st "error"); lia.
    + unfold success_events.
      rewrite !counter_value_app, step_events_counter. cbn.
      destruct (String.eqb st "success"); lia.
  - unfold query_events, get_order_response.
    by destruct (truthy (property_read (ordersDb w) k)).
Qed.

Lemma request_events_histogram r w :
  histogram_values (request_events r w)
  = match r with
    | ReqPostOrders _ t0 t1 => [elapsed_seconds t0 t1]
    | _ => []
    end.
Proof.
  destruct r as [|d t0 t1|u|k u]; cbn [request_events]; try done.
  - destruct (paymentFails (paymentDraws d)).
    + unfold declined_events.
      by rewrite !histogram_values_app, step_events_histogram.
    + unfold success_events.
      by rewrite !histogram_values_app, step_events_histogram.
  - unfold query_events, get_order_response.
    by destruct (truthy (property_read (ordersDb w) k)).
Qed.

(** X2: a POST /orders request makes exactly four calls on the metric
    instruments (two on the gauge, one on the counter, one on the
    histogram), on either path; /health and the two GET handlers make
    none. *)
Theorem metric_calls_per_request r w :
  let evs := events_since w (after r w) in
  count_events is_metric evs = (if is_post r then 4 else 0) /\
  count_events is_gauge_add evs = (if is_post r then 2 else 0) /\
  count_events is_counter_add evs = (if is_post r then 1 else 0) /\
  count_events is_hist_record evs = (if is_post r then 1 else 0).
Proof.
  cbv zeta. rewrite events_since_after. unfold count_events.
  destruct r as [|d t0 t1|u|k u]; cbn [request_events is_post].
  - done.
  - rewrite !filter_post_events by done.
    by destruct (paymentFails (paymentDraws d)).
  - by rewrite !filter_query_events by done.
  - rewrite !filter_query_events by done. unfold get_order_response.
    by destruct (truthy (property_read (ordersDb w) k)).
Qed.

(** X3: after any sequence of requests, each run to completion before the
    next starts, the in-flight gauge has the value it had before the
    sequence. *)
Theorem gauge_returns_after_requests rs : forall w,
  gauge_value (history (after_all rs w)) = gauge_value (history w).
Proof.
  induction rs as [|r rs IH]; intros w; [done|].
  rewrite after_all_cons, IH, after_request. cbn [history].
  rewrite gauge_value_app, request_events_gauge. lia.
Qed.

(** X4: over any sequence of requests the orders-created counter grows
    under status=success by the number of POST /orders requests whose
    payment went through, under status=error by the number of those whose
    payment was declined, and under no other label; the histogram receives
    one observation per POST /orders request. *)
Theorem counters_count_post_requests rs : forall w,
  counter_value "success" (history (after_all rs w))
  = (counter_value "success" (history w)
     + Z.of_nat (count_requests is_confirmed rs))%Z /\
  counter_value "error" (history (after_all rs w))
  = (counter_value "error" (history w)
     + Z.of_nat (count_requests is_declined rs))%Z /\
  (forall st, st <> "success" -> st <> "error" ->
     counter_value st (history (after_all rs w))
     = counter_value st (history w)) /\
  length (histogram_values (history (after_all rs w)))
  = length (histogram_values (history w)) + count_requests is_post rs.
Proof.
  induction rs as [|r rs IH]; intros w.
  - cbn. repeat split; lia.
  - rewrite after_all_cons.
    destruct (IH (after r w)) as (Hs & He & Ho & Hh).
    unfold count_requests in *. cbn [List.filter].
    split; [|split; [|split]].
    + rewrite Hs, after_request. cbn [history].
      rewrite counter_value_app, request_events_counter.
      rewrite String.eqb_refl, andb_true_r.
      change (String.eqb "success" "error") with false.
      rewrite andb_false_r.
      destruct (is_confirmed r); cbn [length]; lia.
    + rewrite He, after_request. cbn [history].
      rewrite counter_value_app, request_events_counter.
      rewrite String.eqb_refl, andb_true_r.
      change (String.eqb "error" "success") with false.
      rewrite andb_false_r.
      destruct (is_declined r); cbn [length]; lia.
    + intros st Hns Hne. rewrite Ho, after_request by done. cbn [history].
      rewrite counter_value_app, request_events_counter.
      apply String.eqb_neq in Hns, Hne. rewrite Hns, Hne, !andb_false_r. lia.
    + rewrite Hh, after_request. cbn [history].
      rewrite histogram_values_app, length_app, request_events_histogram.
      destruct r; cbn [is_post length]; lia.
Qed.

(** ** The order store over sequences of requests *)

Lemma ordersDb_after r w : ordersDb (after r w) = request_store r (ordersDb w).
Proof. by rewrite after_request. Qed.

Lemma five_digits_not_inherited k : five_digits k -> k ∉ Object_prototype.
Proof.
  intros [Hlen _] Hin. unfold Object_prototype in Hin.
  repeat (apply elem_of_cons in Hin as [->|Hin]; [discriminate Hlen|]).
  by apply elem_of_nil in Hin.
Qed.

Lemma five_digits_genOrderId u : valid_draw u -> five_digits (genOrderId u).
Proof. apply genOrderId_five_digits. Qed.

Lemma valid_half : valid_draw (1 # 2).
Proof. split; [unfold Qle|unfold Qlt]; cbn; lia. Qed.

Lemma valid_sample_post_ok : valid_post_draws sample_post_ok.
Proof.
  unfold valid_post_draws, valid_payment_draws, valid_draw, Qle, Qlt.
  cbn. lia.
Qed.

Lemma sample_post_ok_goes_through :
  ~ (failDraw (paymentDraws sample_post_ok) < 1 # 20)%Q.
Proof. unfold Qlt. cbn. lia. Qed.

(** X5: every order of the store sits under the key equal to its own [id]
    field and has status "confirmed"; no request, and no sequence of
    requests, breaks this. *)
Theorem store_entries_keyed_by_id rs : forall w,
  store_wf (ordersDb w) -> store_wf (ordersDb (after_all rs w)).
Proof.
  induction rs as [|r rs IH]; intros w Hwf; [done|].
  rewrite after_all_cons. apply IH. rewrite ordersDb_after.
  destruct r as [|d t0 t1|u|k u]; cbn [request_store]; try done.
  destruct (paymentFails (paymentDraws d)); [done|].
  intros k o. rewrite lookup_insert.
  case_decide as Hk; [|by apply Hwf].
  intros [= <-]. by subst k.
Qed.

Lemma store_entries_keyed_by_id_witness :
  store_wf (ordersDb initial_world) /\
  store_wf
    (ordersDb
       (after_all [ReqPostOrders sample_post_ok 1000 1400; ReqGetOrders (1 # 2)]
          initial_world)).
Proof.
  assert (H : store_wf (ordersDb initial_world)).
  { intros k o Hk. cbn in Hk. rewrite lookup_empty in Hk. discriminate Hk. }
  split; [exact H|].
  exact (store_entries_keyed_by_id
           [ReqPostOrders sample_post_ok 1000 1400; ReqGetOrders (1 # 2)]
           initial_world H).
Defined.

(** X6: when the store holds only five-digit keys (the empty store does)
    and the draws of the requests are values [Math.random()] can return,
    every key of the store after any sequence of requests is a string of
    five decimal digits; in particular no stored key is a property name of
    [Object.prototype]. *)
Theorem stored_keys_five_digits rs : forall w,
  Forall valid_request rs ->
  (forall k, is_Some (ordersDb w !! k) -> five_digits k) ->
  forall k, is_Some (ordersDb (after_all rs w) !! k) ->
            five_digits k /\ k ∉ Object_prototype.
Proof.
  induction rs as [|r rs IH]; intros w Hrs Hw k Hk.
  - split; [by apply Hw|]. by apply five_digits_not_inherited, Hw.
  - inversion Hrs as [|? ? Hr Hrs']; subst.
    rewrite after_all_cons in Hk. apply (IH (after r w)); [done| |done].
    intros k'. rewrite ordersDb_after.
    destruct r as [|d t0 t1|u|k0 u]; cbn [request_store]; try apply Hw.
    destruct (paymentFails (paymentDraws d)); [apply Hw|].
    rewrite lookup_insert_is_Some.
    intros [<-|[_ Hk']]; [|by apply Hw].
    apply five_digits_genOrderId. by destruct Hr.
Qed.

Lemma stored_keys_five_digits_witness :
  five_digits "55000" /\ "55000" ∉ Object_prototype.
Proof.
  assert (Hrs : Forall valid_request [ReqPostOrders sample_post_ok 1000 1400]).
  { constructor; [exact valid_sample_post_ok|constructor]. }
  assert (Hw : forall k, is_Some (ordersDb initial_world !! k) -> five_digits k).
  { intros k [o Hk]. cbn in Hk. rewrite lookup_empty in Hk. discriminate Hk. }
  assert (Hk : is_Some
                 (ordersDb (after_all [ReqPostOrders sample_post_ok 1000 1400]
                              initial_world) !! "55000")).
  { vm_compute. eexists. reflexivity. }
  exact (stored_keys_five_digits _ initial_world Hrs Hw "55000" Hk).
Defined.

(** X7: the store never shrinks, and over a sequence of requests it grows
    by at most one entry per POST /orders request whose payment went
    through. *)
Theorem store_size_bounds rs : forall w,
  size (ordersDb w) <= size (ordersDb (after_all rs w)) /\
  size (ordersDb (after_all rs w))
  <= size (ordersDb w) + count_requests is_confirmed rs.
Proof.
  induction rs as [|r rs IH]; intros w; [cbn; lia|].
  rewrite after_all_cons. destruct (IH (after r w)) as [Hlo Hhi].
  unfold count_requests in *. cbn [List.filter].
  assert (Hr : size (ordersDb w) <= size (ordersDb (after r w)) /\
               size (ordersDb (after r w))
               <= size (ordersDb w) + if is_confirmed r then 1 else 0).
  { rewrite ordersDb_after.
    destruct r as [|d t0 t1|u|k u]; cbn [request_store is_confirmed];
      try lia.
    destruct (paymentFails (paymentDraws d)); cbn [negb]; [lia|].
    rewrite map_size_insert. destruct (ordersDb w !! _); cbn; lia. }
  destruct (is_confirmed r); cbn [length]; lia.
Qed.

(** ** Reading back what was stored *)

Lemma get_order_filter_respond k u w :
  List.filter is_respond (events_since w (after (ReqGetOrder k u) w))
  = [get_order_response (property_read (ordersDb w) k)].
Proof.
  rewrite events_since_after. cbn [request_events].
  rewrite filter_query_events by done. cbn [List.filter].
  by rewrite is_respond_get_order_response.
Qed.

(** X8: after a POST /orders request whose payment went through, a
    GET /orders/:orderId for the identifier it generated answers 200 with
    the order that was stored, and GET /orders answers 200 with a list that
    contains it. *)
Theorem post_then_get_round_trip d t0 t1 u u' w :
  ~ (failDraw (paymentDraws d) < 1 # 20)%Q ->
  let w1 := after (ReqPostOrders d t0 t1) w in
  List.filter is_respond
    (events_since w1 (after (ReqGetOrder (genOrderId (idDraw d)) u) w1))
  = [EvRespond 200 (JValue (JsOrder (new_order d)))] /\
  exists l,
    List.filter is_respond (events_since w1 (after (ReqGetOrders u') w1))
    = [EvRespond 200 (JOrders l)] /\
    new_order d ∈ l.
Proof.
  intros Hok%paymentFails_false_iff. cbv zeta.
  assert (Hdb : ordersDb (after (ReqPostOrders d t0 t1) w)
                !! genOrderId (idDraw d) = Some (new_order d)).
  { rewrite ordersDb_after. cbn [request_store]. rewrite Hok.
    apply lookup_insert_eq. }
  split.
  - rewrite get_order_filter_respond. unfold property_read. by rewrite Hdb.
  - eexists. split.
    + rewrite events_since_after. cbn [request_events].
      by rewrite filter_query_events by done.
    + apply elem_of_Object_values. eauto.
Qed.

Lemma post_then_get_round_trip_witness :
  ~ (failDraw (paymentDraws sample_post_ok) < 1 # 20)%Q /\
  List.filter is_respond
    (events_since (after (ReqPostOrders sample_post_ok 1000 1400) initial_world)
       (after (ReqGetOrder (genOrderId (idDraw sample_post_ok)) (1 # 2))
          (after (ReqPostOrders sample_post_ok 1000 1400) initial_world)))
  = [EvRespond 200 (JValue (JsOrder (new_order sample_post_ok)))].
Proof.
  split; [exact sample_post_ok_goes_through|].
  exact (proj1
    (post_then_get_round_trip sample_post_ok 1000 1400 (1 # 2) (1 # 2)
       initial_world sample_post_ok_goes_through)).
Defined.

(** X9: an identifier that POST /orders can generate and that is not in
    the store is answered by GET /orders/:orderId with 404 and the body
    "Order not found", and the store is left unchanged: the identifiers in
    use never meet a property name of [Object.prototype]. *)
Theorem absent_generated_id_not_found u u' w :
  valid_draw u ->
  ordersDb w !! genOrderId u = None ->
  List.filter is_respond
    (events_since w (after (ReqGetOrder (genOrderId u) u') w))
  = [EvRespond 404 (JError "Order not found")] /\
  ordersDb (after (ReqGetOrder (genOrderId u) u') w) = ordersDb w.
Proof.
  intros Hu Hk. rewrite get_order_filter_respond, ordersDb_after.
  split; [|done]. unfold property_read. rewrite Hk.
  rewrite bool_decide_eq_false_2; [done|].
  by apply five_digits_not_inherited, five_digits_genOrderId.
Qed.

Lemma absent_generated_id_not_found_witness :
  valid_draw (1 # 2) /\
  ordersDb initial_world !! genOrderId (1 # 2) = None /\
  ordersDb (after (ReqGetOrder (genOrderId (1 # 2)) (1 # 2)) initial_world)
  = ordersDb initial_world.
Proof.
  assert (Hk : ordersDb initial_world !! genOrderId (1 # 2) = None)
    by apply lookup_empty.
  split; [exact valid_half|]. split; [exact Hk|].
  exact (proj2
    (absent_generated_id_not_found (1 # 2) (1 # 2) initial_world
       valid_half Hk)).
Defined.

(** X10: GET /orders answers 200 with a list that has one element per
    entry of the store and contains exactly the stored orders; it changes
    neither the store nor any metric instrument; when every order sits
    under its own identifier the list has no duplicates. *)
Theorem get_orders_lists_the_store u w :
  let w' := after (ReqGetOrders u) w in
  exists l,
    List.filter is_respond (events_since w w') = [EvRespond 200 (JOrders l)] /\
    length l = size (ordersDb w) /\
    (forall o, o ∈ l <-> exists k, ordersDb w !! k = Some o) /\
    (store_wf (ordersDb w) -> NoDup l) /\
    ordersDb w' = ordersDb w.
Proof.
  cbv zeta. exists (Object_values (ordersDb w)).
  rewrite events_since_after, ordersDb_after. cbn [request_events request_store].
  rewrite filter_query_events by done.
  split; [done|]. split.
  { unfold Object_values. by rewrite length_fmap, length_map_to_list. }
  split; [apply elem_of_Object_values|]. split; [|done].
  intros Hwf. unfold Object_values.
  apply NoDup_fmap_2_strong; [|apply NoDup_map_to_list].
  intros [k o] [k' o'] Hin Hin' Heq. cbn in Heq. subst o'.
  apply elem_of_map_to_list in Hin, Hin'.
  apply Hwf in Hin as [<- _], Hin' as [<- _]. done.
Qed.

(** ** The span table over requests *)

Lemma open_spans_app sp1 sp2 :
  open_spans (sp1 ++ sp2) = open_spans sp1 + open_spans sp2.
Proof. unfold open_spans. by rewrite List.filter_app, length_app. Qed.

Lemma open_spans_request r w :
  open_spans (request_spans r w) = if is_declined r then 1 else 0.
Proof.
  destruct r as [|d t0 t1|u|k u]; cbn [request_spans is_declined]; try done.
  by destruct (paymentFails (paymentDraws d)).
Qed.

(** X11: the span table and the history only grow: the spans and calls
    that were there before a sequence of requests are still there,
    unchanged and at the same place, after it, and the active-span context
    is the one the sequence started with. *)
Theorem span_table_append_only rs : forall w,
  spans w `prefix_of` spans (after_all rs w) /\
  history w `prefix_of` history (after_all rs w) /\
  activeSpan (after_all rs w) = activeSpan w.
Proof.
  induction rs as [|r rs IH]; intros w.
  { cbn. split; [reflexivity|]. split; [reflexivity|done]. }
  rewrite after_all_cons. destruct (IH (after r w)) as (Hs & Hh & Ha).
  split; [|split].
  - etrans; [|exact Hs]. rewrite after_request. by apply prefix_app_r.
  - etrans; [|exact Hh]. rewrite after_request. by apply prefix_app_r.
  - rewrite Ha. by rewrite after_request.
Qed.

(** X12: over any sequence of requests the number of spans on which
    [end()] was never called grows by exactly one per POST /orders request
    whose payment was declined (its root span); no other request leaves a
    span open. *)
Theorem open_spans_count_declined_posts rs : forall w,
  open_spans (spans (after_all rs w))
  = open_spans (spans w) + count_requests is_declined rs.
Proof.
  induction rs as [|r rs IH]; intros w; [cbn; lia|].
  rewrite after_all_cons, IH, after_request. cbn [spans].
  rewrite open_spans_app, open_spans_request.
  unfold count_requests. cbn [List.filter].
  destruct (is_declined r); cbn [length]; lia.
Qed.

(** X13: a POST /orders request whose payment goes through leaves five
    spans, in this order: create_order, db.check_inventory,
    db.insert_order, payment.process and db.update_order_status; the four
    steps are children of create_order and run strictly one after the
    other, each starting at the time the previous one ended, the first
    with the root and the root ending with the last. *)
Theorem post_success_trace_is_sequential d t0 t1 w :
  ~ (failDraw (paymentDraws d) < 1 # 20)%Q ->
  exists root s1 s2 s3 s4,
    spans_since w (after (ReqPostOrders d t0 t1) w) = [root; s1; s2; s3; s4] /\
    span_name <$> [root; s1; s2; s3; s4]
    = ["create_order"; "db.check_inventory"; "db.insert_order";
       "payment.process"; "db.update_order_status"] /\
    span_parent root = activeSpan w /\
    Forall (fun s => span_parent s = Some (length (spans w))) [s1; s2; s3; s4] /\
    span_startTime root = clock w /\
    span_startTime s1 = span_startTime root /\
    span_endTime s1 = Some (span_startTime s2) /\
    span_endTime s2 = Some (span_startTime s3) /\
    span_endTime s3 = Some (span_startTime s4) /\
    span_endTime s4 = span_endTime root /\
    span_endTime root = Some (clock (after (ReqPostOrders d t0 t1) w)).
Proof.
  intros Hok%paymentFails_false_iff.
  rewrite spans_since_after, after_request.
  cbn [request_spans request_clock clock]. rewrite Hok.
  do 5 eexists. split; [reflexivity|].
  split; [done|]. split; [done|]. split; [by repeat constructor|].
  by repeat split.
Qed.

Lemma post_success_trace_is_sequential_witness :
  ~ (failDraw (paymentDraws sample_post_ok) < 1 # 20)%Q /\
  length
    (spans_since initial_world
       (after (ReqPostOrders sample_post_ok 1000 1400) initial_world)) = 5.
Proof.
  split; [exact sample_post_ok_goes_through|].
  destruct (post_success_trace_is_sequential sample_post_ok 1000 1400
              initial_world sample_post_ok_goes_through)
    as (root & s1 & s2 & s3 & s4 & Hsp & _).
  rewrite Hsp. reflexivity.
Defined.

(** X14: a POST /orders request whose payment is declined stops at the
    payment: it opens only create_order and the first three steps, never
    issues the update_order_status query, lets exactly three timers fire,
    writes no order and sends 500 with the message of the error. *)
Theorem declined_post_stops_at_payment d t0 t1 w :
  (failDraw (paymentDraws d) < 1 # 20)%Q ->
  let w' := after (ReqPostOrders d t0 t1) w in
  span_name <$> spans_since w w'
  = ["create_order"; "db.check_inventory"; "db.insert_order";
     "payment.process"] /\
  count_events is_timer (events_since w w') = 3 /\
  count_events is_store_write (events_since w w') = 0 /\
  List.filter is_respond (events_since w w')
  = [EvRespond 500 (JError "Payment declined")] /\
  clock w'
  = (clock w + dbDelay defaultDurationRange (inventoryDraw d)
     + dbDelay defaultDurationRange (insertDraw d)
     + paymentDelay (paymentDraws d))%Q.
Proof.
  intros Hko%paymentFails_true_iff. cbv zeta.
  rewrite spans_since_after, events_since_after, after_request.
  cbn [request_spans request_events request_clock clock]. rewrite Hko.
  split; [done|]. split.
  { unfold declined_events, step_events, payment_events, db_events,
      count_events.
    rewrite Hko. by destruct (isSlow (paymentDraws d)). }
  unfold declined_events.
  rewrite !count_events_app, !List.filter_app, step_events_no,
    filter_step_events by done.
  done.
Qed.

Lemma declined_post_stops_at_payment_witness :
  (failDraw (paymentDraws sample_post_declined) < 1 # 20)%Q /\
  count_events is_timer
    (events_since initial_world
       (after (ReqPostOrders sample_post_declined 1000 1400) initial_world))
  = 3.
Proof.
  assert (H : (failDraw (paymentDraws sample_post_declined) < 1 # 20)%Q).
  { unfold Qlt. cbn. lia. }
  split; [exact H|].
  exact (proj1 (proj2
    (declined_post_stops_at_payment sample_post_declined 1000 1400
       initial_world H))).
Defined.

(** X15: the two GET handlers leave two closed spans each, the handler
    span under the context of the caller and the query span under the
    handler span, both ending when the timer of the query fires;
    /health creates no span. *)
Theorem get_requests_close_their_spans r w :
  is_post r = false ->
  Forall closed (spans_since w (after r w)) /\
  open_spans (spans_since w (after r w)) = 0 /\
  match r with
  | ReqHealth => spans_since w (after r w) = []
  | _ =>
      exists root child,
        spans_since w (after r w) = [root; child] /\
        span_parent root = activeSpan w /\
        span_parent child = Some (length (spans w)) /\
        span_endTime child = span_endTime root /\
        span_endTime root = Some (clock (after r w))
  end.
Proof.
  intros Hr. rewrite spans_since_after, after_request.
  destruct r as [|d t0 t1|u|k u]; [|discriminate Hr| |];
    cbn [request_spans request_clock clock].
  - done.
  - split; [repeat constructor; by eexists|]. split; [done|].
    by eexists _, _.
  - split; [repeat constructor; by eexists|]. split; [done|].
    by eexists _, _.
Qed.

Lemma get_requests_close_their_spans_witness :
  is_post (ReqGetOrders (1 # 2)) = false /\
  open_spans
    (spans_since initial_world (after (ReqGetOrders (1 # 2)) initial_world))
  = 0.
Proof.
  split; [reflexivity|].
  exact (proj1 (proj2
    (get_requests_close_their_spans (ReqGetOrders (1 # 2)) initial_world
       eq_refl))).
Defined.

(** ** Delays and durations *)

Lemma Math_round_bounds (x : Q) (lo hi : Z) :
  (inject_Z lo <= x)%Q -> (x < inject_Z hi)%Q ->
  (lo <= Math_round x <= hi)%Z.
Proof.
  intros Hlo Hhi. unfold Math_round.
  pose proof (Qfloor_le (x + (1 # 2))) as Hle.
  pose proof (Qlt_floor (x + (1 # 2))) as Hlt.
  assert (H1 : (inject_Z lo < inject_Z (Qfloor (x + (1 # 2)) + 1))%Q) by lra.
  assert (H2 : (inject_Z (Qfloor (x + (1 # 2))) < inject_Z (hi + 1))%Q).
  { rewrite inject_Z_plus. change (inject_Z 1) with 1%Q. lra. }
  rewrite <- Zlt_Qlt in H1, H2. lia.
Qed.

(** X16: for draws in [0, 1) and a range with [lo <= hi] the delay of a
    database query lies in [lo, hi], and strictly below [hi] when
    [lo < hi]; with the default range every query takes at least 10 ms and
    less than 50 ms. *)
Theorem dbDelay_within_range lo hi u :
  valid_draw u -> (lo <= hi)%Q ->
  (lo <= dbDelay (lo, hi) u)%Q /\
  (dbDelay (lo, hi) u <= hi)%Q /\
  ((lo < hi)%Q -> (dbDelay (lo, hi) u < hi)%Q) /\
  (10 <= dbDelay defaultDurationRange u)%Q /\
  (dbDelay defaultDurationRange u < 50)%Q.
Proof.
  intros [H0 H1] Hr. unfold dbDelay. cbn [fst snd defaultDurationRange].
  assert (Hw : (0 <= hi - lo)%Q) by lra.
  assert (Ha : (0 <= u * (hi - lo))%Q) by (by apply Qmult_le_0_compat).
  assert (Hb : (u * (hi - lo) <= 1 * (hi - lo))%Q).
  { apply Qmult_le_compat_r; [lra|done]. }
  split; [lra|]. split; [lra|]. split; [|lra].
  intros Hlt.
  assert (Hc : (u * (hi - lo) < 1 * (hi - lo))%Q).
  { apply Qmult_lt_compat_r; lra. }
  lra.
Qed.

Lemma dbDelay_within_range_witness :
  valid_draw (1 # 2) /\ (10 <= 50)%Q /\ (10 <= dbDelay (10, 50) (1 # 2))%Q.
Proof.
  assert (Hr : (10 <= 50)%Q) by (unfold Qle; cbn; lia).
  split; [exact valid_half|]. split; [exact Hr|].
  exact (proj1 (dbDelay_within_range 10 50 (1 # 2) valid_half Hr)).
Defined.

(** X17: the amount generated by POST /orders is a whole number of cents
    between 1000 and 50000, that is a two-decimal value of [10, 500]; the
    upper end 500.00 is reached, by rounding, for draws close to 1. *)
Theorem genAmount_two_decimals :
  (forall u,
     valid_draw u ->
     exists cents : Z,
       (1000 <= cents <= 50000)%Z /\
       genAmount u = (inject_Z cents / 100)%Q /\
       (10 <= genAmount u)%Q /\ (genAmount u <= 500)%Q) /\
  (exists u, valid_draw u /\ (genAmount u == 500)%Q) /\
  (genAmount 0 == 10)%Q.
Proof.
  split; [|split].
  - intros u [H0 H1].
    exists (Math_round ((u * 490 + 10) * 100)).
    assert (Hc : (1000 <= Math_round ((u * 490 + 10) * 100) <= 50000)%Z).
    { apply Math_round_bounds.
      - change (inject_Z 1000) with 1000%Q. lra.
      - change (inject_Z 50000) with 50000%Q. lra. }
    split; [done|]. split; [done|]. unfold genAmount.
    destruct Hc as [Hlo Hhi].
    rewrite Zle_Qle in Hlo, Hhi.
    change (inject_Z 1000) with 1000%Q in Hlo.
    change (inject_Z 50000) with 50000%Q in Hhi.
    set (c := inject_Z _) in *. split.
    + apply Qle_shift_div_l; lra.
    + apply Qle_shift_div_r; lra.
  - exists (99999 # 100000). split.
    + split; [unfold Qle|unfold Qlt]; cbn; lia.
    + vm_compute. reflexivity.
  - vm_compute. reflexivity.
Qed.

Lemma post_clock_success d t0 t1 w :
  paymentFails (paymentDraws d) = false ->
  clock (after (ReqPostOrders d t0 t1) w)
  = (clock w + dbDelay defaultDurationRange (inventoryDraw d)
     + dbDelay defaultDurationRange (insertDraw d)
     + paymentDelay (paymentDraws d)
     + dbDelay defaultDurationRange (updateDraw d))%Q.
Proof. intros Hp. rewrite after_request. cbn. by rewrite Hp. Qed.

Lemma post_clock_declined d t0 t1 w :
  paymentFails (paymentDraws d) = true ->
  clock (after (ReqPostOrders d t0 t1) w)
  = (clock w + dbDelay defaultDurationRange (inventoryDraw d)
     + dbDelay defaultDurationRange (insertDraw d)
     + paymentDelay (paymentDraws d))%Q.
Proof. intros Hp. rewrite after_request. cbn. by rewrite Hp. Qed.

(** X18: with draws in [0, 1), the time a POST /orders request takes on
    the clock of the tracer (the span of its root, when it is closed) is at
    least 80 ms and less than 3150 ms when the payment goes through, at
    least 70 ms and less than 3100 ms when it is declined; it stays below
    350 ms unless the payment is slow, and is at least 1020 ms when it
    is. *)
Theorem post_request_duration_bounds d t0 t1 w :
  valid_post_draws d ->
  let dt := (clock (after (ReqPostOrders d t0 t1) w) - clock w)%Q in
  (70 <= dt)%Q /\ (dt < 3150)%Q /\
  (~ (failDraw (paymentDraws d) < 1 # 20)%Q -> (80 <= dt)%Q) /\
  ((failDraw (paymentDraws d) < 1 # 20)%Q -> (dt < 3100)%Q) /\
  (~ (slowDraw (paymentDraws d) < 1 # 10)%Q -> (dt < 350)%Q) /\
  ((slowDraw (paymentDraws d) < 1 # 10)%Q -> (1020 <= dt)%Q).
Proof.
  intros (_ & _ & Hinv & Hins & (_ & Hpay & _) & Hupd). cbv zeta.
  apply dbDelay_default_range in Hinv as [Hinv Hinv'].
  apply dbDelay_default_range in Hins as [Hins Hins'].
  apply dbDelay_default_range in Hupd as [Hupd Hupd'].
  apply paymentDelay_range in Hpay.
  assert (Hslow : (slowDraw (paymentDraws d) < 1 # 10)%Q
                  \/ ~ (slowDraw (paymentDraws d) < 1 # 10)%Q).
  { destruct (isSlow (paymentDraws d)) eqn:Hs.
    - left. by apply isSlow_true_iff.
    - right. by apply Qlt_b_false_iff. }
  destruct (paymentFails (paymentDraws d)) eqn:Hp.
  - rewrite post_clock_declined by done.
    apply paymentFails_true_iff in Hp.
    destruct Hslow as [Hs|Hs].
    + rewrite (proj2 (isSlow_true_iff _) Hs) in Hpay.
      destruct Hpay as [Hpay Hpay'].
      repeat split; intros; (contradiction || lra).
    + rewrite (proj2 (Qlt_b_false_iff _ _) Hs : isSlow _ = false) in Hpay.
      destruct Hpay as [Hpay Hpay'].
      repeat split; intros; (contradiction || lra).
  - rewrite post_clock_success by done.
    apply paymentFails_false_iff in Hp.
    destruct Hslow as [Hs|Hs].
    + rewrite (proj2 (isSlow_true_iff _) Hs) in Hpay.
      destruct Hpay as [Hpay Hpay'].
      repeat split; intros; (contradiction || lra).
    + rewrite (proj2 (Qlt_b_false_iff _ _) Hs : isSlow _ = false) in Hpay.
      destruct Hpay as [Hpay Hpay'].
      repeat split; intros; (contradiction || lra).
Qed.

Lemma post_request_duration_bounds_witness :
  valid_post_draws sample_post_ok /\
  (70 <= clock (after (ReqPostOrders sample_post_ok 1000 1400) initial_world)
         - clock initial_world)%Q.
Proof.
  split; [exact valid_sample_post_ok|].
  exact (proj1
    (post_request_duration_bounds sample_post_ok 1000 1400 initial_world
       valid_sample_post_ok)).
Defined.

(** ** The two simulated calls *)

(** X19: a call of simulateDbQuery always resolves; it opens one span
    named "db." followed by the query type, as a child of the active span,
    tags it with db.system = "postgresql" and db.operation = the query
    type, calls [end()] on it exactly once when the timer of the drawn
    delay fires, adds that delay to the clock, and leaves the store, the
    active-span context and all earlier spans as they were; it touches no
    metric instrument and sends no response. *)
Theorem simulateDbQuery_behaviour queryType r u w :
  let w' := fst (simulateDbQuery queryType r u w) in
  let n := length (spans w) in
  snd (simulateDbQuery queryType r u w) = Ok tt /\
  ordersDb w' = ordersDb w /\
  activeSpan w' = activeSpan w /\
  clock w' = (clock w + dbDelay r u)%Q /\
  (exists s,
     spans w' = spans w ++ [s] /\
     span_name s = "db." +:+ queryType /\
     span_parent s = activeSpan w /\
     span_attributes s
     = [("db.system", AttrStr "postgresql");
        ("db.operation", AttrStr queryType)] /\
     code (span_status s) = UNSET /\
     span_startTime s = clock w /\
     span_endTime s = Some (clock w + dbDelay r u)%Q) /\
  events_since w w'
  = [EvSpanStart n ("db." +:+ queryType); EvTimer (dbDelay r u); EvSpanEnd n] /\
  count_events (is_span_end n) (events_since w w') = 1 /\
  count_events is_metric (events_since w w') = 0 /\
  count_events is_respond (events_since w w') = 0.
Proof.
  cbv zeta. destruct w as [db sp a c h].
  rewrite simulateDbQuery_run. cbn [fst snd ordersDb spans activeSpan clock].
  erewrite events_since_app by reflexivity.
  split; [done|]. split; [done|]. split; [done|]. split; [done|].
  split; [by eexists|]. split; [done|]. split; [|done].
  unfold db_events, count_events. cbn [List.filter is_span_end].
  by rewrite Nat.eqb_refl.
Qed.

(** X20: a call of simulatePaymentProcessing tags its span with the order
    identifier and the amount, and tags it payment.slow = true and logs one
    warning, carrying the delay rounded to the millisecond, exactly when
    the slowness draw is below 0.10; when the delay draw is in [0, 1) the
    logged delay of a slow payment lies between 1000 and 3000.  The call
    leaves the store and the active-span context unchanged. *)
Theorem slow_payment_is_marked orderId amount d w :
  let w' := fst (simulatePaymentProcessing orderId amount d w) in
  ordersDb w' = ordersDb w /\
  activeSpan w' = activeSpan w /\
  (exists s,
     spans w' = spans w ++ [s] /\
     span_parent s = activeSpan w /\
     has_attribute "payment.order_id" (AttrStr orderId) s /\
     has_attribute "payment.amount" (AttrNum amount) s /\
     (has_attribute "payment.slow" (AttrBool true) s
      <-> (slowDraw d < 1 # 10)%Q)) /\
  ((slowDraw d < 1 # 10)%Q ->
     List.filter is_warn_log (events_since w w')
     = [EvLog LWarn
          [("orderId", AttrStr orderId);
           ("delay", AttrInt (Math_round (paymentDelay d)))]
          "Paiement lent pour commande"] /\
     (valid_draw (delayDraw d) ->
        (1000 <= Math_round (paymentDelay d) <= 3000)%Z)) /\
  (~ (slowDraw d < 1 # 10)%Q ->
     List.filter is_warn_log (events_since w w') = []).
Proof.
  cbv zeta. destruct w as [db sp a c h].
  rewrite simulatePaymentProcessing_run.
  cbn [fst ordersDb spans activeSpan].
  erewrite events_since_app by reflexivity.
  split; [done|]. split; [done|]. split; [|split].
  - eexists. split; [reflexivity|]. split; [done|].
    unfold has_attribute, payment_span. cbn [span_attributes].
    split; [set_solver|]. split; [set_solver|].
    rewrite <- isSlow_true_iff. destruct (isSlow d).
    + split; [done|]. intros _. set_solver.
    + split; [|done]. intros Hin. cbn [app] in Hin.
      apply elem_of_cons in Hin as [Hin|Hin]; [discriminate Hin|].
      apply elem_of_cons in Hin as [Hin|Hin]; [discriminate Hin|].
      by apply elem_of_nil in Hin.
  - intros Hs%isSlow_true_iff. split.
    + unfold payment_events. rewrite Hs.
      by destruct (paymentFails d).
    + intros Hd. pose proof (paymentDelay_range d Hd) as Hr.
      rewrite Hs in Hr. destruct Hr as [Hlo Hhi].
      apply Math_round_bounds.
      * by change (inject_Z 1000) with 1000%Q.
      * by change (inject_Z 3000) with 3000%Q.
  - intros Hs%Qlt_b_false_iff. unfold payment_events.
    change (Qlt_b (slowDraw d) (1 # 10)) with (isSlow d) in Hs.
    rewrite Hs. by destruct (paymentFails d).
Qed.

(** ** Sections of the handlers *)

Ltac run_section :=
  cbv beta iota zeta delta
    [mbind M_bind mret M_ret resolve reject try_catch_finally emit
     ordersInProgress_add ordersCreated_add orderProcessingTime_record
     logger_log update_span setAttribute setStatus span_end startActiveSpan
     setTimeout ordersDb_get ordersDb_set ordersDb_values res_status_json
     res_json ordersDb spans activeSpan clock history
     with_context simulateDbQuery_arm simulateDbQuery_fire
     simulatePaymentProcessing_arm simulatePaymentProcessing_fire
     catch_block finally_block try_section timer_fires get_health].

Ltac tidy_section :=
  repeat first
    [ progress cbn [length app is_ended span_endTime span_name span_parent
                    span_attributes span_status span_startTime Nat.add]
    | match goal with
      | |- context [alter ?f (length ?sp) (?sp ++ ?s :: ?news)] =>
          rewrite (alter_first_new_span f sp s news)
      | |- context [alter ?f (length ?sp + ?k) (?sp ++ ?news)] =>
          rewrite (alter_app_r f sp news k)
      | |- context [(?x ++ ?y) ++ ?z] => rewrite <- (app_assoc x y z)
      | |- context [length (?x ++ ?y)] => rewrite (length_app x y)
      | |- context [length (alter ?f ?i ?l)] => rewrite (length_alter f l i)
      end ].

Lemma entry_run r db sp a c h :
  entry r (mkWorld db sp a c h) =
  (mkWorld db (sp ++ entry_spans r a (length sp) c) a c
     (h ++ entry_events r (length sp)),
   Ok (entry_outcome r (length sp))).
Proof.
  destruct r as [|d t0 t1|u|k u];
    cbn [entry entry_spans entry_events entry_outcome].
  - run_section. by rewrite app_nil_r.
  - unfold post_entry. run_section. tidy_section. reflexivity.
  - unfold get_orders_entry. run_section. tidy_section. reflexivity.
  - unfold get_order_entry. run_section. tidy_section. reflexivity.
Qed.

Lemma resume_run r p delay t db sp a c h :
  (timer_fires delay t;; resume r p) (mkWorld db sp a c h) =
  (mkWorld (resume_store r p db) (resume_spans r p t sp) a t
     (h ++ EvTimer delay :: resume_events r p (length sp) db),
   Ok (resume_outcome r p (length sp))).
Proof.
  destruct r as [|d t0 t1|u|k u], p as [root child|root child|root child
    |root child|root child|root child];
    cbn [resume resume_store resume_spans resume_events resume_outcome
         post_resume_events];
    unfold post_resume, get_orders_resume, get_order_resume;
    try (run_section; tidy_section; reflexivity).
  - (* payment armed *)
    unfold payment_span_open, payment_arm_events.
    destruct (isSlow (paymentDraws d)) eqn:Hs;
      run_section; rewrite ?Hs; run_section; tidy_section; reflexivity.
  - (* payment settles *)
    destruct (paymentFails (paymentDraws d)) eqn:Hp;
      run_section; rewrite ?Hp; run_section; tidy_section; reflexivity.
  - (* last section of POST /orders *)
    run_section. tidy_section. unfold property_read.
    rewrite lookup_insert_eq. reflexivity.
  - (* GET /orders/:orderId *)
    run_section. unfold get_order_response.
    destruct (truthy (property_read db k)); run_section; tidy_section;
      reflexivity.
Qed.

(** ** Turns of the event loop *)

Lemma step_arrive r s :
  step (Arrive r) s =
  Some (mkSystem
          (mkWorld (ordersDb (world s))
             (spans (world s)
              ++ entry_spans r (activeSpan (world s))
                   (length (spans (world s))) (clock (world s)))
             (activeSpan (world s)) (clock (world s))
             (history (world s) ++ entry_events r (length (spans (world s)))))
          (tasks s
           ++ [task_of r (clock (world s))
                 (Ok (entry_outcome r (length (spans (world s)))))])).
Proof.
  destruct s as [[db sp a c h] ts]. unfold step. cbn [world tasks].
  by rewrite entry_run.
Qed.

Lemma step_fire_inv i t s s' :
  step (Fire i t) s = Some s' ->
  exists r p delay armed,
    tasks s !! i = Some (mkTask r (Waiting p delay armed)) /\
    (armed + delay <= t)%Q /\ (clock (world s) <= t)%Q /\
    s' = mkSystem
           (mkWorld (resume_store r p (ordersDb (world s)))
              (resume_spans r p t (spans (world s)))
              (activeSpan (world s)) t
              (history (world s)
               ++ EvTimer delay
                  :: resume_events r p (length (spans (world s)))
                       (ordersDb (world s))))
           (<[i := task_of r t
                     (Ok (resume_outcome r p (length (spans (world s)))))]>
              (tasks s)).
Proof.
  destruct s as [[db sp a c h] ts]. unfold step. cbn [world tasks clock].
  destruct (ts !! i) as [[r [p delay armed|]]|] eqn:Hi; try discriminate.
  destruct (Qle_bool (armed + delay) t) eqn:H1; [|discriminate].
  destruct (Qle_bool c t) eqn:H2; [|discriminate].
  cbn [andb]. rewrite resume_run. cbv beta iota. intros [= <-].
  apply Qle_bool_iff in H1, H2. by eexists _, _, _, _.
Qed.

Lemma step_fire i t s r p delay armed :
  tasks s !! i = Some (mkTask r (Waiting p delay armed)) ->
  (armed + delay <= t)%Q -> (clock (world s) <= t)%Q ->
  step (Fire i t) s =
  Some (mkSystem
          (mkWorld (resume_store r p (ordersDb (world s)))
             (resume_spans r p t (spans (world s)))
             (activeSpan (world s)) t
             (history (world s)
              ++ EvTimer delay
                 :: resume_events r p (length (spans (world s)))
                      (ordersDb (world s))))
          (<[i := task_of r t
                    (Ok (resume_outcome r p (length (spans (world s)))))]>
             (tasks s))).
Proof.
  intros Hi H1%Qle_bool_iff H2%Qle_bool_iff.
  destruct s as [[db sp a c h] ts]. unfold step. cbn [world tasks] in *.
  by rewrite Hi, H1, H2, resume_run.
Qed.

(** ** Invariants of the event loop *)

Lemma count_insert {A} (q : A -> bool) (l : list A) (i : nat) (x y : A) :
  l !! i = Some x ->
  length (List.filter q (<[i := y]> l)) + (if q x then 1 else 0)
  = length (List.filter q l) + (if q y then 1 else 0).
Proof.
  revert i. induction l as [|a l IH]; intros [|i] Hi; try done.
  - injection Hi as ->.
    change (<[0 := y]> (x :: l)) with (y :: l). cbn [List.filter].
    destruct (q x), (q y); cbn [length]; lia.
  - specialize (IH i Hi).
    change (<[S i := y]> (a :: l)) with (a :: <[i := y]> l).
    cbn [List.filter]. destruct (q a); cbn [length]; lia.
Qed.

Lemma count_snoc {A} (q : A -> bool) (l : list A) (y : A) :
  length (List.filter q (l ++ [y]))
  = length (List.filter q l) + (if q y then 1 else 0).
Proof. rewrite List.filter_app, length_app. cbn. by destruct (q y). Qed.

Lemma is_waiting_task_of r t o :
  is_waiting (task_of r t (Ok o)) = negb (is_completed o).
Proof. by destruct o. Qed.

Lemma task_request_task_of r t res : task_request (task_of r t res) = r.
Proof. by destruct res as [[]|]. Qed.

Lemma entry_events_gauge r n :
  gauge_value (entry_events r n) = if is_post r then 1%Z else 0%Z.
Proof. by destruct r. Qed.

Lemma entry_outcome_completed r n :
  is_completed (entry_outcome r n)
  = match r with ReqHealth => true | _ => false end.
Proof. by destruct r. Qed.

Lemma resume_events_gauge r p n db :
  gauge_value (resume_events r p n db)
  = if is_post r && is_completed (resume_outcome r p n) then (-1)%Z else 0%Z.
Proof.
  destruct r as [|d t0 t1|u|k u], p;
    cbn [resume_events post_resume_events resume_outcome is_post andb
         is_completed]; try done.
  - unfold payment_arm_events. by destruct (isSlow (paymentDraws d)).
  - by destruct (paymentFails (paymentDraws d)).
  - unfold get_order_response. by destruct (truthy _).
Qed.

(** X21: under every interleaving of the sections of any number of
    requests, the value of the in-flight gauge moves with the number of
    POST /orders requests that have entered their handler and not yet left
    it: started from a state with no request in flight, the gauge exceeds
    its initial value by exactly the number of orders in progress. *)
Theorem gauge_counts_orders_in_flight ls : forall s s',
  run ls s = Some s' ->
  (gauge_value (history (world s')) - Z.of_nat (in_flight_posts (tasks s'))
   = gauge_value (history (world s)) - Z.of_nat (in_flight_posts (tasks s)))%Z.
Proof.
  induction ls as [|l ls IH]; intros s s' Hrun.
  { by injection Hrun as <-. }
  cbn [run] in Hrun. destruct (step l s) as [s1|] eqn:Hstep; [|done].
  rewrite (IH _ _ Hrun). clear IH Hrun s'.
  destruct l as [r|i t].
  - rewrite step_arrive in Hstep. injection Hstep as <-.
    cbn [world tasks history]. unfold in_flight_posts.
    rewrite gauge_value_app, entry_events_gauge, count_snoc.
    destruct r;
      cbn [entry_outcome task_of is_post task_request is_waiting task_state
           andb]; lia.
  - apply step_fire_inv in Hstep
      as (r & p & delay & armed & Hi & _ & _ & ->).
    cbn [world tasks history]. unfold in_flight_posts.
    pose proof (count_insert
      (fun tk => is_post (task_request tk) && is_waiting tk) _ _ _
      (task_of r t (Ok (resume_outcome r p (length (spans (world s))))))
      Hi) as Hc.
    change (EvTimer delay :: ?l) with ([EvTimer delay] ++ l).
    rewrite !gauge_value_app, resume_events_gauge.
    destruct (resume_outcome r p (length (spans (world s))));
      cbn [task_of task_request is_waiting task_state is_completed] in *;
      destruct (is_post r);
      cbn [andb gauge_value foldr gauge_delta] in *; lia.
Qed.

Lemma sample_schedule_runs :
  exists s', run sample_schedule sample_system = Some s'.
Proof. vm_compute. eexists. reflexivity. Qed.

Lemma gauge_counts_orders_in_flight_witness :
  exists s',
    run (firstn 5 sample_schedule) sample_system = Some s' /\
    gauge_value (history (world s')) = 2%Z.
Proof.
  assert (H : exists s', run (firstn 5 sample_schedule) sample_system = Some s'
                         /\ in_flight_posts (tasks s') = 2).
  { vm_compute. eexists. split; reflexivity. }
  destruct H as (s' & Hrun & Hn). exists s'. split; [exact Hrun|].
  pose proof (gauge_counts_orders_in_flight _ _ _ Hrun) as Hg.
  rewrite Hn in Hg. cbn in Hg. lia.
Defined.

Lemma task_ok_entry r c n : task_ok (task_of r c (Ok (entry_outcome r n))) = true.
Proof. by destruct r. Qed.

Lemma task_ok_resume r p delay armed t n :
  task_ok (mkTask r (Waiting p delay armed)) = true ->
  task_ok (task_of r t (Ok (resume_outcome r p n))) = true.
Proof.
  destruct r as [|d t0 t1|u|k u], p; try done;
    cbn [resume_outcome task_of]; try done.
  intros _. by destruct (paymentFails (paymentDraws d)) eqn:Hp; cbn; rewrite ?Hp.
Qed.

Lemma Forall_task_ok_step l s s' :
  step l s = Some s' ->
  Forall (fun tk => task_ok tk = true) (tasks s) ->
  Forall (fun tk => task_ok tk = true) (tasks s').
Proof.
  intros Hstep Hok. destruct l as [r|i t].
  - rewrite step_arrive in Hstep. injection Hstep as <-. cbn [tasks].
    apply Forall_app. split; [done|]. constructor; [|done].
    apply task_ok_entry.
  - apply step_fire_inv in Hstep
      as (r & p & delay & armed & Hi & _ & _ & ->).
    cbn [tasks]. apply Forall_insert; [done|].
    eapply task_ok_resume. by eapply (Forall_lookup_1 _ _ _ _ Hok Hi).
Qed.

(** What a section adds to the counter, the histogram and the responses,
    for a task that waits where its handler can wait. *)
Lemma resume_events_accounts r p delay armed n db :
  task_ok (mkTask r (Waiting p delay armed)) = true ->
  let evs := resume_events r p n db in
  let done := is_completed (resume_outcome r p n) in
  counter_value "success" evs
  = (if is_confirmed r && done then 1 else 0)%Z /\
  counter_value "error" evs = (if is_declined r && done then 1 else 0)%Z /\
  length (histogram_values evs) = (if is_post r && done then 1 else 0) /\
  count_events is_respond evs = (if done then 1 else 0) /\
  count_events is_store_write evs = (if is_confirmed r && done then 1 else 0).
Proof.
  destruct r as [|d t0 t1|u|k u], p; try done;
    cbn [task_ok task_request task_state resume_events post_resume_events
         resume_outcome is_confirmed is_declined is_post is_completed];
    intros Hok; cbv zeta; unfold payment_arm_events, get_order_response,
      count_events;
    try (destruct (paymentFails (paymentDraws d)); try discriminate Hok);
    try (destruct (isSlow (paymentDraws d)));
    try (destruct (truthy (property_read db k)));
    done.
Qed.

Lemma entry_events_accounts r n :
  let evs := entry_events r n in
  let done := is_completed (entry_outcome r n) in
  counter_value "success" evs = 0%Z /\
  counter_value "error" evs = 0%Z /\
  length (histogram_values evs) = 0 /\
  count_events is_respond evs = (if done then 1 else 0) /\
  count_events is_store_write evs = 0 /\
  (done = true -> is_post r = false).
Proof. by destruct r. Qed.

(** X22: under every interleaving, starting from tasks that wait where
    their handlers can wait, the instruments keep pace with the completed
    requests: the counter grows under status=success by the number of
    POST /orders requests completed with an accepted payment and under
    status=error by the number completed with a declined one, the histogram
    gets one observation per completed POST /orders, the store one write
    per POST /orders completed with an accepted payment (a declined one
    writes nothing), and one response is sent per completed request of any
    kind; a request still in flight has been counted nowhere. *)
Theorem instruments_track_completed_requests ls : forall s s',
  run ls s = Some s' ->
  Forall (fun tk => task_ok tk = true) (tasks s) ->
  let h := history (world s) in
  let h' := history (world s') in
  (counter_value "success" h' - Z.of_nat (completed is_confirmed (tasks s'))
   = counter_value "success" h - Z.of_nat (completed is_confirmed (tasks s)))%Z
  /\
  (counter_value "error" h' - Z.of_nat (completed is_declined (tasks s'))
   = counter_value "error" h - Z.of_nat (completed is_declined (tasks s)))%Z
  /\
  length (histogram_values h') + completed is_post (tasks s)
  = length (histogram_values h) + completed is_post (tasks s') /\
  count_events is_respond h' + completed any_request (tasks s)
  = count_events is_respond h + completed any_request (tasks s') /\
  count_events is_store_write h' + completed is_confirmed (tasks s)
  = count_events is_store_write h + completed is_confirmed (tasks s').
Proof.
  induction ls as [|l ls IH]; intros s s' Hrun Hok; cbv zeta.
  { injection Hrun as <-. repeat split; lia. }
  cbn [run] in Hrun. destruct (step l s) as [s1|] eqn:Hstep; [|done].
  pose proof (Forall_task_ok_step _ _ _ Hstep Hok) as Hok1.
  destruct (IH _ _ Hrun Hok1) as (I1 & I2 & I3 & I4 & I5).
  cbv zeta in *. clear IH Hrun.
  assert (Hs1 :
    (counter_value "success" (history (world s1))
     - Z.of_nat (completed is_confirmed (tasks s1))
     = counter_value "success" (history (world s))
       - Z.of_nat (completed is_confirmed (tasks s)))%Z /\
    (counter_value "error" (history (world s1))
     - Z.of_nat (completed is_declined (tasks s1))
     = counter_value "error" (history (world s))
       - Z.of_nat (completed is_declined (tasks s)))%Z /\
    length (histogram_values (history (world s1))) + completed is_post (tasks s)
    = length (histogram_values (history (world s)))
      + completed is_post (tasks s1) /\
    count_events is_respond (history (world s1))
    + completed any_request (tasks s)
    = count_events is_respond (history (world s))
      + completed any_request (tasks s1) /\
    count_events is_store_write (history (world s1))
    + completed is_confirmed (tasks s)
    = count_events is_store_write (history (world s))
      + completed is_confirmed (tasks s1)).
  { clear I1 I2 I3 I4 I5 Hok1. destruct l as [r|i t].
    - rewrite step_arrive in Hstep. injection Hstep as <-.
      cbn [world tasks history]. unfold completed.
      rewrite !counter_value_app, histogram_values_app, length_app,
        !count_events_app, !count_snoc.
      destruct (entry_events_accounts r (length (spans (world s))))
        as (E1 & E2 & E3 & E4 & E5 & E6).
      cbv zeta in *. rewrite E1, E2, E3, E4, E5.
      destruct (entry_outcome r (length (spans (world s))));
        cbn [task_of task_request is_waiting task_state is_completed negb
             andb any_request] in *;
        rewrite ?andb_false_r, ?andb_true_r.
      + lia.
      + specialize (E6 eq_refl).
        destruct r; try discriminate E6;
          cbn [is_confirmed is_declined is_post]; lia.
    - apply step_fire_inv in Hstep
        as (r & p & delay & armed & Hi & _ & _ & ->).
      cbn [world tasks history]. unfold completed.
      assert (Htk : task_ok (mkTask r (Waiting p delay armed)) = true)
        by (by eapply (Forall_lookup_1 _ _ _ _ Hok Hi)).
      destruct (resume_events_accounts r p delay armed
                  (length (spans (world s))) (ordersDb (world s)) Htk)
        as (E1 & E2 & E3 & E4 & E5).
      cbv zeta in *.
      change (EvTimer delay :: ?l) with ([EvTimer delay] ++ l).
      rewrite !counter_value_app, !histogram_values_app, !length_app,
        !count_events_app, E1, E2, E3, E4, E5.
      pose proof (fun q => count_insert
        (fun tk => q (task_request tk) && negb (is_waiting tk)) _ _ _
        (task_of r t (Ok (resume_outcome r p (length (spans (world s))))))
        Hi) as Hc.
      pose proof (Hc is_confirmed) as C1. pose proof (Hc is_declined) as C2.
      pose proof (Hc is_post) as C3. pose proof (Hc any_request) as C4.
      clear Hc.
      destruct (resume_outcome r p (length (spans (world s))));
        cbn [task_of task_request is_waiting task_state is_completed negb
             any_request] in *;
        rewrite ?andb_false_r, ?andb_true_r in *;
        destruct (is_confirmed r), (is_declined r), (is_post r);
        cbn in *; lia. }
  destruct Hs1 as (J1 & J2 & J3 & J4 & J5).
  repeat split; lia.
Qed.

Lemma instruments_track_completed_requests_witness :
  exists s',
    run sample_schedule sample_system = Some s' /\
    counter_value "success" (history (world s')) = 1%Z /\
    counter_value "error" (history (world s')) = 1%Z.
Proof.
  assert (H : exists s', run sample_schedule sample_system = Some s'
                         /\ completed is_confirmed (tasks s') = 1
                         /\ completed is_declined (tasks s') = 1).
  { vm_compute. eexists. repeat split; reflexivity. }
  destruct H as (s' & Hrun & Hc & Hd). exists s'. split; [exact Hrun|].
  assert (Hok : Forall (fun tk => task_ok tk = true) (tasks sample_system))
    by constructor.
  destruct (instruments_track_completed_requests _ _ _ Hrun Hok)
    as (I1 & I2 & _).
  rewrite Hc in I1. rewrite Hd in I2. cbn in I1, I2. split; lia.
Defined.

Lemma total_remaining_snoc ts tk :
  total_remaining (ts ++ [tk]) = total_remaining ts + remaining_sections tk.
Proof.
  induction ts as [|a ts IH]; cbn; [lia|].
  fold (total_remaining (ts ++ [tk])) (total_remaining ts). lia.
Qed.

Lemma total_remaining_insert ts i tk tk' :
  ts !! i = Some tk ->
  total_remaining (<[i := tk']> ts) + remaining_sections tk
  = total_remaining ts + remaining_sections tk'.
Proof.
  revert i. induction ts as [|a ts IH]; intros [|i] Hi; try done.
  - injection Hi as ->. change (<[0 := tk']> (tk :: ts)) with (tk' :: ts).
    cbn. lia.
  - specialize (IH i Hi).
    change (<[S i := tk']> (a :: ts)) with (a :: <[i := tk']> ts).
    cbn. fold (total_remaining (<[i := tk']> ts)) (total_remaining ts). lia.
Qed.

Lemma remaining_sections_resume r p delay armed t n :
  remaining_sections (task_of r t (Ok (resume_outcome r p n)))
  < remaining_sections (mkTask r (Waiting p delay armed)).
Proof.
  destruct r as [|d t0 t1|u|k u], p; cbn; try lia.
  destruct (paymentFails (paymentDraws d)); cbn; lia.
Qed.

(** X23: whatever the interleaving, every firing of a timer brings its
    request strictly closer to completion: a request passes at most four
    [await]s, so a schedule can fire at most four timers per request
    received, plus what the requests already in flight still had to
    pass. *)
Theorem timers_fired_are_bounded ls : forall s s',
  run ls s = Some s' ->
  length (List.filter is_fire ls) + total_remaining (tasks s')
  <= total_remaining (tasks s)
     + 4 * length (List.filter (is_arrival any_request) ls).
Proof.
  induction ls as [|l ls IH]; intros s s' Hrun.
  { injection Hrun as <-. cbn. lia. }
  cbn [run] in Hrun. destruct (step l s) as [s1|] eqn:Hstep; [|done].
  specialize (IH _ _ Hrun). destruct l as [r|i t].
  - rewrite step_arrive in Hstep. injection Hstep as <-.
    cbn [tasks] in IH. rewrite total_remaining_snoc in IH.
    cbn [List.filter is_fire is_arrival any_request length].
    assert (remaining_sections
              (task_of r (clock (world s))
                 (Ok (entry_outcome r (length (spans (world s)))))) <= 4)
      by (destruct r; cbn; lia).
    cbn [task_of] in *. lia.
  - apply step_fire_inv in Hstep
      as (r & p & delay & armed & Hi & _ & _ & ->).
    cbn [tasks] in IH.
    pose proof (total_remaining_insert _ _ _
      (task_of r t (Ok (resume_outcome r p (length (spans (world s))))))
      Hi) as Hins.
    pose proof (remaining_sections_resume r p delay armed t
                  (length (spans (world s)))) as Hlt.
    cbn [List.filter is_fire is_arrival length]. cbn [task_of] in *. lia.
Qed.

Lemma timers_fired_are_bounded_witness :
  exists s',
    run sample_schedule sample_system = Some s' /\
    length (List.filter is_fire sample_schedule)
    + total_remaining (tasks s')
    <= total_remaining (tasks sample_system)
       + 4 * length (List.filter (is_arrival any_request) sample_schedule).
Proof.
  destruct sample_schedule_runs as (s' & Hrun).
  exists s'. split; [exact Hrun|].
  exact (timers_fired_are_bounded _ _ _ Hrun).
Defined.

Lemma last_section_writes_own_order i t d t0 t1 root child delay armed s s1 :
  tasks s !! i
  = Some (mkTask (ReqPostOrders d t0 t1)
            (Waiting (AwaitUpdate root child) delay armed)) ->
  step (Fire i t) s = Some s1 ->
  ordersDb (world s1) !! genOrderId (idDraw d) = Some (new_order d).
Proof.
  intros Hi Hstep.
  apply step_fire_inv in Hstep
    as (r & p & delay' & armed' & Hi' & _ & _ & ->).
  rewrite Hi in Hi'. injection Hi' as <- <- <- <-.
  cbn. apply lookup_insert_eq.
Qed.

Lemma step_store l s s1 :
  step l s = Some s1 ->
  ordersDb (world s1) = ordersDb (world s) \/
  exists d, ordersDb (world s1)
            = <[genOrderId (idDraw d) := new_order d]> (ordersDb (world s)).
Proof.
  intros Hstep. destruct l as [r|i t].
  - rewrite step_arrive in Hstep. injection Hstep as <-. by left.
  - apply step_fire_inv in Hstep
      as (r & p & delay & armed & Hi & _ & _ & ->).
    cbn [world ordersDb]. destruct r as [|d t0 t1|u|k u], p; eauto.
Qed.

Lemma store_writes_app h1 h2 :
  store_writes (h1 ++ h2) = store_writes h1 ++ store_writes h2.
Proof. apply omap_app. Qed.

Lemma apply_writes_app ws1 ws2 db :
  apply_writes (ws1 ++ ws2) db = apply_writes ws2 (apply_writes ws1 db).
Proof. apply foldl_app. Qed.

(** What one turn adds to the history and does to the store. *)
Lemma step_writes l s s1 :
  step l s = Some s1 ->
  exists evs,
    history (world s1) = history (world s) ++ evs /\
    store_writes evs = turn_writes l s /\
    ordersDb (world s1) = apply_writes (turn_writes l s) (ordersDb (world s)).
Proof.
  intros Hstep. destruct l as [r|i t].
  - rewrite step_arrive in Hstep. injection Hstep as <-.
    eexists. split; [reflexivity|]. split; [|done]. by destruct r.
  - apply step_fire_inv in Hstep
      as (r & p & delay & armed & Hi & _ & _ & ->).
    eexists. split; [reflexivity|]. cbn [turn_writes world ordersDb].
    rewrite Hi.
    destruct r as [|d t0 t1|u|k u], p;
      cbn [resume_events post_resume_events resume_store];
      unfold payment_arm_events, get_order_response;
      try (destruct (paymentFails (paymentDraws d)));
      try (destruct (isSlow (paymentDraws d)));
      try (destruct (truthy (property_read (ordersDb (world s)) k)));
      done.
Qed.

Lemma run_writes ls : forall s s',
  run ls s = Some s' ->
  exists evs,
    history (world s') = history (world s) ++ evs /\
    store_writes evs = schedule_writes ls s /\
    ordersDb (world s')
    = apply_writes (schedule_writes ls s) (ordersDb (world s)).
Proof.
  induction ls as [|l ls IH]; intros s s' Hrun.
  - injection Hrun as <-. exists []. by rewrite app_nil_r.
  - cbn [run schedule_writes] in *.
    destruct (step l s) as [s1|] eqn:Hstep; [|done].
    destruct (step_writes _ _ _ Hstep) as (evs1 & Hh1 & Hw1 & Hdb1).
    destruct (IH _ _ Hrun) as (evs & Hh & Hw & Hdb).
    exists (evs1 ++ evs). split; [|split].
    + by rewrite Hh, Hh1, app_assoc.
    + by rewrite store_writes_app, Hw1, Hw.
    + by rewrite apply_writes_app, <- Hdb1.
Qed.

(** X24: under every interleaving the store keeps every entry it has (a
    key once present stays present), and every order in it still sits
    under its own identifier with status "confirmed"; the section that
    follows the last query of a POST /orders puts the order of its request
    under the identifier drawn when the request arrived, whatever was
    written there in between, and no other section writes: the
    assignments recorded in the history of a schedule are those of these
    sections, in the order they ran, and the store at the end is the store
    at the start with exactly these assignments made. *)
Theorem store_under_interleaving ls : forall s s',
  run ls s = Some s' ->
  (forall k, is_Some (ordersDb (world s) !! k) ->
             is_Some (ordersDb (world s') !! k)) /\
  (store_wf (ordersDb (world s)) -> store_wf (ordersDb (world s'))) /\
  (forall i t d t0 t1 root child delay armed s1,
     tasks s' !! i
     = Some (mkTask (ReqPostOrders d t0 t1)
               (Waiting (AwaitUpdate root child) delay armed)) ->
     step (Fire i t) s' = Some s1 ->
     ordersDb (world s1) !! genOrderId (idDraw d) = Some (new_order d)) /\
  store_writes (events_since (world s) (world s')) = schedule_writes ls s /\
  ordersDb (world s')
  = apply_writes (schedule_writes ls s) (ordersDb (world s)) /\
  (forall l s1,
     step l s' = Some s1 ->
     store_writes (events_since (world s') (world s1)) = turn_writes l s' /\
     ordersDb (world s1)
     = apply_writes (turn_writes l s') (ordersDb (world s'))).
Proof.
  intros s s' Hrun.
  assert (Hfirst :
    (forall k, is_Some (ordersDb (world s) !! k) ->
               is_Some (ordersDb (world s') !! k)) /\
    (store_wf (ordersDb (world s)) -> store_wf (ordersDb (world s')))).
  { revert s s' Hrun. induction ls as [|l ls IH]; intros s s' Hrun.
    - by injection Hrun as <-.
    - cbn [run] in Hrun. destruct (step l s) as [s1|] eqn:Hstep; [|done].
      destruct (IH _ _ Hrun) as (Hkeep & Hwf).
      pose proof (step_store _ _ _ Hstep) as Hdb.
      split.
      + intros k Hk. apply Hkeep. destruct Hdb as [->|[d ->]]; [done|].
        rewrite lookup_insert_is_Some.
        destruct (decide (genOrderId (idDraw d) = k)); auto.
      + intros Hs. apply Hwf. destruct Hdb as [->|[d ->]]; [done|].
        intros k o. rewrite lookup_insert.
        case_decide as Hk; [|by apply Hs].
        intros [= <-]. by subst k. }
  destruct Hfirst as (Hkeep & Hwf).
  destruct (run_writes _ _ _ Hrun) as (evs & Hh & Hw & Hdb).
  split; [exact Hkeep|]. split; [exact Hwf|]. split; [|split; [|split]].
  - intros. by eapply last_section_writes_own_order.
  - by rewrite (events_since_app _ _ _ Hh).
  - exact Hdb.
  - intros l s1 Hstep.
    destruct (step_writes _ _ _ Hstep) as (evs1 & Hh1 & Hw1 & Hdb1).
    by rewrite (events_since_app _ _ _ Hh1).
Qed.

Lemma store_under_interleaving_witness :
  exists s',
    run sample_schedule sample_system = Some s' /\
    store_wf (ordersDb (world s')).
Proof.
  destruct sample_schedule_runs as (s' & Hrun).
  exists s'. split; [exact Hrun|].
  apply (proj1 (proj2 (store_under_interleaving _ _ _ Hrun))).
  intros k o Hk. cbn in Hk. rewrite lookup_empty in Hk. discriminate Hk.
Defined.

(** ** Spans under interleaving *)

Lemma lookup_snoc_new {A} (l : list A) (y x : A) (j : nat) :
  length l <= j -> (l ++ [y]) !! j = Some x -> x = y.
Proof.
  intros Hj Hx. rewrite lookup_app_r in Hx by done.
  destruct (j - length l) as [|m]; [by injection Hx|done].
Qed.

Lemma lookup_alter_other (f : Span -> Span) (sp : list Span) i j x :
  j <> i -> sp !! j = Some x -> alter f i sp !! j = Some x.
Proof. intros Hne Hx. by rewrite list_lookup_alter_ne. Qed.

(** X25: the section that follows the firing of a timer touches, among
    the spans that exist, only the root span and the awaited span of its
    own request: the spans of every other request, in flight or
    completed, are left exactly as they were.  The span it may open is
    new, open, starts at the firing time and has the root span of its own
    request as parent, whatever other requests ran in between. *)
Theorem sections_touch_only_own_spans i t s s' r p delay armed :
  tasks s !! i = Some (mkTask r (Waiting p delay armed)) ->
  step (Fire i t) s = Some s' ->
  (forall j x,
     j <> root_of p -> j <> child_of p ->
     spans (world s) !! j = Some x -> spans (world s') !! j = Some x) /\
  (forall j x,
     length (spans (world s)) <= j -> spans (world s') !! j = Some x ->
     span_parent x = Some (root_of p) /\ span_endTime x = None /\
     span_startTime x = t) /\
  length (spans (world s)) <= length (spans (world s')) /\
  length (spans (world s')) <= length (spans (world s)) + 1 /\
  activeSpan (world s') = activeSpan (world s).
Proof.
  intros Hi Hstep.
  apply step_fire_inv in Hstep
    as (r' & p' & delay' & armed' & Hi' & _ & _ & ->).
  rewrite Hi in Hi'. injection Hi' as <- <- <- <-.
  cbn [world spans activeSpan].
  set (sp := spans (world s)).
  assert (Hnew : forall f y j x,
            length sp <= j ->
            (alter f (child_of p) sp ++ [y]) !! j = Some x -> x = y).
  { intros f y j x Hj. apply lookup_snoc_new. by rewrite length_alter. }
  assert (Hold : forall f y j x,
            j <> child_of p -> sp !! j = Some x ->
            (alter f (child_of p) sp ++ [y]) !! j = Some x).
  { intros f y j x Hne Hx. rewrite lookup_app_l.
    - by apply lookup_alter_other.
    - rewrite length_alter. by eapply lookup_lt_Some. }
  assert (Hnone : forall (l : list Span) j x,
            length l = length sp -> length sp <= j -> l !! j = Some x -> False).
  { intros l j x Hl Hj Hx. apply lookup_lt_Some in Hx. lia. }
  destruct r as [|d t0 t1|u|k u], p as [root child|root child|root child
    |root child|root child|root child];
    cbn [resume_spans root_of child_of] in *;
    try (destruct (paymentFails (paymentDraws d)));
    (split; [|split; [|split; [|split]]]);
    rewrite ?length_app, ?length_alter; cbn [length]; try lia; try done;
    try (intros j x Hr Hc Hx;
         first [ by apply Hold
               | by repeat apply lookup_alter_other ]);
    try (intros j x Hj Hx;
         first [ by apply Hnew in Hx as ->
               | exfalso; eapply (Hnone _ j x); [|done|done];
                 by rewrite ?length_alter ]).
Qed.

Lemma sections_touch_only_own_spans_witness :
  exists s',
    step (Fire 0 30) sample_waiting_system = Some s' /\
    spans (world s') !! 2 = Some (sample_open_span "get_order" None).
Proof.
  assert (H : exists s', step (Fire 0 30) sample_waiting_system = Some s').
  { vm_compute. eexists. reflexivity. }
  destruct H as (s' & Hstep). exists s'. split; [exact Hstep|].
  assert (Hi : tasks sample_waiting_system !! 0
               = Some (mkTask (ReqGetOrders (1 # 2))
                         (Waiting (AwaitSelectAll 0 1) 30 0)))
    by reflexivity.
  apply (proj1 (sections_touch_only_own_spans _ _ _ _ _ _ _ _ Hi Hstep));
    [cbn; lia|cbn; lia|reflexivity].
Defined.

Lemma span_times_ok_mono c t s :
  (c <= t)%Q -> span_times_ok c s -> span_times_ok t s.
Proof.
  intros Hct [Hs He]. split; [by eapply Qle_trans|].
  intros e Hend. destruct (He e Hend) as [H1 H2].
  split; [done|by eapply Qle_trans].
Qed.

Lemma span_times_ok_end_span t s :
  span_times_ok t s -> span_times_ok t (end_span t s).
Proof.
  intros [Hs He]. unfold end_span. destruct (is_ended s); [done|].
  split; [done|]. cbn. intros e [= <-]. split; [done|apply Qle_refl].
Qed.

Lemma span_times_ok_set_status t st s :
  span_times_ok t s -> span_times_ok t (set_status st s).
Proof. intros H. unfold set_status. by destruct (is_ended s). Qed.

Lemma span_times_ok_open t name parent attrs st :
  span_times_ok t (mkSpan name parent attrs st t None).
Proof. split; [apply Qle_refl|]. intros e [=]. Qed.

Lemma Forall_span_times_alter t f i sp :
  (forall s, span_times_ok t s -> span_times_ok t (f s)) ->
  Forall (span_times_ok t) sp -> Forall (span_times_ok t) (alter f i sp).
Proof. intros Hf Hsp. apply Forall_alter; [done|]. intros x _. apply Hf. Qed.

Lemma span_times_step l s s' :
  step l s = Some s' ->
  Forall (span_times_ok (clock (world s))) (spans (world s)) ->
  Forall (span_times_ok (clock (world s'))) (spans (world s')) /\
  (clock (world s) <= clock (world s'))%Q.
Proof.
  intros Hstep Hsp. destruct l as [r|i t].
  - rewrite step_arrive in Hstep. injection Hstep as <-.
    cbn [world spans clock]. split; [|apply Qle_refl].
    apply Forall_app. split; [done|].
    destruct r as [|d t0 t1|u|k u]; cbn [entry_spans];
      unfold db_span_open;
      repeat (apply Forall_cons; split; [apply span_times_ok_open|]);
      apply Forall_nil_2.
  - apply step_fire_inv in Hstep
      as (r & p & delay & armed & Hi & _ & Hct & ->).
    cbn [world spans clock]. split; [|done].
    assert (Ht : Forall (span_times_ok t) (spans (world s))).
    { eapply Forall_impl; [exact Hsp|]. intros x. by apply span_times_ok_mono. }
    assert (Hend : forall i sp, Forall (span_times_ok t) sp ->
                     Forall (span_times_ok t) (alter (end_span t) i sp)).
    { intros j sp. apply Forall_span_times_alter.
      apply span_times_ok_end_span. }
    assert (Hst : forall st i sp, Forall (span_times_ok t) sp ->
                    Forall (span_times_ok t) (alter (set_status st) i sp)).
    { intros st j sp. apply Forall_span_times_alter.
      intros x. apply span_times_ok_set_status. }
    destruct r as [|d t0 t1|u|k u], p; cbn [resume_spans];
      try (destruct (paymentFails (paymentDraws d)));
      unfold db_span_open, payment_span_open;
      rewrite ?Forall_app; repeat split; auto;
      repeat (apply Forall_cons; split; [apply span_times_ok_open|]);
      apply Forall_nil_2.
Qed.

(** X26: under every interleaving in which timers fire no earlier than
    their delay and time does not go back, the timestamps of the span
    table stay consistent: every span started no later than now, and every
    closed span ended between its start and now, so no span has a negative
    duration. *)
Theorem span_times_stay_consistent ls : forall s s',
  run ls s = Some s' ->
  Forall (span_times_ok (clock (world s))) (spans (world s)) ->
  Forall (span_times_ok (clock (world s'))) (spans (world s')) /\
  (clock (world s) <= clock (world s'))%Q.
Proof.
  induction ls as [|l ls IH]; intros s s' Hrun Hsp.
  { injection Hrun as <-. split; [done|apply Qle_refl]. }
  cbn [run] in Hrun. destruct (step l s) as [s1|] eqn:Hstep; [|done].
  destruct (span_times_step _ _ _ Hstep Hsp) as [Hsp1 Hc1].
  destruct (IH _ _ Hrun Hsp1) as [Hsp' Hc'].
  split; [done|by eapply Qle_trans].
Qed.

Lemma span_times_stay_consistent_witness :
  exists s',
    run sample_schedule sample_system = Some s' /\
    Forall (span_times_ok (clock (world s'))) (spans (world s')).
Proof.
  destruct sample_schedule_runs as (s' & Hrun).
  exists s'. split; [exact Hrun|].
  apply (proj1 (span_times_stay_consistent _ _ _ Hrun (Forall_nil_2 _))).
Defined.

(** ** One request alone on the event loop *)

Lemma step_fire_last ts r p delay armed t w :
  (armed + delay <= t)%Q -> (clock w <= t)%Q ->
  step (Fire (length ts) t)
    (mkSystem w (ts ++ [mkTask r (Waiting p delay armed)])) =
  Some (mkSystem
          (mkWorld (resume_store r p (ordersDb w))
             (resume_spans r p t (spans w)) (activeSpan w) t
             (history w
              ++ EvTimer delay
                 :: resume_events r p (length (spans w)) (ordersDb w)))
          (ts ++ [task_of r t (Ok (resume_outcome r p (length (spans w))))])).
Proof.
  intros H1 H2.
  rewrite (step_fire _ _ _ r p delay armed); [|by apply list_lookup_middle|done..].
  cbn [world tasks]. do 2 f_equal.
  rewrite insert_app_r_alt, Nat.sub_diag by done. reflexivity.
Qed.

Lemma Qle_plus_nonneg (c d : Q) : (0 <= d)%Q -> (c <= c + d)%Q.
Proof. intros Hd. lra. Qed.

Lemma alter_app_r0 (f : Span -> Span) (sp news : list Span) :
  alter f (length sp) (sp ++ news) = sp ++ alter f 0 news.
Proof. rewrite <- (Nat.add_0_r (length sp)) at 1. apply alter_app_r. Qed.

Ltac settle_spans :=
  repeat first
    [ progress cbn [length app Nat.add world tasks ordersDb spans activeSpan
                    clock history]
    | match goal with
      | |- context [alter ?f (length ?sp) (?sp ++ ?news)] =>
          rewrite (alter_app_r0 f sp news)
      | |- context [alter ?f (length ?sp + ?k) (?sp ++ ?news)] =>
          rewrite (alter_app_r f sp news k)
      | |- context [(?x ++ ?y) ++ ?z] => rewrite <- (app_assoc x y z)
      | |- context [length (?x ++ ?y)] => rewrite (length_app x y)
      end ];
  cbn [alter list_alter end_span set_status is_ended span_endTime span_name
       span_parent span_attributes span_status span_startTime
       db_span_open payment_span_open].

Ltac fire_last :=
  rewrite step_fire_last;
  [ cbn [resume_store resume_spans resume_events post_resume_events
         resume_outcome task_of];
    settle_spans
  | apply Qle_refl
  | cbn [clock]; apply Qle_plus_nonneg; lra ].

(** X27: a request that is alone on the event loop, each of its timers
    firing exactly when its delay has passed, leaves the world that the
    handler run from entry to exit leaves: the same store, span table,
    clock, history and context, its task completed. *)
Theorem alone_request_matches_handler r w ts :
  valid_request r ->
  run (alone r (length ts) (clock w)) (mkSystem w ts)
  = Some (mkSystem (after r w) (ts ++ [mkTask r Done])).
Proof.
  intros Hr. destruct w as [db sp a c h]. rewrite after_request.
  unfold alone.
  destruct r as [|d t0 t1|u|k u];
    cbn [alone_times map run request_store request_spans request_clock
         request_events ordersDb spans activeSpan clock history].
  - rewrite step_arrive. cbn. reflexivity.
  - destruct Hr as (_ & _ & Hinv & Hins & (_ & Hpay & _) & Hupd).
    apply dbDelay_default_range in Hinv as [Hinv _], Hins as [Hins _],
      Hupd as [Hupd _].
    assert (0 <= paymentDelay (paymentDraws d))%Q.
    { apply paymentDelay_range in Hpay.
      destruct (isSlow (paymentDraws d)); lra. }
    rewrite step_arrive.
    cbn [world tasks ordersDb spans activeSpan clock history entry_spans
         entry_events entry_outcome task_of].
    destruct (paymentFails (paymentDraws d)) eqn:Hp;
      cbn [map run]; do 3 fire_last; rewrite ?Hp; settle_spans.
    + unfold declined_spans, declined_root, step_spans, db_span, payment_span,
        declined_events, step_events, db_events, payment_events,
        payment_arm_events, root_attributes.
      rewrite Hp. destruct (isSlow (paymentDraws d)); reflexivity.
    + fire_last. cbn [run].
      unfold success_spans, success_root, step_spans, db_span, payment_span,
        success_events, success_tail, step_events, db_events, payment_events,
        payment_arm_events, root_attributes.
      rewrite Hp. destruct (isSlow (paymentDraws d)); reflexivity.
  - apply dbDelay_default_range in Hr as [Hr _].
    rewrite step_arrive.
    cbn [world tasks ordersDb spans activeSpan clock history entry_spans
         entry_events entry_outcome task_of map run].
    fire_last. reflexivity.
  - apply dbDelay_default_range in Hr as [Hr _].
    rewrite step_arrive.
    cbn [world tasks ordersDb spans activeSpan clock history entry_spans
         entry_events entry_outcome task_of map run].
    fire_last. reflexivity.
Qed.

Lemma alone_request_matches_handler_witness :
  valid_request (ReqPostOrders sample_post_ok 1000 1400) /\
  run (alone (ReqPostOrders sample_post_ok 1000 1400) 0 0) sample_system
  = Some (mkSystem (after (ReqPostOrders sample_post_ok 1000 1400) initial_world)
            [mkTask (ReqPostOrders sample_post_ok 1000 1400) Done]).
Proof.
  split; [exact valid_sample_post_ok|].
  exact (alone_request_matches_handler
           (ReqPostOrders sample_post_ok 1000 1400) initial_world []
           valid_sample_post_ok).
Defined.
